(** * Launchium: profile store, launch arguments and view state machine

    A shallow embedding of [main.go] (and of the older single-platform
    variant of the same program) with the properties of its profile
    store, its launch-argument builder, its key-driven view state machine
    and its command-line entry point. *)

From Stdlib Require Import ZArith Ascii String List.
From stdpp Require Import base option list gmap strings fin_maps.

Local Open Scope string_scope.
Local Open Scope list_scope.

(** ** Go strings

    A Go string is a sequence of bytes; [string] (a list of [ascii]) is
    used for it.  The program only ever splits on a one-byte separator
    (newline, [|] or space), so [Split] takes the separator as a byte. *)

Definition chr_nl : ascii := "010"%char.
Definition chr_bar : ascii := "|"%char.
Definition chr_space : ascii := " "%char.

(** [strings.Split(s, sep)]: the pieces of [s] between the occurrences of
    [sep]; one piece more than there are separators, so never empty. *)
Fixpoint Split (s : string) (sep : ascii) : list string :=
  match s with
  | EmptyString => [ "" ]
  | String c s' =>
      if Ascii.eqb c sep then "" :: Split s' sep
      else match Split s' sep with
           | [] => [ String c "" ]
           | w :: ws => String c w :: ws
           end
  end.

(** [strings.HasPrefix(s, prefix)]. *)
Definition HasPrefix (s prefix : string) : bool := String.prefix prefix s.

(** [s[:len(s)-1]]: [s] without its last byte. *)
Fixpoint dropLast (s : string) : string :=
  match s with
  | EmptyString => ""
  | String c EmptyString => ""
  | String c s' => String c (dropLast s')
  end.

(** Whether byte [c] occurs in [s] (used in statements only). *)
Fixpoint hasByte (c : ascii) (s : string) : bool :=
  match s with
  | EmptyString => false
  | String d s' => Ascii.eqb d c || hasByte c s'
  end.

(** ** Profiles *)

Record Profile := mkProfile {
  Name : string;
  Proxy : string;
  ProxyType : string;
  Flags : string
}.

#[global] Instance Profile_eq_dec : EqDecision Profile.
Proof. solve_decision. Defined.

(** ** The terminal UI library, as far as the program looks at it

    Only the items of a list and the position of its cursor are kept of a
    [list.Model]; titles, sizes and styling are presentation. *)

Record item := mkItem { title : string; desc : string }.

Record ListModel := mkList { items : list item; cursor : nat }.

(** [list.New(items, ...)]: the cursor starts on the first item. *)
Definition list_New (its : list item) : ListModel := mkList its 0.

(** [l.SelectedItem()]: [nil] when the cursor is past the items. *)
Definition SelectedItem (l : ListModel) : option item := items l !! cursor l.

Inductive KeyType :=
  KeyCtrlC | KeyEsc | KeyEnter | KeyBackspace | KeyRunes | KeyUp | KeyDown.

#[global] Instance KeyType_eq_dec : EqDecision KeyType.
Proof. solve_decision. Defined.

(** A key press: [msg.Type], [msg.Runes] and [msg.Alt]. *)
Record Key := mkKey { KType : KeyType; Runes : string; Alt : bool }.

Definition keyName (t : KeyType) : string :=
  match t with
  | KeyCtrlC => "ctrl+c"
  | KeyEsc => "esc"
  | KeyEnter => "enter"
  | KeyBackspace => "backspace"
  | KeyRunes => "runes"
  | KeyUp => "up"
  | KeyDown => "down"
  end.

(** [msg.String()]: the typed characters for [KeyRunes], the name of the
    key otherwise, behind ["alt+"] when Alt is held. *)
Definition Key_String (k : Key) : string :=
  (if Alt k then "alt+" else "") +:+
  (match KType k with KeyRunes => Runes k | t => keyName t end).

Inductive Msg := WindowSizeMsg (width height : Z) | KeyMsg (k : Key) | OtherMsg.

(** [tea.Cmd]: [nil], [tea.Quit], or a command of the list component. *)
Inductive Cmd := CmdNil | CmdQuit | CmdList (n : nat).

(** Errors are carried as their text. *)
Definition error := string.

(** [ChromiumManager]: the whole application state. *)
Record ChromiumManager := mkManager {
  profiles : gmap string Profile;
  configFile : string;
  chromePath : string;
  profileDir : string;
  currentView : string;
  mainList : ListModel;
  profileList : ListModel;
  manageList : ListModel;
  message : string;
  selected : string;
  profileName : string;
  profileProxy : string;
  profileType : string;
  profileFlags : string;
  err : option error
}.

(** Field assignments [cm.f = x]. *)
Definition set_profiles (x : gmap string Profile) (cm : ChromiumManager) :=
  {| profiles := x; configFile := configFile cm;
     chromePath := chromePath cm; profileDir := profileDir cm;
     currentView := currentView cm; mainList := mainList cm;
     profileList := profileList cm; manageList := manageList cm;
     message := message cm; selected := selected cm;
     profileName := profileName cm; profileProxy := profileProxy cm;
     profileType := profileType cm; profileFlags := profileFlags cm;
     err := err cm |}.
Definition set_currentView (x : string) (cm : ChromiumManager) :=
  {| profiles := profiles cm; configFile := configFile cm;
     chromePath := chromePath cm; profileDir := profileDir cm;
     currentView := x; mainList := mainList cm;
     profileList := profileList cm; manageList := manageList cm;
     message := message cm; selected := selected cm;
     profileName := profileName cm; profileProxy := profileProxy cm;
     profileType := profileType cm; profileFlags := profileFlags cm;
     err := err cm |}.
Definition set_mainList (x : ListModel) (cm : ChromiumManager) :=
  {| profiles := profiles cm; configFile := configFile cm;
     chromePath := chromePath cm; profileDir := profileDir cm;
     currentView := currentView cm; mainList := x;
     profileList := profileList cm; manageList := manageList cm;
     message := message cm; selected := selected cm;
     profileName := profileName cm; profileProxy := profileProxy cm;
     profileType := profileType cm; profileFlags := profileFlags cm;
     err := err cm |}.
Definition set_profileList (x : ListModel) (cm : ChromiumManager) :=
  {| profiles := profiles cm; configFile := configFile cm;
     chromePath := chromePath cm; profileDir := profileDir cm;
     currentView := currentView cm; mainList := mainList cm;
     profileList := x; manageList := manageList cm; message := message cm;
     selected := selected cm; profileName := profileName cm;
     profileProxy := profileProxy cm; profileType := profileType cm;
     profileFlags := profileFlags cm; err := err cm |}.
Definition set_manageList (x : ListModel) (cm : ChromiumManager) :=
  {| profiles := profiles cm; configFile := configFile cm;
     chromePath := chromePath cm; profileDir := profileDir cm;
     currentView := currentView cm; mainList := mainList cm;
     profileList := profileList cm; manageList := x; message := message cm;
     selected := selected cm; profileName := profileName cm;
     profileProxy := profileProxy cm; profileType := profileType cm;
     profileFlags := profileFlags cm; err := err cm |}.
Definition set_message (x : string) (cm : ChromiumManager) :=
  {| profiles := profiles cm; configFile := configFile cm;
     chromePath := chromePath cm; profileDir := profileDir cm;
     currentView := currentView cm; mainList := mainList cm;
     profileList := profileList cm; manageList := manageList cm;
     message := x; selected := selected cm; profileName := profileName cm;
     profileProxy := profileProxy cm; profileType := profileType cm;
     profileFlags := profileFlags cm; err := err cm |}.
Definition set_selected (x : string) (cm : ChromiumManager) :=
  {| profiles := profiles cm; configFile := configFile cm;
     chromePath := chromePath cm; profileDir := profileDir cm;
     currentView := currentView cm; mainList := mainList cm;
     profileList := profileList cm; manageList := manageList cm;
     message := message cm; selected := x; profileName := profileName cm;
     profileProxy := profileProxy cm; profileType := profileType cm;
     profileFlags := profileFlags cm; err := err cm |}.
Definition set_profileName (x : string) (cm : ChromiumManager) :=
  {| profiles := profiles cm; configFile := configFile cm;
     chromePath := chromePath cm; profileDir := profileDir cm;
     currentView := currentView cm; mainList := mainList cm;
     profileList := profileList cm; manageList := manageList cm;
     message := message cm; selected := selected cm; profileName := x;
     profileProxy := profileProxy cm; profileType := profileType cm;
     profileFlags := profileFlags cm; err := err cm |}.
Definition set_profileProxy (x : string) (cm : ChromiumManager) :=
  {| profiles := profiles cm; configFile := configFile cm;
     chromePath := chromePath cm; profileDir := profileDir cm;
     currentView := currentView cm; mainList := mainList cm;
     profileList := profileList cm; manageList := manageList cm;
     message := message cm; selected := selected cm;
     profileName := profileName cm; profileProxy := x;
     profileType := profileType cm; profileFlags := profileFlags cm;
     err := err cm |}.
Definition set_profileType (x : string) (cm : ChromiumManager) :=
  {| profiles := profiles cm; configFile := configFile cm;
     chromePath := chromePath cm; profileDir := profileDir cm;
     currentView := currentView cm; mainList := mainList cm;
     profileList := profileList cm; manageList := manageList cm;
     message := message cm; selected := selected cm;
     profileName := profileName cm; profileProxy := profileProxy cm;
     profileType := x; profileFlags := profileFlags cm; err := err cm |}.
Definition set_profileFlags (x : string) (cm : ChromiumManager) :=
  {| profiles := profiles cm; configFile := configFile cm;
     chromePath := chromePath cm; profileDir := profileDir cm;
     currentView := currentView cm; mainList := mainList cm;
     profileList := profileList cm; manageList := manageList cm;
     message := message cm; selected := selected cm;
     profileName := profileName cm; profileProxy := profileProxy cm;
     profileType := profileType cm; profileFlags := x; err := err cm |}.

(** ** The operating system

    Regular files are a map from path to content.  Directory calls, process
    starts and prints are logged as events, newest first; how the system
    answers a call it can refuse is left to the [Runtime] below, which
    may look at everything that happened so far.  A removal takes the
    files at and below its path out of the map. *)

Inductive Event :=
  | EvMkdirAll (path : string)
  | EvRemoveAll (path : string)
  | EvStart (name : string) (args : list string)
  | EvPrint (text : string).

Record World := mkWorld {
  files : gmap string string;
  events : list Event
}.

(** What a [flag.FlagSet] created with [flag.ExitOnError] does with the
    arguments: hand back the value of [-profile], or end the process. *)
Inductive FlagResult := FlagValue (v : string) | FlagExit (code : Z).

(** The platform the program runs on and the libraries it calls.
    [flag_Parse d args] parses [args] with a flag set whose [-profile]
    flag has default [d] ([None]: the set defines no flag).  Ranging over
    a Go map visits every entry once, in an order of the runtime's
    choosing: [map_range].  [os.RemoveAll] removes what it can and
    returns the first error it meets: when it fails, [RemoveAll_keeps]
    says which files below the path are still there. *)
Class Runtime := {
  os_Args : list string;
  GOOS : string;
  UserHomeDir : string;
  TempDir : string;
  filepath_Join : string -> string -> string;
  flag_Parse : option string -> list string -> FlagResult;
  dir_missing : World -> string -> bool;
  WriteFile_err : World -> string -> option error;
  ReadDir : World -> string -> error + list string;
  RemoveAll_err : World -> string -> option error;
  RemoveAll_keeps : World -> string -> string -> bool;
  Start_err : World -> string -> list string -> option error;
  tea_Run_err : option error;
  tea_input : list Msg;
  list_Update : ListModel -> Msg -> ListModel * Cmd;
  map_range : gmap string Profile -> list (string * Profile);
  map_range_perm : forall m, map_range m ≡ₚ map_to_list m
}.

(** ** Processes

    A computation runs on a world and either returns or ends the process
    with an exit status ([os.Exit]). *)

Inductive Res (A : Type) := Ret (a : A) | Exited (code : Z).
Arguments Ret {A} a.
Arguments Exited {A} code.

Definition Proc (A : Type) : Type := World -> Res A * World.

#[global] Instance Proc_ret : MRet Proc := fun A a w => (Ret a, w).

#[global] Instance Proc_bind : MBind Proc := fun A B f c w =>
  match c w with
  | (Ret a, w') => f a w'
  | (Exited n, w') => (Exited n, w')
  end.

Definition getWorld : Proc World := fun w => (Ret w, w).

Definition logEvent (e : Event) : Proc unit :=
  fun w => (Ret tt, mkWorld (files w) (e :: events w)).

Definition os_Exit {A} (code : Z) : Proc A := fun w => (Exited code, w).

(** The status the process ends with: 0 when [main] returns. *)
Definition exitStatus {A} (r : Res A) : Z :=
  match r with Ret _ => 0%Z | Exited n => n end.

(** What was printed, oldest first. *)
Definition printed (w : World) : list string :=
  omap (fun e => match e with EvPrint s => Some s | _ => None end)
       (reverse (events w)).

Section Program.
Context `{RT : Runtime}.

Definition Print (s : string) : Proc unit := logEvent (EvPrint s).

(** [os.IsNotExist(err)] for the error of [os.Stat(path)]. *)
Definition Stat_IsNotExist (path : string) : Proc bool := fun w =>
  (Ret (match files w !! path with
        | Some _ => false
        | None => dir_missing w path
        end), w).

(** [os.MkdirAll(path, 0755)]; the program drops its error. *)
Definition MkdirAll (path : string) : Proc unit := logEvent (EvMkdirAll path).

(** [ioutil.WriteFile(path, data, perm)]: the file is replaced unless the
    system refuses. *)
Definition WriteFile (path data : string) : Proc (option error) := fun w =>
  match WriteFile_err w path with
  | Some e => (Ret (Some e), w)
  | None => (Ret None, mkWorld (<[path := data]> (files w)) (events w))
  end.

(** [ioutil.ReadFile(path)]: [None] stands for the error. *)
Definition ReadFile (path : string) : Proc (option string) := fun w =>
  (Ret (files w !! path), w).

(** [os.PathSeparator]. *)
Definition PathSeparator : string :=
  if String.eqb GOOS "windows" then String (ascii_of_nat 92) "" else "/".

(** The file [file] is [path] itself or lies in the tree below it. *)
Definition pathUnder (path file : string) : bool :=
  String.eqb file path || String.prefix (path +:+ PathSeparator) file.

(** Whether a call of [os.RemoveAll(path)] in world [w] takes [file] away:
    everything at and below [path] when it succeeds, what the system
    managed to remove when it fails. *)
Definition removes (path : string) (w : World) (file : string) : bool :=
  pathUnder path file
  && match RemoveAll_err w path with
     | None => true
     | Some _ => negb (RemoveAll_keeps w path file)
     end.

(** The world a call of [os.RemoveAll(path)] leaves. *)
Definition removed (path : string) (w : World) : World :=
  mkWorld (filter (fun kv : string * string => removes path w (fst kv) = false)
                  (files w))
          (EvRemoveAll path :: events w).

(** [os.RemoveAll(path)]. *)
Definition RemoveAll (path : string) : Proc (option error) := fun w =>
  (Ret (RemoveAll_err w path), removed path w).

(** [exec.Command(name, args...).Start()]. *)
Definition Start (name : string) (args : list string) : Proc (option error) :=
  fun w =>
  (Ret (Start_err w name args), mkWorld (files w) (EvStart name args :: events w)).

(** ** The profile store *)

(** [fmt.Sprintf("%s|%s|%s|%s\n", ...)] of a profile's fields. *)
Definition profileLine (p : Profile) : string :=
  Name p +:+ "|" +:+ Proxy p +:+ "|" +:+ ProxyType p +:+ "|" +:+ Flags p +:+
  String chr_nl "".

Definition defaults : list Profile :=
  [ mkProfile "default" "none" "none"
      "--no-first-run --disable-features=RendererCodeIntegrity";
    mkProfile "clean" "none" "none"
      "--no-first-run --disable-features=RendererCodeIntegrity,UseChromeOSDirectVideoDecoder --disable-gpu-driver-bug-workarounds --ignore-gpu-blacklist --disable-gpu-compositing --disable-infobars" ].

(** The body of the loop of [loadProfiles] over the lines of the file. *)
Definition loadLine (m : gmap string Profile) (line : string)
  : gmap string Profile :=
  if String.eqb line "" || HasPrefix line "#" then m
  else
    let parts := Split line chr_bar in
    if Nat.leb 4 (length parts) then
      <[ nth 0 parts "" :=
           mkProfile (nth 0 parts "") (nth 1 parts "") (nth 2 parts "")
                     (nth 3 parts "") ]> m
    else m.

Definition loadLines (m : gmap string Profile) (data : string)
  : gmap string Profile :=
  foldl loadLine m (Split data chr_nl).

Definition updateProfileList (cm : ChromiumManager) : ChromiumManager :=
  set_profileList
    (list_New ((fun kv => mkItem (fst kv) "") <$> map_range (profiles cm))) cm.

Definition updateManageList (cm : ChromiumManager) : ChromiumManager :=
  set_manageList
    (list_New [ mkItem "Add New Profile" "Create a new browser profile";
                mkItem "Edit Profile" "Modify an existing profile";
                mkItem "Delete Profile" "Remove a profile" ]) cm.

Definition loadProfiles (cm : ChromiumManager) : Proc ChromiumManager :=
  missing ← Stat_IsNotExist (configFile cm);
  (if missing : bool then
     WriteFile (configFile cm)
       (foldl (fun content p => content +:+ profileLine p) "" defaults)
   else mret None) ≫= fun _ =>
  data ← ReadFile (configFile cm);
  match data with
  | None => mret cm
  | Some data =>
      mret (updateProfileList (set_profiles (loadLines (profiles cm) data) cm))
  end.

(** The text [saveProfiles] builds from the entries in the order the
    range visits them. *)
Definition saveContent (entries : list (string * Profile)) : string :=
  foldl (fun content kv => content +:+ profileLine (snd kv)) "" entries.

Definition saveProfiles (cm : ChromiumManager) : Proc unit :=
  WriteFile (configFile cm) (saveContent (map_range (profiles cm))) ≫= fun _ =>
  mret tt.

(** ** Launching the browser *)

Definition nl : string := String chr_nl "".

Definition quoted (s : string) : string :=
  String (ascii_of_nat 34) s +:+ String (ascii_of_nat 34) "".

(** [strings.Join(elems, sep)]. *)
Fixpoint strings_Join (elems : list string) (sep : string) : string :=
  match elems with
  | [] => ""
  | [e] => e
  | e :: rest => e +:+ sep +:+ strings_Join rest sep
  end.

Definition prefsData : string :=
  "{" +:+ quoted "browser" +:+ ":{" +:+ quoted "enabled_labs_experiments" +:+
  ":[" +:+ quoted "ignore-gpu-blocklist@1" +:+ "]}," +:+
  quoted "distribution" +:+ ":{" +:+ quoted "suppress_first_run_bubble" +:+
  ":true," +:+ quoted "suppress_api_keys_warning" +:+ ":true}}".

Definition standardFlags : list string :=
  [ "--disable-logging";
    "--disable-breakpad";
    "--disable-infobars";
    "--disable-notifications";
    "--no-default-browser-check";
    "--silent-launch";
    "--disable-gpu";
    "--disable-gpu-compositing";
    "--disable-gpu-sandbox";
    "--disable-gpu-driver-bug-workarounds";
    "--disable-features=UseChromeOSDirectVideoDecoder";
    "--disable-accelerated-2d-canvas";
    "--disable-accelerated-video-decode";
    "--disable-accelerated-video-encode";
    "--disable-webgl";
    "--disable-threaded-animation";
    "--disable-webgl-image-chromium";
    "--force-dark-mode";
    "--ignore-certificate-errors" ].

(** The command line [launchBrowser] builds in [cmdArgs], append by
    append, for a profile and its working directory. *)
Definition buildArgs (profile : Profile) (profilePath : string) : list string :=
  let cmdArgs := [] in
  let cmdArgs := cmdArgs ++ [ "--user-data-dir=" +:+ profilePath ] in
  let cmdArgs := cmdArgs ++ [ "--new-window" ] in
  let cmdArgs := cmdArgs ++ [ "about:blank" ] in
  let cmdArgs :=
    if negb (String.eqb (Proxy profile) "none") then
      let proxyFlag := "--proxy-server=" in
      let proxyFlag :=
        if String.eqb (ProxyType profile) "http" then proxyFlag +:+ "http://"
        else proxyFlag in
      let proxyFlag := proxyFlag +:+ Proxy profile in
      cmdArgs ++ [ proxyFlag ]
    else cmdArgs in
  let cmdArgs :=
    if negb (String.eqb (Flags profile) "") then
      foldl (fun args flag =>
               if negb (String.eqb flag "") then args ++ [ flag ] else args)
            cmdArgs (Split (Flags profile) chr_space)
    else cmdArgs in
  foldl (fun args flag => args ++ [ flag ]) cmdArgs standardFlags.

(** The three attempts on macOS.  [inl] is the early return with a
    message, [inr] the value of [err] after the attempts. *)
Definition startDarwin (chrome : string) (cmdArgs : list string)
  : Proc (string + option error) :=
  e1 ← Start chrome cmdArgs;
  match e1 with
  | None => mret (inr None)
  | Some _ =>
      let scriptPath := filepath_Join TempDir "launch_chrome.sh" in
      let scriptContent :=
        "#!/bin/bash" +:+ nl +:+ chrome +:+ " " +:+ strings_Join cmdArgs " " +:+
        " &" +:+ nl in
      we ← WriteFile scriptPath scriptContent;
      match we with
      | Some e => mret (inl ("Error creating launcher script: " +:+ e))
      | None =>
          e2 ← Start "/bin/bash" [ scriptPath ];
          match e2 with
          | None => mret (inr None)
          | Some _ =>
              e3 ← Start "open" (chrome :: "--args" :: cmdArgs);
              mret (inr e3)
          end
      end
  end.

(** The attempts on Linux.  The third one assigns its outcome to an [err]
    declared by the [if] around it, so the function's [err] keeps the
    error of the second attempt. *)
Definition startLinux (chrome : string) (cmdArgs : list string)
  : Proc (string + option error) :=
  e1 ← Start chrome cmdArgs;
  match e1 with
  | None => mret (inr None)
  | Some _ =>
      e2 ← Start "nohup" (chrome :: cmdArgs);
      match e2 with
      | None => mret (inr None)
      | Some _ =>
          let desktopPath := filepath_Join TempDir "launchium_chrome.desktop" in
          let desktopContent :=
            "[Desktop Entry]" +:+ nl +:+ "Type=Application" +:+ nl +:+
            "Name=Launchium Chrome" +:+ nl +:+ "Exec=" +:+ chrome +:+ " " +:+
            strings_Join cmdArgs " " +:+ nl +:+ "Terminal=false" in
          we ← WriteFile desktopPath desktopContent;
          match we with
          | None => Start "xdg-open" [ desktopPath ] ≫= fun _ => mret (inr e2)
          | Some _ => mret (inr e2)
          end
      end
  end.

Definition launchBrowser (cm : ChromiumManager) (name : string) : Proc string :=
  match profiles cm !! name with
  | None => mret ("Profile '" +:+ name +:+ "' not found")
  | Some profile =>
      let profilePath := filepath_Join (profileDir cm) (Name profile) in
      MkdirAll profilePath ≫= fun _ =>
      let prefsFile := filepath_Join profilePath "Local State" in
      missing ← Stat_IsNotExist prefsFile;
      (if missing : bool then WriteFile prefsFile prefsData else mret None)
        ≫= fun _ =>
      let cmdArgs := buildArgs profile profilePath in
      r ← (if String.eqb GOOS "darwin" then startDarwin (chromePath cm) cmdArgs
           else if String.eqb GOOS "linux" then startLinux (chromePath cm) cmdArgs
           else e ← Start (chromePath cm) cmdArgs; mret (inr e));
      match r with
      | inl msg => mret msg
      | inr (Some e) => mret ("Error launching browser: " +:+ e)
      | inr None => mret ("Launched with profile: " +:+ Name profile)
      end
  end.

Definition initialModel : Proc ChromiumManager :=
  let dir := filepath_Join UserHomeDir ".chrome_profiles" in
  let chromium := "/Applications/Chromium.app/Contents/MacOS/Chromium" in
  missing ← Stat_IsNotExist chromium;
  let chrome :=
    if missing : bool
    then "/Applications/Google Chrome.app/Contents/MacOS/Google Chrome"
    else chromium in
  let cm :=
    {| profiles := ∅; configFile := filepath_Join dir "profiles.conf";
       chromePath := chrome; profileDir := dir; currentView := "main";
       mainList := mkList [] 0; profileList := mkList [] 0;
       manageList := mkList [] 0; message := ""; selected := "";
       profileName := ""; profileProxy := ""; profileType := "";
       profileFlags := ""; err := None |} in
  MkdirAll dir ≫= fun _ =>
  cm ← loadProfiles cm;
  let cm :=
    set_mainList
      (list_New [ mkItem "Launch Browser" "Start with a profile";
                  mkItem "Manage Profiles" "Add, edit or remove profiles";
                  mkItem "Clean Profile" "Clear browsing data";
                  mkItem "Quit" "Exit application" ]) cm in
  mret (updateManageList cm).

(** ** The view state machine *)

Definition isKey (t : KeyType) (k : Key) : bool := bool_decide (KType k = t).

(** [cm.profiles[name]] read without the presence flag: the zero
    [Profile] for a missing key. *)
Definition profileAt (m : gmap string Profile) (name : string) : Profile :=
  default (mkProfile "" "" "" "") (m !! name).

(** The removal loop of the clean action: stops at the first error. *)
Fixpoint removeEntries (profilePath : string) (names : list string)
  : Proc (option error) :=
  match names with
  | [] => mret None
  | file :: rest =>
      e ← RemoveAll (filepath_Join profilePath file);
      match e with
      | Some e => mret (Some e)
      | None => removeEntries profilePath rest
      end
  end.

Definition updateMain (cm : ChromiumManager) (k : Key)
  : Proc (ChromiumManager * Cmd) :=
  let pass cm :=
    let '(l, cmd) := list_Update (mainList cm) (KeyMsg k) in
    mret (set_mainList l cm, cmd) in
  if isKey KeyEnter k then
    match SelectedItem (mainList cm) with
    | Some i =>
        if String.eqb (title i) "Launch Browser" then
          pass (set_currentView "select_profile" (updateProfileList cm))
        else if String.eqb (title i) "Manage Profiles" then
          pass (set_currentView "manage" (updateManageList cm))
        else if String.eqb (title i) "Clean Profile" then
          pass (set_currentView "select_clean" (updateProfileList cm))
        else if String.eqb (title i) "Quit" then mret (cm, CmdQuit)
        else pass cm
    | None => pass cm
    end
  else pass cm.

(** The four views that show [profileList] end by passing the key on to
    that list. *)
Definition passProfileList (k : Key) (cm : ChromiumManager)
  : Proc (ChromiumManager * Cmd) :=
  let '(l, cmd) := list_Update (profileList cm) (KeyMsg k) in
  mret (set_profileList l cm, cmd).

Definition updateSelectProfile (cm : ChromiumManager) (k : Key)
  : Proc (ChromiumManager * Cmd) :=
  if isKey KeyEnter k then
    match SelectedItem (profileList cm) with
    | Some i =>
        msg ← launchBrowser cm (title i);
        passProfileList k (set_currentView "main" (set_message msg cm))
    | None => passProfileList k cm
    end
  else passProfileList k cm.

Definition updateManage (cm : ChromiumManager) (k : Key)
  : Proc (ChromiumManager * Cmd) :=
  let pass cm :=
    let '(l, cmd) := list_Update (manageList cm) (KeyMsg k) in
    mret (set_manageList l cm, cmd) in
  if isKey KeyEnter k then
    match SelectedItem (manageList cm) with
    | Some i =>
        if String.eqb (title i) "Add New Profile" then
          pass (set_profileFlags
                  "--no-first-run --disable-features=RendererCodeIntegrity"
                  (set_profileType "none"
                     (set_profileProxy "none"
                        (set_profileName ""
                           (set_currentView "add_profile" cm)))))
        else if String.eqb (title i) "Edit Profile" then
          pass (set_currentView "select_edit" (updateProfileList cm))
        else if String.eqb (title i) "Delete Profile" then
          pass (set_currentView "select_delete" (updateProfileList cm))
        else pass cm
    | None => pass cm
    end
  else pass cm.

Definition updateSelectEdit (cm : ChromiumManager) (k : Key)
  : Proc (ChromiumManager * Cmd) :=
  if isKey KeyEnter k then
    match SelectedItem (profileList cm) with
    | Some i =>
        let profile := profileAt (profiles cm) (title i) in
        passProfileList k
          (set_currentView "edit_profile"
             (set_selected (title i)
                (set_profileFlags (Flags profile)
                   (set_profileType (ProxyType profile)
                      (set_profileProxy (Proxy profile)
                         (set_profileName (Name profile) cm))))))
    | None => passProfileList k cm
    end
  else passProfileList k cm.

Definition updateSelectDelete (cm : ChromiumManager) (k : Key)
  : Proc (ChromiumManager * Cmd) :=
  if isKey KeyEnter k then
    match SelectedItem (profileList cm) with
    | Some i =>
        passProfileList k
          (set_currentView "confirm_delete" (set_selected (title i) cm))
    | None => passProfileList k cm
    end
  else passProfileList k cm.

Definition updateConfirmDelete (cm : ChromiumManager) (k : Key)
  : Proc (ChromiumManager * Cmd) :=
  let s := Key_String k in
  if String.eqb s "y" || String.eqb s "Y" then
    let cm := set_profiles (delete (selected cm) (profiles cm)) cm in
    saveProfiles cm ≫= fun _ =>
    mret (set_currentView "main"
            (set_message ("Profile '" +:+ selected cm +:+ "' deleted") cm),
          CmdNil)
  else if String.eqb s "n" || String.eqb s "N" then
    mret (set_currentView "main" cm, CmdNil)
  else mret (cm, CmdNil).

Definition updateSelectClean (cm : ChromiumManager) (k : Key)
  : Proc (ChromiumManager * Cmd) :=
  if isKey KeyEnter k then
    match SelectedItem (profileList cm) with
    | Some i =>
        let profilePath := filepath_Join (profileDir cm) (title i) in
        missing ← Stat_IsNotExist profilePath;
        if missing : bool then
          passProfileList k
            (set_currentView "main"
               (set_message "Profile directory does not exist" cm))
        else
          w ← getWorld;
          match ReadDir w profilePath with
          | inl e =>
              passProfileList k
                (set_currentView "main"
                   (set_message ("Error reading directory: " +:+ e) cm))
          | inr names =>
              e ← removeEntries profilePath names;
              match e with
              | Some e =>
                  mret (set_currentView "main"
                          (set_message ("Error cleaning profile: " +:+ e) cm),
                        CmdNil)
              | None =>
                  passProfileList k
                    (set_currentView "main"
                       (set_message ("Profile '" +:+ title i +:+
                                     "' completely cleared and reset") cm))
              end
          end
    | None => passProfileList k cm
    end
  else passProfileList k cm.

(** The views [edit_profile] and [add_profile]. *)
Definition updateEditor (cm : ChromiumManager) (k : Key)
  : Proc (ChromiumManager * Cmd) :=
  let s := Key_String k in
  if String.eqb s "1" then mret (set_currentView "edit_name" cm, CmdNil)
  else if String.eqb s "2" then mret (set_currentView "edit_proxy" cm, CmdNil)
  else if String.eqb s "3" then mret (set_currentView "edit_type" cm, CmdNil)
  else if String.eqb s "4" then mret (set_currentView "edit_flags" cm, CmdNil)
  else if isKey KeyEnter k then
    let oldName := selected cm in
    if String.eqb (profileName cm) "" then
      mret (set_message "Profile name is required" cm, CmdNil)
    else if negb (String.eqb oldName (profileName cm))
            && bool_decide (is_Some (profiles cm !! profileName cm)) then
      mret (set_message ("Profile '" +:+ profileName cm +:+ "' already exists")
              cm, CmdNil)
    else
      let m :=
        if negb (String.eqb oldName (profileName cm))
        then delete oldName (profiles cm) else profiles cm in
      let cm :=
        set_profiles
          (<[ profileName cm :=
                mkProfile (profileName cm) (profileProxy cm) (profileType cm)
                          (profileFlags cm) ]> m) cm in
      saveProfiles cm ≫= fun _ =>
      mret (set_currentView "main"
              (set_message ("Profile '" +:+ profileName cm +:+ "' updated") cm),
            CmdNil)
  else mret (cm, CmdNil).

(** One field editor: Backspace drops the last byte, typed characters are
    appended. *)
Definition editText (k : Key) (field : string) : string :=
  if isKey KeyBackspace k && Nat.ltb 0 (String.length field) then dropLast field
  else if isKey KeyRunes k then field +:+ Key_String k
  else field.

(** The views [edit_name], [edit_proxy], [edit_type] and [edit_flags]. *)
Definition updateField (cm : ChromiumManager) (k : Key)
  : Proc (ChromiumManager * Cmd) :=
  let v := currentView cm in
  if isKey KeyEnter k then
    if HasPrefix v "edit_" then
      if negb (String.eqb (selected cm) "") then
        mret (set_currentView "edit_profile" cm, CmdNil)
      else mret (set_currentView "add_profile" cm, CmdNil)
    else mret (cm, CmdNil)
  else if String.eqb v "edit_name" then
    mret (set_profileName (editText k (profileName cm)) cm, CmdNil)
  else if String.eqb v "edit_proxy" then
    mret (set_profileProxy (editText k (profileProxy cm)) cm, CmdNil)
  else if String.eqb v "edit_type" then
    mret (set_profileType (editText k (profileType cm)) cm, CmdNil)
  else if String.eqb v "edit_flags" then
    mret (set_profileFlags (editText k (profileFlags cm)) cm, CmdNil)
  else mret (cm, CmdNil).

Definition Update (cm : ChromiumManager) (msg : Msg)
  : Proc (ChromiumManager * Cmd) :=
  match msg with
  | WindowSizeMsg _ _ => mret (cm, CmdNil)
  | OtherMsg => mret (cm, CmdNil)
  | KeyMsg k =>
      if isKey KeyCtrlC k then mret (cm, CmdQuit)
      else if isKey KeyEsc k && negb (String.eqb (currentView cm) "main") then
        mret (set_message "" (set_currentView "main" cm), CmdNil)
      else
        let v := currentView cm in
        if String.eqb v "main" then updateMain cm k
        else if String.eqb v "select_profile" then updateSelectProfile cm k
        else if String.eqb v "manage" then updateManage cm k
        else if String.eqb v "select_edit" then updateSelectEdit cm k
        else if String.eqb v "select_delete" then updateSelectDelete cm k
        else if String.eqb v "confirm_delete" then updateConfirmDelete cm k
        else if String.eqb v "select_clean" then updateSelectClean cm k
        else if String.eqb v "edit_profile" || String.eqb v "add_profile" then
          updateEditor cm k
        else if String.eqb v "edit_name" || String.eqb v "edit_proxy"
                || String.eqb v "edit_type" || String.eqb v "edit_flags" then
          updateField cm k
        else mret (cm, CmdNil)
  end.

(** The event loop of the UI library: messages go to [Update] one at a
    time until it answers [tea.Quit]. *)
Fixpoint runMsgs (cm : ChromiumManager) (msgs : list Msg)
  : Proc ChromiumManager :=
  match msgs with
  | [] => mret cm
  | msg :: rest =>
      '(cm', cmd) ← Update cm msg;
      match cmd with
      | CmdQuit => mret cm'
      | _ => runMsgs cm' rest
      end
  end.

(** ** The command line *)

(** [fmt.Println(s)]. *)
Definition Println (s : string) : Proc unit := Print (s +:+ nl).

Definition printHelp : Proc unit :=
  Println "Launchium - Chromium Profile Manager" ≫= fun _ =>
  Println (nl +:+ "Usage:") ≫= fun _ =>
  Println "  launchium [command] [options]" ≫= fun _ =>
  Println (nl +:+ "Commands:") ≫= fun _ =>
  Println "  launch    Launch browser with specified profile" ≫= fun _ =>
  Println "  clean     Clean a specific profile" ≫= fun _ =>
  Println "  list      List all available profiles" ≫= fun _ =>
  Println "  version   Show version information" ≫= fun _ =>
  Println "  help      Show this help message" ≫= fun _ =>
  Println (nl +:+ "Options for 'launch' and 'clean':") ≫= fun _ =>
  Println "  -profile  Specify the profile name (default: 'default')" ≫= fun _ =>
  Println (nl +:+ "Examples:") ≫= fun _ =>
  Println "  launchium                    Start the interactive UI" ≫= fun _ =>
  Println "  launchium launch -profile=work  Launch browser with 'work' profile"
    ≫= fun _ =>
  Println "  launchium clean -profile=test   Clean the 'test' profile" ≫= fun _ =>
  Println "  launchium list               List all available profiles".

(** [cmd.Parse(os.Args[2:])] on a flag set made with [flag.ExitOnError]. *)
Definition parseFlags (dflt : option string) (args : list string) : Proc string :=
  match flag_Parse dflt args with
  | FlagValue v => mret v
  | FlagExit code => os_Exit code
  end.

Definition parseCommandLine : Proc (string * string * bool) :=
  match os_Args with
  | _ :: command :: rest =>
      if String.eqb command "launch" then
        v ← parseFlags (Some "default") rest; mret ("launch", v, true)
      else if String.eqb command "clean" then
        v ← parseFlags (Some "default") rest; mret ("clean", v, true)
      else if String.eqb command "list" then
        parseFlags None rest ≫= fun _ => mret ("list", "", true)
      else if String.eqb command "version" then
        parseFlags None rest ≫= fun _ => mret ("version", "", true)
      else if String.eqb command "help" then
        printHelp ≫= fun _ => os_Exit 0
      else mret ("", "", false)
  | _ => mret ("", "", false)
  end.

Definition VERSION : string := "0.1.0".

(** The [clean] subcommand. *)
Definition cleanCommand (cm : ChromiumManager) (name : string) : Proc unit :=
  Println ("Cleaning profile: " +:+ name) ≫= fun _ =>
  let profilePath := filepath_Join (profileDir cm) name in
  missing ← Stat_IsNotExist profilePath;
  if missing : bool then Println "Error: Profile directory does not exist"
  else
    w ← getWorld;
    match ReadDir w profilePath with
    | inl e => Print ("Error reading directory: " +:+ e +:+ nl)
    | inr names =>
        e ← removeEntries profilePath names;
        match e with
        | Some e =>
            Print ("Error cleaning profile: " +:+ e +:+ nl) ≫= fun _ =>
            os_Exit 1
        | None =>
            Print ("Profile '" +:+ name +:+ "' completely cleared and reset"
                   +:+ nl)
        end
    end.

Definition main : Proc unit :=
  '(cmd, name, hasCmdArgs) ← parseCommandLine;
  if hasCmdArgs : bool then
    cm ← initialModel;
    (if String.eqb cmd "launch" then
       Println ("Launching browser with profile: " +:+ name) ≫= fun _ =>
       message ← launchBrowser cm name;
       Println message
     else if String.eqb cmd "clean" then cleanCommand cm name
     else if String.eqb cmd "list" then
       Println "Available profiles:" ≫= fun _ =>
       foldr (fun kv rest => Println ("  - " +:+ fst kv) ≫= fun _ => rest)
             (mret tt) (map_range (profiles cm))
     else if String.eqb cmd "version" then
       Print ("Launchium version " +:+ VERSION +:+ nl)
     else mret tt) ≫= fun _ =>
    os_Exit 0
  else
    cm ← initialModel;
    runMsgs cm tea_input ≫= fun _ =>
    match tea_Run_err with
    | Some e => Print ("Error: " +:+ e) ≫= fun _ => os_Exit 1
    | None => mret tt
    end.

End Program.

(** ** The single-platform variant of the program

    The second copy of the source has no subcommands and always uses the
    macOS chain of attempts; its [launchBrowser] is embedded here from
    that copy. *)
Module Variant.
Section Program.
Context `{RT : Runtime}.

Definition standardFlags : list string :=
  [ "--disable-logging";
    "--disable-breakpad";
    "--disable-infobars";
    "--disable-notifications";
    "--no-default-browser-check";
    "--silent-launch";
    "--disable-gpu";
    "--disable-gpu-compositing";
    "--disable-gpu-sandbox";
    "--disable-gpu-driver-bug-workarounds";
    "--disable-features=UseChromeOSDirectVideoDecoder";
    "--disable-accelerated-2d-canvas";
    "--disable-accelerated-video-decode";
    "--disable-accelerated-video-encode";
    "--disable-webgl";
    "--disable-threaded-animation";
    "--disable-webgl-image-chromium";
    "--force-dark-mode" ].

Definition buildArgs (profile : Profile) (profilePath : string) : list string :=
  let cmdArgs := [] in
  let cmdArgs := cmdArgs ++ [ "--user-data-dir=" +:+ profilePath ] in
  let cmdArgs := cmdArgs ++ [ "--new-window" ] in
  let cmdArgs := cmdArgs ++ [ "about:blank" ] in
  let cmdArgs :=
    if negb (String.eqb (Proxy profile) "none") then
      let proxyFlag := "--proxy-server=" in
      let proxyFlag :=
        if String.eqb (ProxyType profile) "http" then proxyFlag +:+ "http://"
        else proxyFlag in
      let proxyFlag := proxyFlag +:+ Proxy profile in
      cmdArgs ++ [ proxyFlag ]
    else cmdArgs in
  let cmdArgs :=
    if negb (String.eqb (Flags profile) "") then
      foldl (fun args flag =>
               if negb (String.eqb flag "") then args ++ [ flag ] else args)
            cmdArgs (Split (Flags profile) chr_space)
    else cmdArgs in
  foldl (fun args flag => args ++ [ flag ]) cmdArgs standardFlags.

Definition launchBrowser (cm : ChromiumManager) (name : string) : Proc string :=
  match profiles cm !! name with
  | None => mret ("Profile '" +:+ name +:+ "' not found")
  | Some profile =>
      let profilePath := filepath_Join (profileDir cm) (Name profile) in
      MkdirAll profilePath ≫= fun _ =>
      let prefsFile := filepath_Join profilePath "Local State" in
      missing ← Stat_IsNotExist prefsFile;
      (if missing : bool then WriteFile prefsFile prefsData else mret None)
        ≫= fun _ =>
      let cmdArgs := buildArgs profile profilePath in
      r ← startDarwin (chromePath cm) cmdArgs;
      match r with
      | inl msg => mret msg
      | inr (Some e) => mret ("Error launching browser: " +:+ e)
      | inr None => mret ("Launched with profile: " +:+ Name profile)
      end
  end.

End Program.
End Variant.

(** ** Vocabulary of the statements *)

(** The non-empty pieces of a flags string between single spaces. *)
Definition flagTokens (flags : string) : list string :=
  List.filter (fun t => negb (String.eqb t "")) (Split flags chr_space).

(** The proxy argument for a profile, if it gets one. *)
Definition proxyArgs (p : Profile) : list string :=
  if String.eqb (Proxy p) "none" then []
  else [ "--proxy-server=" +:+
         (if String.eqb (ProxyType p) "http" then "http://" else "") +:+
         Proxy p ].

(** A line of the store file that is neither blank nor a comment and has
    at least four fields. *)
Definition validLine (line : string) : bool :=
  negb (String.eqb line "") && negb (HasPrefix line "#")
  && Nat.leb 4 (length (Split line chr_bar)).

(** The profile made of the first four fields of a line. *)
Definition profileOfLine (line : string) : Profile :=
  let parts := Split line chr_bar in
  mkProfile (nth 0 parts "") (nth 1 parts "") (nth 2 parts "") (nth 3 parts "").

(** Entering profiles into a mapping under their names, later ones over
    earlier ones. *)
Definition insertAll (m : gmap string Profile) (ps : list Profile)
  : gmap string Profile :=
  foldl (fun m p => <[ Name p := p ]> m) m ps.

(** No field of the profile contains byte [c]. *)
Definition fieldsFree (c : ascii) (p : Profile) : bool :=
  negb (hasByte c (Name p)) && negb (hasByte c (Proxy p))
  && negb (hasByte c (ProxyType p)) && negb (hasByte c (Flags p)).

(** Every entry is filed under its own name. *)
Definition keyedByName (m : gmap string Profile) : Prop :=
  forall k p, m !! k = Some p -> Name p = k.

(** Every profile of the mapping has a name. *)
Definition namesNonEmpty (m : gmap string Profile) : Prop :=
  forall k p, m !! k = Some p -> Name p <> "".

(** A profile the store file can hold: no field contains [|] or a
    newline, and the name does not begin with [#]. *)
Definition storableProfile (p : Profile) : Prop :=
  fieldsFree chr_bar p = true /\ fieldsFree chr_nl p = true
  /\ HasPrefix (Name p) "#" = false.

(** The line of a profile without its newline. *)
Definition lineBody (p : Profile) : string :=
  Name p +:+ "|" +:+ Proxy p +:+ "|" +:+ ProxyType p +:+ "|" +:+ Flags p.

(** The two profiles of a first run. *)
Definition seedDefault : Profile :=
  mkProfile "default" "none" "none"
    "--no-first-run --disable-features=RendererCodeIntegrity".

Definition seedClean : Profile :=
  mkProfile "clean" "none" "none"
    "--no-first-run --disable-features=RendererCodeIntegrity,UseChromeOSDirectVideoDecoder --disable-gpu-driver-bug-workarounds --ignore-gpu-blacklist --disable-gpu-compositing --disable-infobars".

(** The store file of a first run. *)
Definition seedContent : string :=
  "default|none|none|--no-first-run --disable-features=RendererCodeIntegrity"
  +:+ nl +:+
  "clean|none|none|--no-first-run --disable-features=RendererCodeIntegrity,UseChromeOSDirectVideoDecoder --disable-gpu-driver-bug-workarounds --ignore-gpu-blacklist --disable-gpu-compositing --disable-infobars"
  +:+ nl.

(** A computation that comes back with a value from every world (it never
    ends the process). *)
Definition returns {A} (c : Proc A) : Prop :=
  forall w, exists a w', c w = (Ret a, w').

(** The invariant of the profile mapping: every profile is filed under
    its own name, and that name is not empty. *)
Definition storeInvariant (m : gmap string Profile) : Prop :=
  keyedByName m /\ namesNonEmpty m.

(** What one message can do to the mapping: nothing, remove the selected
    profile, or enter the edit buffer under its non-empty name, after
    removing the selected profile or not. *)
Definition storeStep (cm cm' : ChromiumManager) : Prop :=
  profiles cm' = profiles cm
  \/ profiles cm' = delete (selected cm) (profiles cm)
  \/ (profileName cm <> ""
      /\ exists base,
           (base = profiles cm \/ base = delete (selected cm) (profiles cm))
           /\ profiles cm' =
                <[ profileName cm :=
                     mkProfile (profileName cm) (profileProxy cm)
                               (profileType cm) (profileFlags cm) ]> base).

(** The world after the entries [names] of the directory [path] were
    removed one after the other, first to last. *)
Definition removedAll `{RT : Runtime} (path : string) (names : list string)
    (w : World) : World :=
  foldl (fun w name => removed (filepath_Join path name) w) w names.

(** What the system answers to the removal of entry number [k] of the
    listing [names], asked for after the entries before it were
    removed. *)
Definition removalAnswer `{RT : Runtime} (path : string) (names : list string)
    (w : World) (k : nat) : option error :=
  name ← names !! k;
  RemoveAll_err (removedAll path (take k names) w) (filepath_Join path name).

(** Removing the entries [names] of [path] one after the other meets its
    first error, [e], at entry number [k]: the system removed the entries
    before it without an error and refuses this one. *)
Definition firstRemovalError `{RT : Runtime} (path : string)
    (names : list string) (w : World) (k : nat) (e : error) : Prop :=
  k < length names
  /\ (forall j, j < k -> removalAnswer path names w j = None)
  /\ removalAnswer path names w k = Some e.

(** The clean action meets a removal error in world [w]: the directory
    of the profile is there and can be listed, and the system refuses to
    remove one of its entries. *)
Definition removalFails `{RT : Runtime} (cm : ChromiumManager) (name : string)
    (w : World) : Prop :=
  let path := filepath_Join (profileDir cm) name in
  fst (Stat_IsNotExist path w) = Ret false
  /\ exists names k e,
       ReadDir w path = inr names
       /\ firstRemovalError path names w k e.

(** ** A concrete platform, for running the model *)

(** A list whose cursor follows the arrow keys. *)
Definition cursorUpdate (l : ListModel) (msg : Msg) : ListModel * Cmd :=
  match msg with
  | KeyMsg k =>
      match KType k with
      | KeyDown =>
          (if Nat.ltb (S (cursor l)) (length (items l))
           then mkList (items l) (S (cursor l)) else l, CmdNil)
      | KeyUp => (mkList (items l) (Nat.pred (cursor l)), CmdNil)
      | _ => (l, CmdNil)
      end
  | _ => (l, CmdNil)
  end.

(** [-profile=<name>] as the only accepted argument. *)
Definition simpleFlags (dflt : option string) (args : list string) : FlagResult :=
  match dflt, args with
  | _, [] => FlagValue (default "" dflt)
  | Some _, [ a ] =>
      if String.prefix "-profile=" a
      then FlagValue (substring 9 (String.length a - 9) a)
      else FlagExit 2
  | _, _ => FlagExit 2
  end.

(** A Linux machine with the given command line, the given directories
    (path and entry names), entries that cannot be removed, and key
    presses waiting for the UI; every process start succeeds. *)
Definition testRuntime (args : list string)
    (dirs : list (string * list string)) (stuck : list string)
    (input : list Msg) : Runtime :=
  {| os_Args := args;
     GOOS := "linux";
     UserHomeDir := "/home/u";
     TempDir := "/tmp";
     filepath_Join := fun a b => a +:+ "/" +:+ b;
     flag_Parse := simpleFlags;
     dir_missing := fun _ path =>
       negb (existsb (fun d => String.eqb (fst d) path) dirs);
     WriteFile_err := fun _ _ => None;
     ReadDir := fun _ path =>
       match List.find (fun d => String.eqb (fst d) path) dirs with
       | Some d => inr (snd d)
       | None => inl "not a directory"
       end;
     RemoveAll_err := fun _ path =>
       if existsb (String.eqb path) stuck then Some "permission denied"
       else None;
     RemoveAll_keeps := fun _ _ _ => true;
     Start_err := fun _ _ _ => None;
     tea_Run_err := None;
     tea_input := input;
     list_Update := cursorUpdate;
     map_range := map_to_list;
     map_range_perm := fun m => reflexivity (map_to_list m) |}.

(** A manager that has loaded nothing yet, with its store at [config]. *)
Definition newManager (config : string) : ChromiumManager :=
  {| profiles := ∅; configFile := config; chromePath := "/usr/bin/chromium";
     profileDir := "/home/u/.chrome_profiles"; currentView := "main";
     mainList := mkList [] 0; profileList := mkList [] 0;
     manageList := mkList [] 0; message := ""; selected := "";
     profileName := ""; profileProxy := ""; profileType := "";
     profileFlags := ""; err := None |}.

Definition emptyWorld : World := mkWorld ∅ [].

(** A store file with a comment, a short line and a blank line between
    two valid lines. *)
Definition mixedStore : string :=
  "# my profiles" +:+ nl +:+ "work|none|none|--a" +:+ nl +:+ "broken|line"
  +:+ nl +:+ nl +:+ "office|10.0.0.1:3128|http|--b" +:+ nl.

(** Two profiles that can be stored. *)
Definition twoProfiles : gmap string Profile :=
  <[ "work" := mkProfile "work" "none" "none" "--a --b" ]>
    (<[ "office" := mkProfile "office" "10.0.0.1:3128" "http" "" ]> ∅).


Definition keyEnter : Msg := KeyMsg (mkKey KeyEnter "" false).
Definition keyEsc : Msg := KeyMsg (mkKey KeyEsc "" false).
Definition keyDown : Msg := KeyMsg (mkKey KeyDown "" false).
Definition keyRunes (s : string) : Msg := KeyMsg (mkKey KeyRunes s false).

(** An interactive session on a fresh machine: start up, then handle the
    keys. *)
Definition uiRuntime : Runtime := testRuntime [ "launchium" ] [] [] [].

Definition session (keys : list Msg) : Res ChromiumManager * World :=
  (@initialModel uiRuntime ≫= fun cm => @runMsgs uiRuntime cm keys) emptyWorld.

(** Into the manage view, on to the edit selection, open the first
    profile in the editor, leave with Esc, and into the manage view
    again. *)
Definition keysEditThenManage : list Msg :=
  [ keyDown; keyEnter; keyDown; keyEnter; keyEnter; keyEsc; keyEnter ].

(** [launch -profile=nosuch], [clean -profile=nosuch] and a [clean] that
    meets an entry it cannot remove. *)
Definition launchMissing : Runtime :=
  testRuntime [ "launchium"; "launch"; "-profile=nosuch" ] [] [] [].

Definition cleanMissing : Runtime :=
  testRuntime [ "launchium"; "clean"; "-profile=nosuch" ] [] [] [].

Definition cleanStuck : Runtime :=
  testRuntime [ "launchium"; "clean"; "-profile=work" ]
    [ ("/home/u/.chrome_profiles/work", [ "Cache"; "Cookies" ]) ]
    [ "/home/u/.chrome_profiles/work/Cookies" ] [].

(** A manager in the editor on profile [work] of [twoProfiles], with the
    name in the buffer changed to [name]. *)
Definition editingWork (name : string) : ChromiumManager :=
  set_profileFlags "--a --b"
    (set_profileType "none"
       (set_profileProxy "none"
          (set_profileName name
             (set_selected "work"
                (set_currentView "edit_profile"
                   (set_profiles twoProfiles
                      (newManager "/s/profiles.conf"))))))).

(** * Browser discovery *)

(** [detectPlatform] of [main.go] sets [chromePath], and [err] when no
    browser is found. *)

Definition set_chromePath (x : string) (cm : ChromiumManager) :=
  {| profiles := profiles cm; configFile := configFile cm; chromePath := x;
     profileDir := profileDir cm; currentView := currentView cm;
     mainList := mainList cm; profileList := profileList cm;
     manageList := manageList cm; message := message cm;
     selected := selected cm; profileName := profileName cm;
     profileProxy := profileProxy cm; profileType := profileType cm;
     profileFlags := profileFlags cm; err := err cm |}.

Definition set_err (x : option error) (cm : ChromiumManager) :=
  {| profiles := profiles cm; configFile := configFile cm;
     chromePath := chromePath cm; profileDir := profileDir cm;
     currentView := currentView cm; mainList := mainList cm;
     profileList := profileList cm; manageList := manageList cm;
     message := message cm; selected := selected cm;
     profileName := profileName cm; profileProxy := profileProxy cm;
     profileType := profileType cm; profileFlags := profileFlags cm;
     err := x |}.

Section Detect.
Context `{RT : Runtime}.

(** The loop of [detectPlatform] over the candidate paths: the first one
    that [os.Stat] finds is taken.  (In this model of the system the only
    error of [os.Stat] is that nothing is there.) *)
Fixpoint firstExisting (paths : list string) (cm : ChromiumManager)
  : Proc ChromiumManager :=
  match paths with
  | [] => mret cm
  | path :: rest =>
      missing ← Stat_IsNotExist path;
      if missing : bool then firstExisting rest cm
      else mret (set_chromePath path cm)
  end.

Definition linuxPaths : list string :=
  [ "/usr/bin/chromium"; "/usr/bin/chromium-browser"; "/usr/bin/google-chrome";
    "/usr/bin/google-chrome-stable"; "/snap/bin/chromium" ].

(** [detectPlatform].  [getenv] is [os.Getenv] and [join] is
    [filepath.Join] of several elements, both only used on Windows. *)
Definition detectPlatform (getenv : string -> string)
    (join : list string -> string) (cm : ChromiumManager)
  : Proc ChromiumManager :=
  cm ← (if String.eqb GOOS "darwin" then
          let cm :=
            set_chromePath "/Applications/Chromium.app/Contents/MacOS/Chromium"
              cm in
          missing ← Stat_IsNotExist (chromePath cm);
          if missing : bool then
            mret (set_chromePath
                    "/Applications/Google Chrome.app/Contents/MacOS/Google Chrome"
                    cm)
          else mret cm
        else if String.eqb GOOS "windows" then
          firstExisting
            [ join [ getenv "ProgramFiles"; "Chromium"; "Application"; "chrome.exe" ];
              join [ getenv "ProgramFiles(x86)"; "Chromium"; "Application";
                     "chrome.exe" ];
              join [ getenv "ProgramFiles"; "Google"; "Chrome"; "Application";
                     "chrome.exe" ];
              join [ getenv "ProgramFiles(x86)"; "Google"; "Chrome"; "Application";
                     "chrome.exe" ];
              join [ getenv "LocalAppData"; "Chromium"; "Application"; "chrome.exe" ];
              join [ getenv "LocalAppData"; "Google"; "Chrome"; "Application";
                     "chrome.exe" ] ] cm
        else if String.eqb GOOS "linux" then firstExisting linuxPaths cm
        else mret cm);
  if String.eqb (chromePath cm) "" then
    let cm :=
      set_err
        (Some "Could not find Chrome or Chromium browser. Please specify path manually")
        cm in
    if String.eqb GOOS "windows" then
      mret (set_chromePath
              (join [ getenv "ProgramFiles"; "Google"; "Chrome"; "Application";
                      "chrome.exe" ]) cm)
    else mret (set_chromePath "/usr/bin/google-chrome" cm)
  else mret cm.

End Detect.

(** * Further platforms and states *)

(** A platform like [testRuntime] on the system [goos], where starting
    program [name] and writing file [path] fail as [startErr] and
    [writeErr] say. *)
Definition platformRuntime (goos : string)
    (startErr : string -> option error) (writeErr : string -> option error)
    : Runtime :=
  {| os_Args := [ "launchium" ];
     GOOS := goos;
     UserHomeDir := "/home/u";
     TempDir := "/tmp";
     filepath_Join := fun a b => a +:+ "/" +:+ b;
     flag_Parse := simpleFlags;
     dir_missing := fun _ _ => true;
     WriteFile_err := fun _ path => writeErr path;
     ReadDir := fun _ _ => inl "not a directory";
     RemoveAll_err := fun _ _ => None;
     RemoveAll_keeps := fun _ _ _ => true;
     Start_err := fun _ name _ => startErr name;
     tea_Run_err := None;
     tea_input := [];
     list_Update := cursorUpdate;
     map_range := map_to_list;
     map_range_perm := fun m => reflexivity (map_to_list m) |}.

(** A disk that refuses every write. *)
Definition readOnly : Runtime :=
  platformRuntime "linux" (fun _ => None) (fun _ => Some "read-only file system").

(** A manager holding [twoProfiles]. *)
Definition twoManager : ChromiumManager :=
  set_profiles twoProfiles (newManager "/s/profiles.conf").

(** The store file [mixedStore] on disk. *)
Definition mixedWorld : World :=
  mkWorld {[ "/s/profiles.conf" := mixedStore ]} [].

(** The views of the program. *)
Definition knownViews : list string :=
  [ "main"; "select_profile"; "manage"; "select_edit"; "select_delete";
    "select_clean"; "confirm_delete"; "add_profile"; "edit_profile";
    "edit_name"; "edit_proxy"; "edit_type"; "edit_flags" ].

Definition keyBackspace : Msg := KeyMsg (mkKey KeyBackspace "" false).

(** Linux where only [xdg-open] can be started, and macOS where the
    browser itself cannot. *)
Definition onlyXdgOpen : Runtime :=
  platformRuntime "linux"
    (fun name => if String.eqb name "xdg-open" then None
                 else Some "exec format error")
    (fun _ => None).

Definition scriptOnly : Runtime :=
  platformRuntime "darwin"
    (fun name => if String.eqb name "/bin/bash" then None
                 else Some "exec format error")
    (fun _ => None).

(** The world after [launchBrowser] has made the directory [path] of a
    profile and, where it is missing and the system lets it, the seed
    file in it. *)
Definition seededWorld `{RT : Runtime} (path : string) (w : World) : World :=
  let prefs := filepath_Join path "Local State" in
  let w1 := mkWorld (files w) (EvMkdirAll path :: events w) in
  match files w1 !! prefs with
  | Some _ => w1
  | None =>
      if dir_missing w1 prefs then
        match WriteFile_err w1 prefs with
        | Some _ => w1
        | None => mkWorld (<[ prefs := prefsData ]> (files w1)) (events w1)
        end
      else w1
  end.

Definition listCommand : Runtime := testRuntime [ "launchium"; "list" ] [] [] [].

(** A Mac with Chromium installed. *)
Definition macChromium : World :=
  mkWorld {[ "/Applications/Chromium.app/Contents/MacOS/Chromium" := "Mach-O" ]} [].

(** The profile directory of [work] with a cache and a cookie file, next
    to the store file. *)
Definition workFiles : World :=
  mkWorld {[ "/home/u/.chrome_profiles/work/Cache/data" := "x";
             "/home/u/.chrome_profiles/work/Cookies" := "c";
             "/s/profiles.conf" := mixedStore ]} [].

(** The clean view with the cursor on profile [work]. *)
Definition cleaningWork : ChromiumManager :=
  set_currentView "select_clean"
    (set_profileList (mkList [ mkItem "office" ""; mkItem "work" "" ] 1)
       twoManager).

(** Linux with the browser of the distribution at
    [/usr/bin/chromium-browser] and a snap of it. *)
Definition linuxBrowsers : World :=
  mkWorld {[ "/usr/bin/chromium-browser" := "ELF"; "/snap/bin/chromium" := "ELF" ]} [].

(** Every valid line of the text names its profile. *)
Definition linesNamed (data : string) : Prop :=
  forall line, In line (Split data chr_nl) -> validLine line = true ->
               Name (profileOfLine line) <> "".

(** * Properties *)

(** ** Strings and splitting *)

Example Split_fields : Split "a|b||c" chr_bar = ["a"; "b"; ""; "c"].
Proof. reflexivity. Qed.

Example Split_empty : Split "" chr_bar = [""].
Proof. reflexivity. Qed.

Lemma append_cons (c : ascii) (s t : string) :
  String c s +:+ t = String c (s +:+ t).
Proof. reflexivity. Qed.

Lemma append_nil_l (s : string) : "" +:+ s = s.
Proof. reflexivity. Qed.

Lemma append_nil_r (s : string) : s +:+ "" = s.
Proof.
  induction s as [|c s IH]; [reflexivity|]. now rewrite append_cons, IH.
Qed.

Lemma append_assoc (a b c : string) : (a +:+ b) +:+ c = a +:+ (b +:+ c).
Proof.
  induction a as [|x a IH]; [reflexivity|]. now rewrite !append_cons, IH.
Qed.

Lemma Split_nonempty (s : string) (sep : ascii) : Split s sep <> [].
Proof.
  destruct s as [|c s]; simpl; [discriminate|].
  destruct (Ascii.eqb c sep); [discriminate|].
  destruct (Split s sep); discriminate.
Qed.

(** A string without the separator is its own single piece. *)
Lemma Split_free (s : string) (sep : ascii) :
  hasByte sep s = false -> Split s sep = [ s ].
Proof.
  induction s as [|c s IH]; simpl; [reflexivity|].
  intros H. apply orb_false_iff in H as [Hc Hs].
  rewrite Hc, (IH Hs). reflexivity.
Qed.

(** Splitting distributes over a separator in the middle. *)
Lemma Split_app (a b : string) (sep : ascii) :
  Split (a +:+ String sep b) sep = Split a sep ++ Split b sep.
Proof.
  induction a as [|c a IH]; [rewrite append_nil_l | rewrite append_cons]; simpl.
  - now rewrite Ascii.eqb_refl.
  - destruct (Ascii.eqb c sep); [now rewrite IH|].
    rewrite IH. pose proof (Split_nonempty a sep) as Hne.
    destruct (Split a sep); [contradiction | reflexivity].
Qed.

Lemma hasByte_app (c : ascii) (a b : string) :
  hasByte c (a +:+ b) = hasByte c a || hasByte c b.
Proof.
  induction a as [|x a IH]; [reflexivity|].
  rewrite append_cons. simpl. now rewrite IH, orb_assoc.
Qed.

(** ** The launch arguments *)

Lemma foldl_append_each (acc l : list string) :
  foldl (fun args flag => args ++ [ flag ]) acc l = acc ++ l.
Proof.
  revert acc. induction l as [|x l IH]; intros acc; simpl.
  - now rewrite app_nil_r.
  - now rewrite IH, <- app_assoc.
Qed.

Lemma foldl_append_tokens (acc l : list string) :
  foldl (fun args flag =>
           if negb (String.eqb flag "") then args ++ [ flag ] else args) acc l
  = acc ++ List.filter (fun t => negb (String.eqb t "")) l.
Proof.
  revert acc. induction l as [|x l IH]; intros acc; simpl.
  - now rewrite app_nil_r.
  - rewrite IH. destruct (String.eqb x ""); simpl; [reflexivity|].
    now rewrite <- app_assoc.
Qed.

Lemma flagTokens_empty : flagTokens "" = [].
Proof. reflexivity. Qed.

(** The shape of the argument list, for both copies of the builder. *)
Lemma buildArgs_shape (p : Profile) (path : string) :
  buildArgs p path =
    [ "--user-data-dir=" +:+ path; "--new-window"; "about:blank" ]
    ++ proxyArgs p ++ flagTokens (Flags p) ++ standardFlags.
Proof.
  unfold buildArgs, proxyArgs. rewrite foldl_append_each.
  destruct (String.eqb_spec (Flags p) "") as [Hf|Hf]; simpl negb; cbv iota.
  - rewrite Hf, flagTokens_empty.
    destruct (String.eqb (Proxy p) "none"), (String.eqb (ProxyType p) "http");
      reflexivity.
  - rewrite foldl_append_tokens. fold (flagTokens (Flags p)).
    destruct (String.eqb (Proxy p) "none"), (String.eqb (ProxyType p) "http");
      simpl; rewrite ?append_nil_r; reflexivity.
Qed.

Lemma Variant_buildArgs_shape (p : Profile) (path : string) :
  Variant.buildArgs p path =
    [ "--user-data-dir=" +:+ path; "--new-window"; "about:blank" ]
    ++ proxyArgs p ++ flagTokens (Flags p) ++ Variant.standardFlags.
Proof.
  unfold Variant.buildArgs, proxyArgs. rewrite foldl_append_each.
  destruct (String.eqb_spec (Flags p) "") as [Hf|Hf]; simpl negb; cbv iota.
  - rewrite Hf, flagTokens_empty.
    destruct (String.eqb (Proxy p) "none"), (String.eqb (ProxyType p) "http");
      reflexivity.
  - rewrite foldl_append_tokens. fold (flagTokens (Flags p)).
    destruct (String.eqb (Proxy p) "none"), (String.eqb (ProxyType p) "http");
      simpl; rewrite ?append_nil_r; reflexivity.
Qed.

Lemma standardFlags_no_proxy (a : string) :
  In a standardFlags -> HasPrefix a "--proxy-server=" = false.
Proof.
  unfold standardFlags. simpl.
  intros H. repeat (destruct H as [<-|H]; [reflexivity|]). contradiction.
Qed.

(** C1 (amended): the argument list is, in this order, the
    user-data-dir flag, [--new-window], [about:blank], then for a proxy
    other than ["none"] the one flag [--proxy-server=<prefix><address>]
    with prefix ["http://"] exactly for proxy type ["http"], then the
    non-empty tokens of the flags string, then the fixed tail.  For proxy
    ["none"] the builder adds no proxy flag of its own: the leading three
    arguments are followed directly by the tokens and the tail, and an
    argument that starts with [--proxy-server=] is a token of the flags
    string. *)
Theorem buildArgs_order (p : Profile) (path : string) :
  buildArgs p path =
    [ "--user-data-dir=" +:+ path; "--new-window"; "about:blank" ]
    ++ (if String.eqb (Proxy p) "none" then []
        else [ "--proxy-server=" +:+
               (if String.eqb (ProxyType p) "http" then "http://" else "") +:+
               Proxy p ])
    ++ flagTokens (Flags p) ++ standardFlags
  /\ (Proxy p = "none" ->
      buildArgs p path =
        [ "--user-data-dir=" +:+ path; "--new-window"; "about:blank" ]
        ++ flagTokens (Flags p) ++ standardFlags
      /\ forall a, In a (buildArgs p path) ->
                   HasPrefix a "--proxy-server=" = true ->
                   In a (flagTokens (Flags p))).
Proof.
  split; [apply buildArgs_shape|].
  intros Hnone.
  assert (Hshape : buildArgs p path =
            [ "--user-data-dir=" +:+ path; "--new-window"; "about:blank" ]
            ++ flagTokens (Flags p) ++ standardFlags).
  { rewrite buildArgs_shape. unfold proxyArgs. rewrite Hnone. reflexivity. }
  split; [exact Hshape|].
  intros a Hin Hpre. rewrite Hshape in Hin.
  apply in_app_or in Hin as [Hhead|Hin].
  - exfalso. simpl in Hhead.
    destruct Hhead as [<-|[<-|[<-|[]]]]; vm_compute in Hpre; discriminate.
  - apply in_app_or in Hin as [Htok|Htail]; [exact Htok|].
    rewrite (standardFlags_no_proxy a Htail) in Hpre. discriminate.
Qed.

Lemma buildArgs_order_witness :
  Proxy (mkProfile "work" "none" "none" "--a --b") = "none"
  /\ buildArgs (mkProfile "work" "none" "none" "--a --b") "/d/work" =
       [ "--user-data-dir=/d/work"; "--new-window"; "about:blank" ]
       ++ flagTokens "--a --b" ++ standardFlags.
Proof.
  split; [reflexivity|].
  exact (proj1 (proj2 (buildArgs_order
                         (mkProfile "work" "none" "none" "--a --b") "/d/work")
                      eq_refl)).
Defined.

(** The example of the argument-order property. *)
Example buildArgs_http_proxy :
  buildArgs (mkProfile "work" "127.0.0.1:8080" "http" "--a --b") "/d/work" =
    [ "--user-data-dir=/d/work"; "--new-window"; "about:blank";
      "--proxy-server=http://127.0.0.1:8080"; "--a"; "--b" ] ++ standardFlags.
Proof. reflexivity. Qed.

(** A SOCKS address is passed bare. *)
Example buildArgs_socks_proxy :
  buildArgs (mkProfile "tor" "127.0.0.1:9050" "socks5" "") "/d/tor" =
    [ "--user-data-dir=/d/tor"; "--new-window"; "about:blank";
      "--proxy-server=127.0.0.1:9050" ] ++ standardFlags.
Proof. reflexivity. Qed.

(** C1, as stated, fails: with proxy ["none"] a proxy flag written in the
    flags string still reaches the argument list. *)
Lemma buildArgs_proxy_flag_from_flags :
  Proxy (mkProfile "work" "none" "none" "--proxy-server=10.0.0.1:3128") = "none"
  /\ In "--proxy-server=10.0.0.1:3128"
        (buildArgs (mkProfile "work" "none" "none"
                      "--proxy-server=10.0.0.1:3128") "/d/work").
Proof. split; [reflexivity|]. vm_compute. tauto. Qed.

(** C8: for every profile and working directory the two copies of the
    program build the same argument list, element for element, except
    that the list of [main.go] ends with one more flag,
    [--ignore-certificate-errors], which the tail of the other copy does
    not contain. *)
Theorem buildArgs_variants (p : Profile) (path : string) :
  buildArgs p path =
    Variant.buildArgs p path ++ [ "--ignore-certificate-errors" ]
  /\ standardFlags = Variant.standardFlags ++ [ "--ignore-certificate-errors" ]
  /\ ~ In "--ignore-certificate-errors" Variant.standardFlags.
Proof.
  split; [|split].
  - rewrite buildArgs_shape, Variant_buildArgs_shape.
    rewrite <- !app_assoc. reflexivity.
  - reflexivity.
  - unfold Variant.standardFlags. simpl.
    intros H. repeat (destruct H as [H|H]; [discriminate H|]). contradiction.
Qed.

(** ** Reading the store *)

Lemma validLine_spec (line : string) :
  validLine line = true <->
  line <> "" /\ HasPrefix line "#" = false
  /\ 4 <= length (Split line chr_bar).
Proof.
  unfold validLine. rewrite !andb_true_iff, !negb_true_iff.
  rewrite Nat.leb_le. destruct (String.eqb_spec line ""); intuition congruence.
Qed.

Lemma loadLine_valid (m : gmap string Profile) (line : string) :
  validLine line = true ->
  loadLine m line = <[ Name (profileOfLine line) := profileOfLine line ]> m.
Proof.
  intros H. apply validLine_spec in H as (He & Hc & H4).
  unfold loadLine, profileOfLine. cbv zeta.
  apply String.eqb_neq in He. apply Nat.leb_le in H4.
  rewrite He, Hc, H4. reflexivity.
Qed.

Lemma loadLine_invalid (m : gmap string Profile) (line : string) :
  validLine line = false -> loadLine m line = m.
Proof.
  unfold validLine, loadLine. cbv zeta. intros H.
  destruct (String.eqb line ""); [reflexivity|].
  destruct (HasPrefix line "#"); [reflexivity|].
  change (Nat.leb 4 (length (Split line chr_bar)) = false) in H.
  now rewrite H.
Qed.

(** The loop of [loadProfiles] is: keep the valid lines, enter their
    profiles. *)
Lemma foldl_loadLine (lines : list string) (m : gmap string Profile) :
  foldl loadLine m lines =
  insertAll m (profileOfLine <$> List.filter validLine lines).
Proof.
  revert m. induction lines as [|line lines IH]; intros m; [reflexivity|].
  simpl. destruct (validLine line) eqn:Hv.
  - rewrite (loadLine_valid _ _ Hv), IH. reflexivity.
  - rewrite (loadLine_invalid _ _ Hv), IH. reflexivity.
Qed.

Lemma loadLines_app (m : gmap string Profile) (a b : string) :
  loadLines m (a +:+ nl +:+ b) = loadLines (loadLines m a) b.
Proof.
  unfold loadLines, nl. rewrite append_cons, append_nil_l.
  now rewrite Split_app, foldl_app.
Qed.

Lemma loadLines_line (m : gmap string Profile) (line : string) :
  hasByte chr_nl line = false -> loadLines m line = loadLine m line.
Proof. intros H. unfold loadLines. now rewrite (Split_free _ _ H). Qed.

(** Where the entries of a mapping filled by [insertAll] come from. *)
Lemma insertAll_lookup (ps : list Profile) (m : gmap string Profile)
    (k : string) (p : Profile) :
  insertAll m ps !! k = Some p ->
  (In p ps /\ Name p = k) \/ m !! k = Some p.
Proof.
  revert m. induction ps as [|q ps IH]; intros m H; [now right|].
  simpl in H. apply IH in H as [[Hin Hn]|H].
  - left. split; [now right | exact Hn].
  - destruct (decide (Name q = k)) as [Heq|Hne].
    + subst k. rewrite lookup_insert_eq in H. injection H as ->.
      left. split; [now left | reflexivity].
    + rewrite lookup_insert_ne in H by exact Hne. now right.
Qed.

Lemma insertAll_present (ps : list Profile) (m : gmap string Profile)
    (k : string) :
  is_Some (m !! k) \/ (exists p, In p ps /\ Name p = k) ->
  is_Some (insertAll m ps !! k).
Proof.
  revert m. induction ps as [|q ps IH]; intros m H.
  - destruct H as [H|[p [[] _]]]. exact H.
  - simpl. apply IH.
    destruct (decide (Name q = k)) as [Heq|Hne].
    + left. subst k. rewrite lookup_insert_eq. eauto.
    + destruct H as [H|[p [[->|Hin] Hn]]].
      * left. now rewrite lookup_insert_ne.
      * contradiction.
      * right. eauto.
Qed.

Lemma insertAll_keyed (ps : list Profile) (m : gmap string Profile) :
  keyedByName m -> keyedByName (insertAll m ps).
Proof.
  intros Hm k p H. apply insertAll_lookup in H as [[_ Hn]|H]; [exact Hn|].
  exact (Hm k p H).
Qed.

Section Store.
Context `{RT : Runtime}.

(** What [loadProfiles] does when the store file is there. *)
Lemma loadProfiles_existing (cm : ChromiumManager) (w : World) (data : string) :
  files w !! configFile cm = Some data ->
  loadProfiles cm w =
    (Ret (updateProfileList (set_profiles (loadLines (profiles cm) data) cm)), w).
Proof.
  intros Hf. unfold loadProfiles, mbind, Proc_bind, Stat_IsNotExist, ReadFile,
    mret, Proc_ret.
  cbv beta. rewrite Hf. cbv beta iota. rewrite Hf. reflexivity.
Qed.

(** What [loadProfiles] does when the store file is missing and can be
    written. *)
Lemma loadProfiles_missing (cm : ChromiumManager) (w : World) :
  files w !! configFile cm = None ->
  dir_missing w (configFile cm) = true ->
  WriteFile_err w (configFile cm) = None ->
  let content := profileLine (mkProfile "default" "none" "none"
                   "--no-first-run --disable-features=RendererCodeIntegrity")
                 +:+ profileLine (mkProfile "clean" "none" "none"
                   "--no-first-run --disable-features=RendererCodeIntegrity,UseChromeOSDirectVideoDecoder --disable-gpu-driver-bug-workarounds --ignore-gpu-blacklist --disable-gpu-compositing --disable-infobars") in
  loadProfiles cm w =
    (Ret (updateProfileList (set_profiles (loadLines (profiles cm) content) cm)),
     mkWorld (<[ configFile cm := content ]> (files w)) (events w)).
Proof.
  intros Hf Hd Hw content.
  unfold loadProfiles, mbind, Proc_bind, Stat_IsNotExist, ReadFile, WriteFile,
    mret, Proc_ret.
  cbv beta. rewrite Hf, Hd. cbv beta iota. rewrite Hw. cbv beta iota.
  cbn [files]. rewrite lookup_insert_eq. reflexivity.
Qed.

End Store.

Section StoreClaims.
Context `{RT : Runtime}.

(** C3 (amended): when [loadProfiles] runs on the empty mapping of
    startup, the store file does not exist and the system accepts the
    write of the seeded file, the mapping then holds exactly two
    profiles, ["default"] and ["clean"], both with proxy ["none"] and
    proxy type ["none"] and with their fixed flag strings, and the store
    file has been created with those two entries. *)
Theorem loadProfiles_first_run (cm : ChromiumManager) (w : World) :
  profiles cm = ∅ ->
  files w !! configFile cm = None ->
  dir_missing w (configFile cm) = true ->
  WriteFile_err w (configFile cm) = None ->
  exists cm' w',
    loadProfiles cm w = (Ret cm', w')
    /\ profiles cm' =
         <[ "clean" := seedClean ]> (<[ "default" := seedDefault ]> ∅)
    /\ size (profiles cm') = 2
    /\ files w' = <[ configFile cm := seedContent ]> (files w).
Proof.
  intros Hm Hf Hd Hw. eexists _, _.
  rewrite (loadProfiles_missing cm w Hf Hd Hw), Hm.
  split; [reflexivity|].
  assert (Hload : loadLines ∅ seedContent
                  = <[ "clean" := seedClean ]> (<[ "default" := seedDefault ]> ∅))
    by (vm_compute; reflexivity).
  split; [exact Hload|]. split; [|reflexivity].
  cbn [profiles updateProfileList set_profiles set_profileList].
  change (size (loadLines ∅ seedContent) = 2). rewrite Hload.
  vm_compute. reflexivity.
Qed.

(** C4: for every content of the store file, [loadProfiles] skips blank
    lines and lines that begin with [#], drops the lines with fewer than
    four [|]-fields, and enters exactly the profiles of the remaining
    lines; it returns normally, leaves the world as it is and reports
    nothing: neither [err] nor [message] changes. *)
Theorem loadProfiles_tolerant (cm : ChromiumManager) (w : World) (data : string) :
  files w !! configFile cm = Some data ->
  exists cm',
    loadProfiles cm w = (Ret cm', w)
    /\ profiles cm' =
         insertAll (profiles cm)
           (profileOfLine <$> List.filter validLine (Split data chr_nl))
    /\ (forall line, validLine line = true <->
          line <> "" /\ HasPrefix line "#" = false
          /\ 4 <= length (Split line chr_bar))
    /\ (forall k p, profiles cm' !! k = Some p ->
          (exists line, In line (Split data chr_nl) /\ validLine line = true
                        /\ p = profileOfLine line /\ k = Name p)
          \/ profiles cm !! k = Some p)
    /\ (forall line, In line (Split data chr_nl) -> validLine line = true ->
          is_Some (profiles cm' !! Name (profileOfLine line)))
    /\ err cm' = err cm /\ message cm' = message cm.
Proof.
  intros Hf. eexists. rewrite (loadProfiles_existing cm w data Hf).
  split; [reflexivity|].
  cbn [profiles updateProfileList set_profiles set_profileList err message].
  unfold loadLines. rewrite foldl_loadLine.
  split; [reflexivity|]. split; [exact validLine_spec|].
  split; [|split; [|split; reflexivity]].
  - intros k p H. apply insertAll_lookup in H as [[Hin Hn]|H]; [left | now right].
    apply list_elem_of_In, list_elem_of_fmap in Hin as (line & -> & Hin).
    apply list_elem_of_In, filter_In in Hin as [Hin Hv].
    exists line. auto.
  - intros line Hin Hv. apply insertAll_present. right.
    exists (profileOfLine line). split; [|reflexivity].
    apply list_elem_of_In, list_elem_of_fmap. exists line. split; [reflexivity|].
    apply list_elem_of_In, filter_In. auto.
Qed.

End StoreClaims.

(** The same at startup: on a machine without a store file the program
    comes up in the main view with the two seeded profiles and nothing
    selected. *)
Lemma initialModel_first_run `{RT : Runtime} (w : World) :
  let dir := filepath_Join UserHomeDir ".chrome_profiles" in
  let config := filepath_Join dir "profiles.conf" in
  let w1 := mkWorld (files w) (EvMkdirAll dir :: events w) in
  files w !! config = None ->
  dir_missing w1 config = true ->
  WriteFile_err w1 config = None ->
  exists cm w',
    initialModel w = (Ret cm, w')
    /\ profiles cm = <[ "clean" := seedClean ]> (<[ "default" := seedDefault ]> ∅)
    /\ files w' = <[ config := seedContent ]> (files w)
    /\ currentView cm = "main" /\ selected cm = "".
Proof.
  intros dir config w1 Hf Hd Hw. unfold initialModel. cbv zeta.
  fold dir. fold config.
  unfold mbind at 1. unfold Proc_bind, Stat_IsNotExist at 1. cbv beta iota.
  unfold mbind at 1. unfold Proc_bind, MkdirAll at 1, logEvent at 1.
  cbv beta iota. fold w1.
  match goal with
  | |- context [loadProfiles ?c] => set (cm0 := c)
  end.
  pose proof (loadProfiles_missing cm0 w1 Hf Hd Hw) as Hload.
  cbv zeta in Hload. unfold mbind, Proc_bind. rewrite Hload.
  eexists _, _. split; [reflexivity|].
  split; [|repeat split].
  cbn [profiles updateManageList set_manageList set_mainList updateProfileList
       set_profileList set_profiles cm0].
  vm_compute. reflexivity.
Qed.

Lemma loadProfiles_first_run_witness :
  exists cm' w',
    @loadProfiles (testRuntime [] [] [] []) (newManager "/s/profiles.conf")
      emptyWorld = (Ret cm', w')
    /\ profiles cm' =
         <[ "clean" := seedClean ]> (<[ "default" := seedDefault ]> ∅)
    /\ size (profiles cm') = 2
    /\ files w' = <[ "/s/profiles.conf" := seedContent ]> ∅.
Proof.
  apply (@loadProfiles_first_run (testRuntime [] [] [] [])
           (newManager "/s/profiles.conf") emptyWorld); reflexivity.
Defined.

(** C3, as stated, fails when the system refuses the write of the seeded
    file: the store file does not exist, [loadProfiles] drops the error
    of the write, cannot read the file and returns with no profile at
    all, and no store file has been created. *)
Lemma first_run_write_refused :
  fst (@Stat_IsNotExist readOnly "/s/profiles.conf" emptyWorld) = Ret true
  /\ exists cm' w',
       @loadProfiles readOnly (newManager "/s/profiles.conf") emptyWorld
       = (Ret cm', w')
       /\ profiles cm' = ∅
       /\ profiles cm' !! "default" = None
       /\ files w' !! "/s/profiles.conf" = None.
Proof.
  split; [reflexivity|].
  exists (newManager "/s/profiles.conf"), emptyWorld.
  split; [vm_compute; reflexivity|].
  split; [reflexivity|]. split; reflexivity.
Qed.

Lemma loadProfiles_tolerant_witness :
  exists cm',
    @loadProfiles (testRuntime [] [] [] []) (newManager "/s/profiles.conf")
      (mkWorld {[ "/s/profiles.conf" := mixedStore ]} []) =
      (Ret cm', mkWorld {[ "/s/profiles.conf" := mixedStore ]} [])
    /\ profiles cm' =
         insertAll ∅
           (profileOfLine <$> List.filter validLine (Split mixedStore chr_nl)).
Proof.
  assert (Hf : files (mkWorld {[ "/s/profiles.conf" := mixedStore ]} [])
               !! configFile (newManager "/s/profiles.conf") = Some mixedStore)
    by (vm_compute; reflexivity).
  destruct (@loadProfiles_tolerant (testRuntime [] [] [] [])
              (newManager "/s/profiles.conf")
              (mkWorld {[ "/s/profiles.conf" := mixedStore ]} []) mixedStore
              Hf) as (cm' & Hrun & Hm & _).
  exists cm'. split; [exact Hrun | exact Hm].
Defined.

Example mixedStore_profiles :
  loadLines ∅ mixedStore =
    <[ "work" := mkProfile "work" "none" "none" "--a" ]>
      (<[ "office" := mkProfile "office" "10.0.0.1:3128" "http" "--b" ]> ∅).
Proof. vm_compute. reflexivity. Qed.

(** C10 (amended): a line that does not begin with [#] and splits into
    more than four fields is kept: the profile entered has the first
    three fields as name, proxy and proxy type and the fourth as flags,
    and everything after the fourth [|] is gone.  So it is for the line
    wherever it stands in the file. *)
Theorem loadLine_extra_fields (m : gmap string Profile)
    (line f0 f1 f2 f3 : string) (rest : list string) :
  Split line chr_bar = f0 :: f1 :: f2 :: f3 :: rest ->
  rest <> [] ->
  HasPrefix line "#" = false ->
  loadLine m line = <[ f0 := mkProfile f0 f1 f2 f3 ]> m
  /\ (hasByte chr_nl line = false ->
      loadLines m line = <[ f0 := mkProfile f0 f1 f2 f3 ]> m
      /\ forall before after,
           loadLines m (before +:+ nl +:+ line +:+ nl +:+ after) =
           loadLines (<[ f0 := mkProfile f0 f1 f2 f3 ]> (loadLines m before))
                     after).
Proof.
  intros Hs Hrest Hc.
  assert (Hv : validLine line = true).
  { apply validLine_spec. split; [|split; [exact Hc|]].
    - intros ->. simpl in Hs. discriminate.
    - rewrite Hs. simpl. lia. }
  assert (Hstep : forall m', loadLine m' line = <[ f0 := mkProfile f0 f1 f2 f3 ]> m').
  { intros m'. rewrite (loadLine_valid m' line Hv).
    unfold profileOfLine. rewrite Hs. reflexivity. }
  split; [apply Hstep|]. intros Hnl. split.
  - now rewrite (loadLines_line m line Hnl).
  - intros before after.
    now rewrite !loadLines_app, (loadLines_line _ line Hnl), Hstep.
Qed.

Lemma loadLine_extra_fields_witness :
  loadLine ∅ "work|none|none|--a|--b|--c" =
    <[ "work" := mkProfile "work" "none" "none" "--a" ]> ∅.
Proof.
  refine (proj1 (loadLine_extra_fields ∅ "work|none|none|--a|--b|--c"
                   "work" "none" "none" "--a" [ "--b"; "--c" ] eq_refl _ eq_refl)).
  discriminate.
Defined.

(** C10, as stated, fails for a comment: the line has five fields and is
    dropped all the same. *)
Lemma comment_with_fields_dropped :
  length (Split "#tmp|none|none|--a|--b" chr_bar) = 5
  /\ loadLine ∅ "#tmp|none|none|--a|--b" = ∅
  /\ loadLines ∅ ("#tmp|none|none|--a|--b" +:+ nl) !! "#tmp" = None.
Proof. repeat split; vm_compute; reflexivity. Qed.

(** ** Writing the store and reading it back *)

Lemma profileLine_body (p : Profile) : profileLine p = lineBody p +:+ nl.
Proof. unfold profileLine, lineBody, nl. now rewrite !append_assoc. Qed.

Lemma fieldsFree_spec (c : ascii) (p : Profile) :
  fieldsFree c p = true ->
  hasByte c (Name p) = false /\ hasByte c (Proxy p) = false
  /\ hasByte c (ProxyType p) = false /\ hasByte c (Flags p) = false.
Proof.
  unfold fieldsFree. rewrite !andb_true_iff, !negb_true_iff. tauto.
Qed.

Lemma Split_lineBody (p : Profile) :
  fieldsFree chr_bar p = true ->
  Split (lineBody p) chr_bar = [ Name p; Proxy p; ProxyType p; Flags p ].
Proof.
  intros H. apply fieldsFree_spec in H as (Hn & Hp & Ht & Hf).
  change (lineBody p) with
    (Name p +:+ String chr_bar (Proxy p +:+ String chr_bar
       (ProxyType p +:+ String chr_bar (Flags p)))).
  rewrite !Split_app.
  now rewrite (Split_free _ _ Hn), (Split_free _ _ Hp), (Split_free _ _ Ht),
    (Split_free _ _ Hf).
Qed.

Lemma prefix_nil (s : string) : String.prefix "" s = true.
Proof. destruct s; reflexivity. Qed.

Lemma prefix_hash_cons (c : ascii) (s : string) :
  String.prefix "#" (String c s) = if ascii_dec "#" c then true else false.
Proof.
  change (String.prefix "#" (String c s))
    with (if ascii_dec "#" c then String.prefix "" s else false).
  destruct (ascii_dec "#" c); [apply prefix_nil | reflexivity].
Qed.

Lemma HasPrefix_hash_app (a b : string) :
  HasPrefix a "#" = false -> HasPrefix (a +:+ String chr_bar b) "#" = false.
Proof.
  unfold HasPrefix. destruct a as [|c a]; [reflexivity|].
  now rewrite append_cons, !prefix_hash_cons.
Qed.

Lemma lineBody_hasByte_nl (p : Profile) :
  fieldsFree chr_nl p = true -> hasByte chr_nl (lineBody p) = false.
Proof.
  intros H. apply fieldsFree_spec in H as (Hn & Hp & Ht & Hf).
  unfold lineBody. rewrite !hasByte_app, Hn, Hp, Ht, Hf. reflexivity.
Qed.

(** The line of a storable profile is valid and reads back as the
    profile. *)
Lemma lineBody_reads_back (p : Profile) :
  storableProfile p ->
  validLine (lineBody p) = true /\ profileOfLine (lineBody p) = p.
Proof.
  intros (Hbar & _ & Hhash). split.
  - apply validLine_spec. split; [|split].
    + intros He. pose proof (Split_lineBody p Hbar) as Hs.
      rewrite He in Hs. discriminate Hs.
    + apply (HasPrefix_hash_app (Name p) _ Hhash).
    + rewrite (Split_lineBody p Hbar). simpl. lia.
  - unfold profileOfLine. rewrite (Split_lineBody p Hbar). now destruct p.
Qed.

Lemma saveContent_from (acc : string) (l : list (string * Profile)) :
  foldl (fun content kv => content +:+ profileLine (snd kv)) acc l
  = acc +:+ saveContent l.
Proof.
  unfold saveContent. revert acc.
  induction l as [|kv l IH]; intros acc; simpl; [now rewrite append_nil_r|].
  rewrite IH, (IH (_ +:+ _)), append_nil_l. now rewrite append_assoc.
Qed.

Lemma saveContent_cons (kv : string * Profile) (l : list (string * Profile)) :
  saveContent (kv :: l) = profileLine (snd kv) +:+ saveContent l.
Proof. unfold saveContent at 1. simpl. now rewrite saveContent_from. Qed.

(** Reading what was written enters the written profiles, in order. *)
Lemma loadLines_saveContent (l : list (string * Profile))
    (m : gmap string Profile) :
  Forall (fun kv => storableProfile (snd kv)) l ->
  loadLines m (saveContent l) = insertAll m (snd <$> l).
Proof.
  intros Hall. revert m.
  induction Hall as [|kv l Hkv Hall IH]; intros m; [reflexivity|].
  rewrite saveContent_cons, profileLine_body, append_assoc, loadLines_app.
  destruct (lineBody_reads_back _ Hkv) as [Hv Hp].
  destruct Hkv as (_ & Hnl & _).
  rewrite (loadLines_line _ _ (lineBody_hasByte_nl _ Hnl)).
  rewrite (loadLine_valid _ _ Hv), Hp, IH. reflexivity.
Qed.

Lemma insertAll_list_to_map (l : list (string * Profile))
    (m0 : gmap string Profile) :
  Forall (fun kv => Name (snd kv) = fst kv) l ->
  insertAll m0 (snd <$> l) = list_to_map (reverse l) ∪ m0.
Proof.
  induction l as [|kv l IH] using rev_ind; intros Hall.
  - simpl. now rewrite (left_id_L ∅ (∪)).
  - apply Forall_app in Hall as [Hl Hkv].
    apply Forall_cons in Hkv as [Hkv _].
    unfold insertAll in *. rewrite fmap_app, foldl_app, (IH Hl). simpl.
    rewrite reverse_snoc. simpl. rewrite Hkv.
    now rewrite insert_union_l.
Qed.

(** Whatever order the entries are visited in, entering them gives the
    mapping back. *)
Lemma insertAll_range (m m0 : gmap string Profile)
    (l : list (string * Profile)) :
  keyedByName m -> l ≡ₚ map_to_list m -> m0 ⊆ m ->
  insertAll m0 (snd <$> l) = m.
Proof.
  intros Hk Hl Hsub.
  assert (Hall : Forall (fun kv => Name (snd kv) = fst kv) l).
  { apply Forall_forall. intros [k p] Hin. simpl.
    apply Hk. apply elem_of_map_to_list. now rewrite <- Hl. }
  rewrite (insertAll_list_to_map l m0 Hall).
  assert (Hm : list_to_map (reverse l) = m).
  { symmetry. apply list_to_map_flip. now rewrite reverse_Permutation. }
  rewrite Hm. apply map_eq. intros k. rewrite lookup_union.
  destruct (m !! k) as [p|] eqn:Hmk.
  - now destruct (m0 !! k).
  - destruct (m0 !! k) as [q|] eqn:H0k; [|reflexivity].
    rewrite map_subseteq_spec in Hsub. apply Hsub in H0k. congruence.
Qed.

(** Checking the two conditions on a given mapping by running over its
    entries. *)
Lemma keyedByName_check (m : gmap string Profile) :
  forallb (fun kv => String.eqb (Name (snd kv)) (fst kv)) (map_to_list m) = true ->
  keyedByName m.
Proof.
  intros H k p Hkp. rewrite forallb_forall in H.
  apply elem_of_map_to_list, list_elem_of_In, H in Hkp.
  now apply String.eqb_eq in Hkp.
Qed.

Lemma storable_check (m : gmap string Profile) :
  forallb (fun kv => fieldsFree chr_bar (snd kv) && fieldsFree chr_nl (snd kv)
                     && negb (HasPrefix (Name (snd kv)) "#"))
          (map_to_list m) = true ->
  forall k p, m !! k = Some p -> storableProfile p.
Proof.
  intros H k p Hkp. rewrite forallb_forall in H.
  apply elem_of_map_to_list, list_elem_of_In, H in Hkp. simpl in Hkp.
  apply andb_true_iff in Hkp as [Hkp Hh]. apply andb_true_iff in Hkp as [Hb Hn].
  apply negb_true_iff in Hh. now repeat split.
Qed.

Section RoundTrip.
Context `{RT : Runtime}.

Lemma saveProfiles_writes (cm : ChromiumManager) (w : World) :
  WriteFile_err w (configFile cm) = None ->
  saveProfiles cm w =
    (Ret tt,
     mkWorld (<[ configFile cm := saveContent (map_range (profiles cm)) ]>
                (files w)) (events w)).
Proof.
  intros Hw. unfold saveProfiles, mbind, Proc_bind, WriteFile, mret, Proc_ret.
  cbv beta. now rewrite Hw.
Qed.

(** C2 (amended): for every mapping of profiles, each filed under its
    name, in which no field contains [|] or a newline and no name begins
    with [#], a save that succeeds followed by a load gives back the
    mapping, entry by entry, whatever order the save visits the entries
    in.  The load may start from the empty mapping of a fresh start or
    from any part of the saved mapping. *)
Theorem save_load_roundtrip (cm cm0 : ChromiumManager) (w : World) :
  keyedByName (profiles cm) ->
  (forall k p, profiles cm !! k = Some p -> storableProfile p) ->
  WriteFile_err w (configFile cm) = None ->
  configFile cm0 = configFile cm ->
  profiles cm0 ⊆ profiles cm ->
  exists w1 cm1,
    saveProfiles cm w = (Ret tt, w1)
    /\ files w1 !! configFile cm = Some (saveContent (map_range (profiles cm)))
    /\ loadProfiles cm0 w1 = (Ret cm1, w1)
    /\ profiles cm1 = profiles cm.
Proof.
  intros Hk Hst Hw Hc Hsub. eexists _, _.
  split; [apply saveProfiles_writes, Hw|].
  assert (Hf : files (mkWorld (<[ configFile cm :=
                         saveContent (map_range (profiles cm)) ]> (files w))
                        (events w)) !! configFile cm0
               = Some (saveContent (map_range (profiles cm)))).
  { rewrite Hc. cbn [files]. apply lookup_insert_eq. }
  split; [cbn [files]; apply lookup_insert_eq|].
  rewrite (loadProfiles_existing cm0 _ _ Hf). split; [reflexivity|].
  cbn [profiles updateProfileList set_profiles set_profileList].
  rewrite loadLines_saveContent.
  - apply insertAll_range; [exact Hk | apply map_range_perm | exact Hsub].
  - apply Forall_forall. intros [k p] Hin. simpl.
    apply (Hst k). apply elem_of_map_to_list. now rewrite <- map_range_perm.
Qed.

End RoundTrip.

Lemma save_load_roundtrip_witness :
  exists w1 cm1,
    @saveProfiles (testRuntime [] [] [] [])
      (set_profiles twoProfiles (newManager "/s/profiles.conf")) emptyWorld
    = (Ret tt, w1)
    /\ @loadProfiles (testRuntime [] [] [] []) (newManager "/s/profiles.conf") w1
       = (Ret cm1, w1)
    /\ profiles cm1 = twoProfiles.
Proof.
  destruct (@save_load_roundtrip (testRuntime [] [] [] [])
              (set_profiles twoProfiles (newManager "/s/profiles.conf"))
              (newManager "/s/profiles.conf") emptyWorld)
    as (w1 & cm1 & Hs & _ & Hl & Hm).
  - apply keyedByName_check. vm_compute. reflexivity.
  - apply storable_check. vm_compute. reflexivity.
  - reflexivity.
  - reflexivity.
  - apply map_empty_subseteq.
  - exists w1, cm1. auto.
Defined.

(** C2, as stated, fails: a profile whose name begins with [#] meets the
    conditions of the claim (no [|], no newline, a non-empty name, flags
    that do not begin with [#]) and is written as a comment line, so the
    load that follows the save drops it. *)
Lemma roundtrip_loses_hash_name :
  let p := mkProfile "#tmp" "none" "none" "--a" in
  let cm := set_profiles {[ "#tmp" := p ]} (newManager "/s/profiles.conf") in
  fieldsFree chr_bar p = true /\ fieldsFree chr_nl p = true
  /\ Name p <> "" /\ HasPrefix (Flags p) "#" = false
  /\ exists w1 cm1,
       @saveProfiles (testRuntime [] [] [] []) cm emptyWorld = (Ret tt, w1)
       /\ files w1 !! "/s/profiles.conf" = Some ("#tmp|none|none|--a" +:+ nl)
       /\ @loadProfiles (testRuntime [] [] [] []) (newManager "/s/profiles.conf")
            w1 = (Ret cm1, w1)
       /\ profiles cm1 = ∅
       /\ profiles cm1 <> profiles cm.
Proof.
  intros p cm. repeat (split; [first [reflexivity | discriminate]|]).
  eexists _, _. split; [vm_compute; reflexivity|].
  split; [vm_compute; reflexivity|].
  split; [vm_compute; reflexivity|].
  split; [reflexivity|].
  intros H. apply (f_equal (fun m => m !! "#tmp")) in H.
  vm_compute in H. discriminate H.
Qed.

(** ** The editor views *)

Lemma Key_String_enter (k : Key) :
  KType k = KeyEnter -> Key_String k = "enter" \/ Key_String k = "alt+enter".
Proof.
  destruct k as [t r a]. simpl. intros ->. unfold Key_String. simpl.
  destruct a; [right | left]; reflexivity.
Qed.

Lemma Key_String_not_digit (k : Key) :
  KType k = KeyEnter ->
  String.eqb (Key_String k) "1" = false /\ String.eqb (Key_String k) "2" = false
  /\ String.eqb (Key_String k) "3" = false
  /\ String.eqb (Key_String k) "4" = false.
Proof.
  intros Hk. destruct (Key_String_enter k Hk) as [-> | ->]; repeat split.
Qed.

Section Editor.
Context `{RT : Runtime}.

(** The Enter key in the views [edit_profile] and [add_profile] goes to
    the save branch of [updateEditor]. *)
Lemma Update_editor_enter (cm : ChromiumManager) (k : Key) :
  KType k = KeyEnter ->
  currentView cm = "edit_profile" \/ currentView cm = "add_profile" ->
  Update cm (KeyMsg k) = updateEditor cm k.
Proof.
  intros Hk Hv. unfold Update, isKey. rewrite Hk.
  rewrite !bool_decide_eq_false_2 by discriminate. cbn [andb].
  destruct Hv as [-> | ->]; reflexivity.
Qed.

Lemma saveProfiles_returns (cm : ChromiumManager) (w : World) :
  fst (saveProfiles cm w) = Ret tt.
Proof.
  unfold saveProfiles, mbind, Proc_bind, WriteFile, mret, Proc_ret.
  cbv beta. destruct (WriteFile_err w (configFile cm)); reflexivity.
Qed.

Lemma updateEditor_enter (cm : ChromiumManager) (k : Key) :
  KType k = KeyEnter ->
  profileName cm <> "" ->
  profileName cm <> selected cm ->
  updateEditor cm k =
    if bool_decide (is_Some (profiles cm !! profileName cm)) then
      mret (set_message ("Profile '" +:+ profileName cm +:+ "' already exists")
              cm, CmdNil)
    else
      let cm1 :=
        set_profiles
          (<[ profileName cm :=
                mkProfile (profileName cm) (profileProxy cm) (profileType cm)
                          (profileFlags cm) ]>
             (delete (selected cm) (profiles cm))) cm in
      saveProfiles cm1 ≫= fun _ =>
      mret (set_currentView "main"
              (set_message ("Profile '" +:+ profileName cm +:+ "' updated") cm1),
            CmdNil).
Proof.
  intros Hk Hne Hren. unfold updateEditor, isKey.
  destruct (Key_String_not_digit k Hk) as (H1 & H2 & H3 & H4).
  rewrite H1, H2, H3, H4, Hk, bool_decide_eq_true_2 by reflexivity.
  apply String.eqb_neq in Hne. rewrite Hne.
  assert (Hs : String.eqb (selected cm) (profileName cm) = false)
    by (apply String.eqb_neq; congruence).
  rewrite Hs. reflexivity.
Qed.

Lemma updateEditor_collision (cm : ChromiumManager) (k : Key) (w : World) :
  KType k = KeyEnter ->
  profileName cm <> "" ->
  profileName cm <> selected cm ->
  is_Some (profiles cm !! profileName cm) ->
  updateEditor cm k w =
    (Ret (set_message ("Profile '" +:+ profileName cm +:+ "' already exists") cm,
          CmdNil), w).
Proof.
  intros Hk Hne Hren Hex. rewrite (updateEditor_enter cm k Hk Hne Hren).
  now rewrite (bool_decide_eq_true_2 _ Hex).
Qed.

Lemma updateEditor_rename (cm : ChromiumManager) (k : Key) (w : World) :
  KType k = KeyEnter ->
  profileName cm <> "" ->
  profileName cm <> selected cm ->
  profiles cm !! profileName cm = None ->
  let cm1 :=
    set_profiles
      (<[ profileName cm :=
            mkProfile (profileName cm) (profileProxy cm) (profileType cm)
                      (profileFlags cm) ]> (delete (selected cm) (profiles cm)))
      cm in
  updateEditor cm k w =
    (Ret (set_currentView "main"
            (set_message ("Profile '" +:+ profileName cm +:+ "' updated") cm1),
          CmdNil),
     snd (saveProfiles cm1 w)).
Proof.
  intros Hk Hne Hren Hno cm1. rewrite (updateEditor_enter cm k Hk Hne Hren).
  assert (Hnot : ~ is_Some (profiles cm !! profileName cm))
    by (rewrite Hno; intros [? ?]; discriminate).
  rewrite (bool_decide_eq_false_2 _ Hnot). cbv zeta. fold cm1.
  unfold mbind, Proc_bind. pose proof (saveProfiles_returns cm1 w) as Hret.
  destruct (saveProfiles cm1 w) as [r w']. simpl in Hret. subst r. reflexivity.
Qed.

(** C5: in the edit-save transition, for every store and every edit
    buffer whose original name is an existing key, confirming with a new
    non-empty name different from the original one removes the entry
    under the original name and enters the buffer's four fields under the
    new name (and the view returns to [main]); if the new name is the key
    of another existing profile, the store is left as it is, the
    collision message is set and the view does not change. *)
Theorem edit_save_rename (cm : ChromiumManager) (k : Key) (w : World) :
  currentView cm = "edit_profile" \/ currentView cm = "add_profile" ->
  KType k = KeyEnter ->
  is_Some (profiles cm !! selected cm) ->
  profileName cm <> "" ->
  profileName cm <> selected cm ->
  (profiles cm !! profileName cm = None ->
   exists cm' w',
     Update cm (KeyMsg k) w = (Ret (cm', CmdNil), w')
     /\ profiles cm' =
          <[ profileName cm :=
               mkProfile (profileName cm) (profileProxy cm) (profileType cm)
                         (profileFlags cm) ]>
            (delete (selected cm) (profiles cm))
     /\ profiles cm' !! selected cm = None
     /\ profiles cm' !! profileName cm =
          Some (mkProfile (profileName cm) (profileProxy cm) (profileType cm)
                          (profileFlags cm))
     /\ (forall n, n <> selected cm -> n <> profileName cm ->
                   profiles cm' !! n = profiles cm !! n)
     /\ currentView cm' = "main")
  /\ (is_Some (profiles cm !! profileName cm) ->
      exists cm',
        Update cm (KeyMsg k) w = (Ret (cm', CmdNil), w)
        /\ profiles cm' = profiles cm
        /\ message cm' = "Profile '" +:+ profileName cm +:+ "' already exists"
        /\ currentView cm' = currentView cm).
Proof.
  intros Hv Hk _ Hne Hren. rewrite (Update_editor_enter cm k Hk Hv). split.
  - intros Hno. eexists _, _.
    rewrite (updateEditor_rename cm k w Hk Hne Hren Hno).
    split; [reflexivity|].
    cbn [profiles set_currentView set_message set_profiles].
    split; [reflexivity|]. split; [|split; [|split; [|reflexivity]]].
    + rewrite lookup_insert_ne by exact Hren. apply lookup_delete_eq.
    + apply lookup_insert_eq.
    + intros n Hn1 Hn2. rewrite lookup_insert_ne by congruence.
      apply lookup_delete_ne. congruence.
  - intros Hex. eexists.
    rewrite (updateEditor_collision cm k w Hk Hne Hren Hex).
    repeat split; reflexivity.
Qed.

End Editor.

Lemma edit_save_rename_witness :
  (exists cm' w',
     @Update uiRuntime (editingWork "job") keyEnter emptyWorld
       = (Ret (cm', CmdNil), w')
     /\ profiles cm' !! "work" = None
     /\ profiles cm' !! "job" = Some (mkProfile "job" "none" "none" "--a --b"))
  /\ (exists cm',
        @Update uiRuntime (editingWork "office") keyEnter emptyWorld
          = (Ret (cm', CmdNil), emptyWorld)
        /\ profiles cm' = twoProfiles
        /\ message cm' = "Profile 'office' already exists"
        /\ currentView cm' = "edit_profile").
Proof.
  split.
  - destruct (@edit_save_rename uiRuntime (editingWork "job")
                (mkKey KeyEnter "" false) emptyWorld) as [Hren _].
    + left. reflexivity.
    + reflexivity.
    + vm_compute. eauto.
    + discriminate.
    + discriminate.
    + destruct Hren as (cm' & w' & Hrun & _ & Hold & Hnew & _).
      * vm_compute. reflexivity.
      * exists cm', w'. auto.
  - destruct (@edit_save_rename uiRuntime (editingWork "office")
                (mkKey KeyEnter "" false) emptyWorld) as [_ Hcol].
    + left. reflexivity.
    + reflexivity.
    + vm_compute. eauto.
    + discriminate.
    + discriminate.
    + destruct Hcol as (cm' & Hrun & Hp & Hm & Hv).
      * vm_compute. eauto.
      * exists cm'. auto.
Defined.

(** ** Computations that always come back *)

Section Returns.
Context `{RT : Runtime}.

Lemma returns_ret {A} (a : A) : returns (mret a).
Proof. intros w. eexists _, _. reflexivity. Qed.

Lemma returns_bind {A B} (c : Proc A) (f : A -> Proc B) :
  returns c -> (forall a, returns (f a)) -> returns (c ≫= f).
Proof.
  intros Hc Hf w. destruct (Hc w) as (a & w1 & H1).
  destruct (Hf a w1) as (b & w2 & H2).
  exists b, w2. unfold mbind, Proc_bind. now rewrite H1.
Qed.

Lemma returns_Start (name : string) (args : list string) :
  returns (Start name args).
Proof. intros w. eexists _, _. reflexivity. Qed.

Lemma returns_WriteFile (path data : string) : returns (WriteFile path data).
Proof.
  intros w. unfold WriteFile.
  destruct (WriteFile_err w path); eexists _, _; reflexivity.
Qed.

Lemma returns_Stat (path : string) : returns (Stat_IsNotExist path).
Proof. intros w. eexists _, _. reflexivity. Qed.

Lemma returns_logEvent (e : Event) : returns (logEvent e).
Proof. intros w. eexists _, _. reflexivity. Qed.

Lemma returns_getWorld : returns getWorld.
Proof. intros w. eexists _, _. reflexivity. Qed.

Lemma returns_RemoveAll (path : string) : returns (RemoveAll path).
Proof. intros w. eexists _, _. reflexivity. Qed.

Lemma returns_ReadFile (path : string) : returns (ReadFile path).
Proof. intros w. eexists _, _. reflexivity. Qed.

Ltac returns_step :=
  first
    [ apply returns_ret | apply returns_Start | apply returns_WriteFile
    | apply returns_Stat | apply returns_logEvent | apply returns_getWorld
    | apply returns_RemoveAll | apply returns_ReadFile
    | apply returns_bind; [|intros ?]
    | match goal with
      | |- returns (match ?x with _ => _ end) => destruct x
      end ].

Lemma returns_startDarwin (chrome : string) (args : list string) :
  returns (startDarwin chrome args).
Proof. unfold startDarwin. repeat returns_step. Qed.

Lemma returns_startLinux (chrome : string) (args : list string) :
  returns (startLinux chrome args).
Proof. unfold startLinux. repeat returns_step. Qed.

Lemma returns_launchBrowser (cm : ChromiumManager) (name : string) :
  returns (launchBrowser cm name).
Proof.
  unfold launchBrowser, MkdirAll.
  repeat first [ apply returns_startDarwin | apply returns_startLinux
               | returns_step ].
Qed.

Lemma returns_removeEntries (path : string) (names : list string) :
  returns (removeEntries path names).
Proof.
  induction names as [|n names IH]; simpl; repeat first [apply IH | returns_step].
Qed.

Lemma returns_saveProfiles (cm : ChromiumManager) : returns (saveProfiles cm).
Proof. unfold saveProfiles. repeat returns_step. Qed.

Lemma returns_loadProfiles (cm : ChromiumManager) : returns (loadProfiles cm).
Proof. unfold loadProfiles. repeat returns_step. Qed.

Lemma returns_initialModel : returns initialModel.
Proof.
  unfold initialModel, MkdirAll.
  repeat first [apply returns_loadProfiles | returns_step].
Qed.

(** [Update] answers every message. *)
Lemma returns_Update (cm : ChromiumManager) (msg : Msg) :
  returns (Update cm msg).
Proof.
  unfold Update, updateMain, updateSelectProfile, updateManage,
    updateSelectEdit, updateSelectDelete, updateConfirmDelete,
    updateSelectClean, updateEditor, updateField, passProfileList.
  repeat first [ apply returns_launchBrowser | apply returns_saveProfiles
               | apply returns_removeEntries | returns_step ].
Qed.

End Returns.

(** ** What the views do to the mapping *)

Section StoreSteps.
Context `{RT : Runtime}.

Ltac proc_cases :=
  unfold mbind, Proc_bind, mret, Proc_ret in *; repeat case_match; simplify_eq.

Lemma updateMain_profiles cm k w cm' c w' :
  updateMain cm k w = (Ret (cm', c), w') -> profiles cm' = profiles cm.
Proof. unfold updateMain. intros H. proc_cases; reflexivity. Qed.

Lemma updateSelectProfile_profiles cm k w cm' c w' :
  updateSelectProfile cm k w = (Ret (cm', c), w') -> profiles cm' = profiles cm.
Proof.
  unfold updateSelectProfile, passProfileList. intros H. proc_cases; reflexivity.
Qed.

Lemma updateManage_profiles cm k w cm' c w' :
  updateManage cm k w = (Ret (cm', c), w') -> profiles cm' = profiles cm.
Proof. unfold updateManage. intros H. proc_cases; reflexivity. Qed.

Lemma updateSelectEdit_profiles cm k w cm' c w' :
  updateSelectEdit cm k w = (Ret (cm', c), w') -> profiles cm' = profiles cm.
Proof.
  unfold updateSelectEdit, passProfileList. intros H. proc_cases; reflexivity.
Qed.

Lemma updateSelectDelete_profiles cm k w cm' c w' :
  updateSelectDelete cm k w = (Ret (cm', c), w') -> profiles cm' = profiles cm.
Proof.
  unfold updateSelectDelete, passProfileList. intros H. proc_cases; reflexivity.
Qed.

Lemma updateSelectClean_profiles cm k w cm' c w' :
  updateSelectClean cm k w = (Ret (cm', c), w') -> profiles cm' = profiles cm.
Proof.
  unfold updateSelectClean, passProfileList, getWorld. intros H.
  proc_cases; reflexivity.
Qed.

Lemma updateField_profiles cm k w cm' c w' :
  updateField cm k w = (Ret (cm', c), w') -> profiles cm' = profiles cm.
Proof. unfold updateField. intros H. proc_cases; reflexivity. Qed.

Lemma updateConfirmDelete_step cm k w cm' c w' :
  updateConfirmDelete cm k w = (Ret (cm', c), w') -> storeStep cm cm'.
Proof. unfold updateConfirmDelete, storeStep. intros H. proc_cases; auto. Qed.

Lemma updateEditor_step cm k w cm' c w' :
  updateEditor cm k w = (Ret (cm', c), w') -> storeStep cm cm'.
Proof.
  unfold updateEditor, storeStep. intros H. proc_cases; auto.
  all: right; right.
  all: match goal with
       | Hn : String.eqb _ "" = false |- _ => apply String.eqb_neq in Hn
       end.
  all: split; [assumption|]; eexists; split; [|reflexivity]; auto.
Qed.

(** Every message changes the mapping by a [storeStep]. *)
Lemma Update_step cm msg w cm' c w' :
  Update cm msg w = (Ret (cm', c), w') -> storeStep cm cm'.
Proof.
  unfold Update. intros H.
  destruct msg; repeat case_match;
    try (left; unfold mret, Proc_ret in H; simplify_eq; reflexivity).
  all: eauto using updateConfirmDelete_step, updateEditor_step.
  all: left; eauto using updateMain_profiles, updateSelectProfile_profiles,
         updateManage_profiles, updateSelectEdit_profiles,
         updateSelectDelete_profiles, updateSelectClean_profiles,
         updateField_profiles.
Qed.

End StoreSteps.

Lemma storeInvariant_delete (m : gmap string Profile) (k : string) :
  storeInvariant m -> storeInvariant (delete k m).
Proof.
  intros [Hk Hn]. split; intros n p H; apply lookup_delete_Some in H as [_ H];
    eauto.
Qed.

Lemma storeInvariant_insert (m : gmap string Profile) (p : Profile) :
  Name p <> "" -> storeInvariant m -> storeInvariant (<[ Name p := p ]> m).
Proof.
  intros Hp [Hk Hn]. split; intros n q H;
    apply lookup_insert_Some in H as [[<- <-]|[_ H]]; eauto.
Qed.

Lemma storeStep_invariant (cm cm' : ChromiumManager) :
  storeInvariant (profiles cm) -> storeStep cm cm' ->
  storeInvariant (profiles cm').
Proof.
  intros Hinv [->|[->|(Hne & base & Hbase & ->)]].
  - exact Hinv.
  - now apply storeInvariant_delete.
  - apply (storeInvariant_insert base (mkProfile (profileName cm) _ _ _) Hne).
    destruct Hbase as [->| ->]; [exact Hinv | now apply storeInvariant_delete].
Qed.

(** The add, edit and delete transitions, and every other message, keep
    the invariant of the mapping. *)
Lemma Update_keeps_invariant `{RT : Runtime} (cm : ChromiumManager) (msg : Msg)
    (w : World) :
  storeInvariant (profiles cm) ->
  exists cm' c w',
    Update cm msg w = (Ret (cm', c), w') /\ storeInvariant (profiles cm').
Proof.
  intros Hinv. destruct (returns_Update cm msg w) as ([cm' c] & w' & H).
  exists cm', c, w'. split; [exact H|].
  eapply storeStep_invariant; [exact Hinv | eapply Update_step, H].
Qed.

(** Loading keeps every profile filed under its own name. *)
Lemma loadLines_keyed (m : gmap string Profile) (data : string) :
  keyedByName m -> keyedByName (loadLines m data).
Proof.
  intros Hk. unfold loadLines. rewrite foldl_loadLine. now apply insertAll_keyed.
Qed.

(** ** Adding a profile *)

(** In every state of the manage view, confirming "Add New Profile"
    resets the four fields of the buffer and leaves [selected] as it
    was. *)
Lemma Update_manage_add `{RT : Runtime} (cm : ChromiumManager) (k : Key)
    (w : World) (i : item) :
  currentView cm = "manage" ->
  KType k = KeyEnter ->
  SelectedItem (manageList cm) = Some i ->
  title i = "Add New Profile" ->
  exists cm' c,
    Update cm (KeyMsg k) w = (Ret (cm', c), w)
    /\ currentView cm' = "add_profile" /\ profileName cm' = ""
    /\ profileProxy cm' = "none" /\ profileType cm' = "none"
    /\ profileFlags cm' =
         "--no-first-run --disable-features=RendererCodeIntegrity"
    /\ selected cm' = selected cm /\ profiles cm' = profiles cm.
Proof.
  intros Hv Hk Hi Ht.
  assert (Hu : Update cm (KeyMsg k) = updateManage cm k).
  { unfold Update, isKey. rewrite Hk, Hv.
    rewrite !bool_decide_eq_false_2 by discriminate. reflexivity. }
  rewrite Hu. unfold updateManage, isKey.
  rewrite Hk, bool_decide_eq_true_2, Hi, Ht by reflexivity.
  cbn [String.eqb]. rewrite !Ascii.eqb_refl.
  destruct (list_Update _ _) as [l c] eqn:Hl.
  eexists _, c. split; [reflexivity|]. repeat split.
Qed.

(** C6 at the failing input: after a profile has been opened in the
    editor and left with Esc, confirming "Add New Profile" resets the
    four fields, but the name selected for the edit stays behind as the
    original name. *)
Theorem add_profile_keeps_selection :
  exists cm w cm' w',
    session keysEditThenManage = (Ret cm, w)
    /\ currentView cm = "manage"
    /\ title <$> SelectedItem (manageList cm) = Some "Add New Profile"
    /\ @Update uiRuntime cm keyEnter w = (Ret (cm', CmdNil), w')
    /\ currentView cm' = "add_profile"
    /\ profileName cm' = "" /\ profileProxy cm' = "none"
    /\ profileType cm' = "none"
    /\ profileFlags cm' =
         "--no-first-run --disable-features=RendererCodeIntegrity"
    /\ selected cm' = "clean".
Proof.
  eexists _, _, _, _. split; [vm_compute; reflexivity|].
  split; [reflexivity|]. split; [reflexivity|].
  split; [vm_compute; reflexivity|]. repeat split.
Qed.

(** What the stale name does next: the new profile is saved as a rename
    of the profile edited before, which is gone from the mapping, while
    the same keys in a fresh session add the profile and keep the
    others. *)
Lemma add_after_edit_removes_profile :
  (exists cm w,
     session (keysEditThenManage ++
              [ keyEnter; keyRunes "1"; keyRunes "n"; keyRunes "e";
                keyRunes "w"; keyEnter; keyEnter ]) = (Ret cm, w)
     /\ fst <$> map_to_list (profiles cm) = [ "new"; "default" ])
  /\ (exists cm w,
        session [ keyDown; keyEnter; keyEnter; keyRunes "1"; keyRunes "n";
                  keyRunes "e"; keyRunes "w"; keyEnter; keyEnter ] = (Ret cm, w)
        /\ fst <$> map_to_list (profiles cm) = [ "clean"; "new"; "default" ]).
Proof.
  split; eexists _, _; (split; [vm_compute; reflexivity|]);
    vm_compute; reflexivity.
Qed.

(** ** The invariant of the mapping and the store file *)

(** C9 at the failing input: a line of the store file whose first field
    is empty is entered under the empty name, so after the load the
    mapping holds a profile without a name. *)
Theorem load_accepts_empty_name :
  exists cm',
    @loadProfiles uiRuntime (newManager "/s/profiles.conf")
      (mkWorld {[ "/s/profiles.conf" := "|none|none|--a" +:+ nl ]} [])
    = (Ret cm', mkWorld {[ "/s/profiles.conf" := "|none|none|--a" +:+ nl ]} [])
    /\ storeInvariant (profiles (newManager "/s/profiles.conf"))
    /\ profiles cm' !! "" = Some (mkProfile "" "none" "none" "--a")
    /\ ~ storeInvariant (profiles cm').
Proof.
  eexists. split; [vm_compute; reflexivity|].
  split; [split; intros k p H; vm_compute in H; discriminate H|].
  assert (Hl : (<[ "" := mkProfile "" "none" "none" "--a" ]> ∅
                : gmap string Profile) !! "" = Some (mkProfile "" "none" "none" "--a"))
    by apply lookup_insert_eq.
  split; [exact Hl|].
  intros [_ Hn]. exact (Hn "" _ Hl eq_refl).
Qed.

(** ** Exit status of the subcommands *)

Lemma bind_run {A B} (c : Proc A) (f : A -> Proc B) (w w' : World) (a : A) :
  c w = (Ret a, w') -> (c ≫= f) w = f a w'.
Proof. intros H. unfold mbind, Proc_bind. now rewrite H. Qed.

Lemma bind_exit {A B} (c : Proc A) (f : A -> Proc B) (w w' : World) (n : Z) :
  c w = (Exited n, w') -> (c ≫= f) w = (Exited n, w').
Proof. intros H. unfold mbind, Proc_bind. now rewrite H. Qed.

Section Removal.
Context `{RT : Runtime}.

Lemma removalAnswer_first (path n : string) (names : list string) (w : World) :
  removalAnswer path (n :: names) w 0 = RemoveAll_err w (filepath_Join path n).
Proof. reflexivity. Qed.

Lemma removalAnswer_next (path n : string) (names : list string) (w : World)
    (k : nat) :
  removalAnswer path (n :: names) w (S k)
  = removalAnswer path names (removed (filepath_Join path n) w) k.
Proof. reflexivity. Qed.

(** The removal loop against the answers of the system: it comes back
    without an error when every removal was accepted, and with the first
    error otherwise, having asked for nothing behind it. *)
Lemma removeEntries_run (path : string) (names : list string) (w : World) :
  exists r w',
    removeEntries path names w = (Ret r, w')
    /\ match r with
       | None =>
           (forall j, j < length names -> removalAnswer path names w j = None)
           /\ w' = removedAll path names w
       | Some e =>
           exists k, firstRemovalError path names w k e
                     /\ w' = removedAll path (take (S k) names) w
       end.
Proof.
  revert w. induction names as [|n names IH]; intros w.
  - exists None, w. split; [reflexivity|]. split; [|reflexivity].
    intros j Hj. simpl in Hj. lia.
  - cbn [removeEntries].
    destruct (RemoveAll_err w (filepath_Join path n)) as [e|] eqn:He.
    + exists (Some e), (removed (filepath_Join path n) w).
      rewrite (bind_run (RemoveAll _) _ w (removed (filepath_Join path n) w)
                 (Some e)) by (unfold RemoveAll; now rewrite He).
      split; [reflexivity|]. exists 0. split; [|reflexivity].
      split; [simpl; lia|]. split; [intros j Hj; lia|].
      now rewrite removalAnswer_first.
    + destruct (IH (removed (filepath_Join path n) w))
        as (r & w' & Hrun & Hr).
      exists r, w'.
      rewrite (bind_run (RemoveAll _) _ w (removed (filepath_Join path n) w)
                 None) by (unfold RemoveAll; now rewrite He).
      split; [exact Hrun|]. destruct r as [e|].
      * destruct Hr as (k & (Hlt & Hbefore & Hk) & ->).
        exists (S k). split; [|reflexivity].
        split; [simpl; lia|]. split.
        -- intros [|j] Hj; [now rewrite removalAnswer_first|].
           rewrite removalAnswer_next. apply Hbefore. lia.
        -- now rewrite removalAnswer_next.
      * destruct Hr as (Hall & ->). split; [|reflexivity].
        intros [|j] Hj; [now rewrite removalAnswer_first|].
        rewrite removalAnswer_next. apply Hall. simpl in Hj. lia.
Qed.

End Removal.

Section ExitStatus.
Context `{RT : Runtime}.

(** The [clean] subcommand ends the process, with status 1, exactly when
    it meets a removal error; otherwise it comes back. *)
Lemma cleanCommand_status (cm : ChromiumManager) (name : string) (w : World) :
  let w1 := snd (Println ("Cleaning profile: " +:+ name) w) in
  (removalFails cm name w1 /\ fst (cleanCommand cm name w) = Exited 1)
  \/ (~ removalFails cm name w1 /\ fst (cleanCommand cm name w) = Ret tt).
Proof.
  intros w1. unfold cleanCommand, removalFails. cbv zeta.
  set (path := filepath_Join (profileDir cm) name).
  rewrite (bind_run (Println _) _ w w1 tt eq_refl).
  destruct (Stat_IsNotExist path w1) as [r ws] eqn:Hstat.
  assert (Hws : ws = w1) by (unfold Stat_IsNotExist in Hstat; congruence).
  subst ws. cbn [fst].
  assert (Hr : exists b, r = Ret b)
    by (unfold Stat_IsNotExist in Hstat; injection Hstat as <-; eauto).
  destruct Hr as [missing ->].
  rewrite (bind_run _ _ w1 w1 missing Hstat). destruct missing.
  - right. split; [intros [H _]; discriminate H | reflexivity].
  - rewrite (bind_run getWorld _ w1 w1 w1 eq_refl).
    destruct (ReadDir w1 path) as [e|names] eqn:Hrd.
    + right. split; [|reflexivity].
      intros [_ (names & k & e' & H & _)]. discriminate H.
    + destruct (removeEntries_run path names w1) as (r & w2 & Hrm & Hr).
      rewrite (bind_run _ _ w1 w2 r Hrm). destruct r as [e|].
      * left. split; [|reflexivity].
        split; [reflexivity|]. destruct Hr as (k & Hk & _).
        exists names, k, e. split; [reflexivity | exact Hk].
      * right. split; [|reflexivity].
        intros [_ (names' & k & e' & Hn & Hlt & _ & Hk)].
        injection Hn as <-. destruct Hr as [Hall _].
        rewrite (Hall k Hlt) in Hk. discriminate Hk.
Qed.

Ltac eval_eqb :=
  repeat match goal with
         | |- context [String.eqb ?a ?b] =>
             let v := eval vm_compute in (String.eqb a b) in
             match v with
             | true => change (String.eqb a b) with true
             | false => change (String.eqb a b) with false
             end
         end;
  cbv iota.

(** The start of [main] for a subcommand whose arguments parse. *)
Lemma parseCommandLine_value (prog command : string) (rest : list string)
    (v : string) (w : World) :
  os_Args = prog :: command :: rest ->
  (command = "launch" \/ command = "clean") ->
  flag_Parse (Some "default") rest = FlagValue v ->
  parseCommandLine w = (Ret (command, v, true), w).
Proof.
  intros Ha Hc Hp. unfold parseCommandLine, parseFlags. rewrite Ha.
  destruct Hc as [-> | ->]; eval_eqb; rewrite Hp; reflexivity.
Qed.

Lemma parseCommandLine_plain (prog command : string) (rest : list string)
    (v : string) (w : World) :
  os_Args = prog :: command :: rest ->
  (command = "list" \/ command = "version") ->
  flag_Parse None rest = FlagValue v ->
  parseCommandLine w = (Ret (command, "", true), w).
Proof.
  intros Ha Hc Hp. unfold parseCommandLine, parseFlags. rewrite Ha.
  destruct Hc as [-> | ->]; eval_eqb; rewrite Hp; reflexivity.
Qed.

Lemma returns_printHelp : returns printHelp.
Proof.
  unfold printHelp, Println, Print.
  repeat first [apply returns_logEvent | apply returns_bind; [|intros ?]].
Qed.

Lemma returns_list (l : list (string * Profile)) :
  returns (foldr (fun kv rest => Println ("  - " +:+ fst kv) ≫= fun _ => rest)
                 (mret tt) l).
Proof.
  induction l as [|kv l IH]; simpl; [apply returns_ret|].
  apply returns_bind; [apply returns_logEvent | intros _; exact IH].
Qed.

(** A computation that comes back, followed by [os.Exit(0)]. *)
Lemma exit_after {A} (c : Proc A) (w : World) :
  returns c -> fst ((c ≫= fun _ => os_Exit (A:=unit) 0) w) = Exited 0.
Proof.
  intros Hc. destruct (Hc w) as (a & w' & H).
  now rewrite (bind_run c _ w w' a H).
Qed.

(** C7 (amended): whenever the arguments of the subcommand parse, [list],
    [version] and [launch] end with status 0, [launch] also when the
    profile could not be launched; [help] ends with status 0; [clean]
    ends with status 1 exactly when the directory of the profile is
    there, can be listed and the removal of one of its entries fails, and
    with status 0 otherwise. *)
Theorem main_exit_status (w : World) (prog command : string)
    (rest : list string) :
  os_Args = prog :: command :: rest ->
  (command = "help" -> fst (main w) = Exited 0)
  /\ (command = "list" \/ command = "version" ->
      forall v, flag_Parse None rest = FlagValue v -> fst (main w) = Exited 0)
  /\ (command = "launch" ->
      forall v, flag_Parse (Some "default") rest = FlagValue v ->
      fst (main w) = Exited 0)
  /\ (command = "clean" ->
      forall v, flag_Parse (Some "default") rest = FlagValue v ->
      exists cm w0,
        initialModel w = (Ret cm, w0)
        /\ let w1 := snd (Println ("Cleaning profile: " +:+ v) w0) in
           (removalFails cm v w1 /\ fst (main w) = Exited 1)
           \/ (~ removalFails cm v w1 /\ fst (main w) = Exited 0)).
Proof.
  intros Ha. destruct (returns_initialModel w) as (cm & w0 & Hinit).
  split; [|split; [|split]].
  - intros ->. unfold main.
    destruct (returns_printHelp w) as (u & w' & Hh).
    assert (Hp : parseCommandLine w = (Exited 0, w')).
    { unfold parseCommandLine. rewrite Ha. eval_eqb.
      now rewrite (bind_run printHelp _ w w' u Hh). }
    now rewrite (bind_exit parseCommandLine _ w w' 0 Hp).
  - intros Hc v Hp. unfold main.
    rewrite (bind_run parseCommandLine _ w w _
               (parseCommandLine_plain prog command rest v w Ha Hc Hp)).
    cbv beta iota. rewrite (bind_run initialModel _ w w0 cm Hinit).
    destruct Hc as [-> | ->]; eval_eqb; apply exit_after.
    + apply returns_bind; [apply returns_logEvent | intros _; apply returns_list].
    + apply returns_logEvent.
  - intros -> v Hp. unfold main.
    rewrite (bind_run parseCommandLine _ w w _
               (parseCommandLine_value prog "launch" rest v w Ha
                  (or_introl eq_refl) Hp)).
    cbv beta iota. rewrite (bind_run initialModel _ w w0 cm Hinit).
    eval_eqb. apply exit_after.
    apply returns_bind; [apply returns_logEvent | intros _].
    apply returns_bind; [apply returns_launchBrowser | intros ?].
    apply returns_logEvent.
  - intros -> v Hp. exists cm, w0. split; [exact Hinit|]. intros w1.
    unfold main.
    rewrite (bind_run parseCommandLine _ w w _
               (parseCommandLine_value prog "clean" rest v w Ha
                  (or_intror eq_refl) Hp)).
    cbv beta iota. rewrite (bind_run initialModel _ w w0 cm Hinit).
    eval_eqb.
    destruct (cleanCommand_status cm v w0) as [[Hf Hs]|[Hf Hs]]; fold w1 in Hf;
      [left | right]; (split; [exact Hf|]);
      destruct (cleanCommand cm v w0) as [r w2] eqn:Hcl; simpl in Hs; subst r.
    + now rewrite (bind_exit (cleanCommand cm v) _ w0 w2 1 Hcl).
    + now rewrite (bind_run (cleanCommand cm v) _ w0 w2 tt Hcl).
Qed.

End ExitStatus.

Lemma main_exit_status_witness :
  exists cm w0,
    @initialModel cleanStuck emptyWorld = (Ret cm, w0)
    /\ @removalFails cleanStuck cm "work"
         (snd (Println "Cleaning profile: work" w0))
    /\ fst (@main cleanStuck emptyWorld) = Exited 1.
Proof.
  destruct (@main_exit_status cleanStuck emptyWorld "launchium" "clean"
              [ "-profile=work" ] eq_refl) as (_ & _ & _ & Hclean).
  destruct (Hclean eq_refl "work" eq_refl) as (cm & w0 & Hinit & Hcases).
  exists cm, w0. split; [exact Hinit|].
  destruct Hcases as [[Hf Hs]|[_ Hs]]; [split; assumption|].
  vm_compute in Hs. discriminate Hs.
Defined.

(** C7, as stated, fails: a launch that cannot find its profile prints
    the failure, starts no process and ends with status 0, and so does a
    clean whose directory does not exist. *)
Lemma failed_commands_exit_zero :
  (exists w',
     @main launchMissing emptyWorld = (Exited 0, w')
     /\ printed w' = [ "Launching browser with profile: nosuch" +:+ nl;
                       "Profile 'nosuch' not found" +:+ nl ]
     /\ forall name args, ~ In (EvStart name args) (events w'))
  /\ (exists w',
        @main cleanMissing emptyWorld = (Exited 0, w')
        /\ printed w' = [ "Cleaning profile: nosuch" +:+ nl;
                          "Error: Profile directory does not exist" +:+ nl ]).
Proof.
  split; eexists; (split; [vm_compute; reflexivity|]).
  - split; [vm_compute; reflexivity|].
    intros name args H. simpl in H.
    repeat (destruct H as [H|H]; [discriminate H|]). contradiction.
  - vm_compute. reflexivity.
Qed.

(** A clean that meets an entry it cannot remove ends with status 1 after
    removing what came before it. *)
Example clean_stuck_exits_one :
  exists w',
    @main cleanStuck emptyWorld = (Exited 1, w')
    /\ printed w' = [ "Cleaning profile: work" +:+ nl;
                      "Error cleaning profile: permission denied" +:+ nl ].
Proof. eexists. split; vm_compute; reflexivity. Qed.

(** * Further properties *)

Lemma Split_pieces_free (s : string) (sep : ascii) (x : string) :
  In x (Split s sep) -> hasByte sep x = false.
Proof.
  revert x. induction s as [|c s IH]; intros x; simpl.
  - intros [<-|[]]. reflexivity.
  - destruct (Ascii.eqb c sep) eqn:Hc.
    + intros [<-|H]; [reflexivity | now apply IH].
    + destruct (Split s sep) as [|w ws] eqn:Hs.
      * intros [<-|[]]. simpl. now rewrite Hc.
      * intros [<-|H].
        -- simpl. rewrite Hc. apply IH. now left.
        -- apply IH. now right.
Qed.

Lemma Split_pieces_sub (c : ascii) (s : string) (sep : ascii) (x : string) :
  hasByte c s = false -> In x (Split s sep) -> hasByte c x = false.
Proof.
  revert x. induction s as [|d s IH]; intros x; simpl.
  - intros _ [<-|[]]. reflexivity.
  - intros H. apply orb_false_iff in H as [Hd Hs].
    destruct (Ascii.eqb d sep).
    + intros [<-|H]; [reflexivity | now apply IH].
    + destruct (Split s sep) as [|w ws] eqn:Hsp.
      * intros [<-|[]]. simpl. now rewrite Hd.
      * intros [<-|H].
        -- simpl. rewrite Hd. apply IH; [exact Hs | now left].
        -- apply IH; [exact Hs | now right].
Qed.

Lemma Split_head_hash (s : string) (sep : ascii) (w : string) (ws : list string) :
  HasPrefix s "#" = false -> Split s sep = w :: ws -> HasPrefix w "#" = false.
Proof.
  unfold HasPrefix. destruct s as [|c s]; simpl Split.
  - intros _ H. injection H as <- _. reflexivity.
  - rewrite prefix_hash_cons. intros Hc.
    destruct (Ascii.eqb c sep).
    + intros H. injection H as <- _. reflexivity.
    + destruct (Split s sep); intros H; injection H as <- _;
        now rewrite prefix_hash_cons.
Qed.

(** What a valid line gives can be written back. *)
Lemma profileOfLine_storable (line : string) :
  validLine line = true -> hasByte chr_nl line = false ->
  storableProfile (profileOfLine line).
Proof.
  intros Hv Hnl. apply validLine_spec in Hv as (_ & Hhash & Hlen).
  assert (Hin : forall i, i < 4 -> In (nth i (Split line chr_bar) "") (Split line chr_bar))
    by (intros i Hi; apply nth_In; lia).
  unfold storableProfile, fieldsFree, profileOfLine. cbn [Name Proxy ProxyType Flags].
  split; [|split].
  - rewrite !(Split_pieces_free line chr_bar) by (apply Hin; lia). reflexivity.
  - rewrite !(Split_pieces_sub chr_nl line chr_bar _ Hnl) by (apply Hin; lia).
    reflexivity.
  - destruct (Split line chr_bar) as [|w ws] eqn:Hs; [simpl in Hlen; lia|].
    simpl. exact (Split_head_hash line chr_bar w ws Hhash Hs).
Qed.

Lemma loadLines_storable (data : string) (k : string) (p : Profile) :
  loadLines ∅ data !! k = Some p -> storableProfile p.
Proof.
  unfold loadLines. rewrite foldl_loadLine. intros H.
  apply insertAll_lookup in H as [[Hin _]|H]; [|rewrite lookup_empty in H; discriminate].
  apply list_elem_of_In, list_elem_of_fmap in Hin as (line & -> & Hin).
  apply list_elem_of_In, filter_In in Hin as [Hin Hv].
  apply profileOfLine_storable; [exact Hv|].
  exact (Split_pieces_free data chr_nl line Hin).
Qed.

Lemma keyedByName_empty : keyedByName ∅.
Proof. intros k p H. rewrite lookup_empty in H. discriminate. Qed.

Section StoreFile.
Context `{RT : Runtime}.

(** X1: whatever text the store file holds, the mapping that
    [loadProfiles] reads from it at startup survives a save that succeeds
    and a second load unchanged: every profile that can be read can be
    written back. *)
Theorem load_save_load (cm : ChromiumManager) (w : World) (data : string) :
  profiles cm = ∅ ->
  files w !! configFile cm = Some data ->
  WriteFile_err w (configFile cm) = None ->
  exists cm1 w2 cm3,
    loadProfiles cm w = (Ret cm1, w)
    /\ saveProfiles cm1 w = (Ret tt, w2)
    /\ loadProfiles cm w2 = (Ret cm3, w2)
    /\ profiles cm3 = profiles cm1.
Proof.
  intros Hm Hf Hw.
  set (cm1 := updateProfileList (set_profiles (loadLines (profiles cm) data) cm)).
  assert (Hc1 : configFile cm1 = configFile cm) by reflexivity.
  assert (Hp1 : profiles cm1 = loadLines ∅ data) by (cbn; now rewrite Hm).
  assert (Hw1 : WriteFile_err w (configFile cm1) = None) by now rewrite Hc1.
  eexists cm1, _, _. split; [apply loadProfiles_existing, Hf|].
  split; [apply (saveProfiles_writes cm1 w Hw1)|].
  rewrite Hc1.
  rewrite (loadProfiles_existing cm _ (saveContent (map_range (profiles cm1)))) 
    by (cbn [files]; apply lookup_insert_eq).
  split; [reflexivity|].
  cbn [profiles updateProfileList set_profiles set_profileList]. rewrite Hm.
  rewrite loadLines_saveContent.
  - apply insertAll_range; [|apply map_range_perm|apply map_empty_subseteq].
    rewrite Hp1. apply loadLines_keyed, keyedByName_empty.
  - apply Forall_forall. intros [k p] Hin. simpl.
    apply (loadLines_storable data k). rewrite <- Hp1.
    apply elem_of_map_to_list. now rewrite <- map_range_perm.
Qed.

(** X2: when the store file is missing and the system refuses to
    create it, [loadProfiles] returns the manager as it was (nothing
    loaded, [err] and [message] untouched) and leaves the world as it
    was. *)
Theorem loadProfiles_unwritable (cm : ChromiumManager) (w : World) (e : error) :
  files w !! configFile cm = None ->
  dir_missing w (configFile cm) = true ->
  WriteFile_err w (configFile cm) = Some e ->
  loadProfiles cm w = (Ret cm, w).
Proof.
  intros Hf Hd Hw.
  unfold loadProfiles, mbind, Proc_bind, Stat_IsNotExist, ReadFile, WriteFile,
    mret, Proc_ret.
  cbv beta. rewrite Hf, Hd. cbv beta iota. rewrite Hw. cbv beta iota.
  rewrite Hf. reflexivity.
Qed.
End StoreFile.

Lemma insertAll_untouched (ps : list Profile) (m : gmap string Profile) (k : string) :
  (forall p, In p ps -> Name p <> k) -> insertAll m ps !! k = m !! k.
Proof.
  revert m. induction ps as [|q ps IH]; intros m H; [reflexivity|].
  simpl. rewrite IH by (intros p Hp; apply H; now right).
  apply lookup_insert_ne. apply H. now left.
Qed.

(** X3: of the valid lines with one name the last one counts: after
    a valid line, followed by lines none of which is valid with the same
    name, the mapping holds the profile of that line under its name,
    whatever came before it. *)
Theorem loadLines_last_wins (m : gmap string Profile) (before line after : string) :
  validLine line = true ->
  hasByte chr_nl line = false ->
  (forall l, In l (Split after chr_nl) -> validLine l = true ->
             Name (profileOfLine l) <> Name (profileOfLine line)) ->
  loadLines m (before +:+ nl +:+ line +:+ nl +:+ after)
    !! Name (profileOfLine line) = Some (profileOfLine line).
Proof.
  intros Hv Hnl Hafter.
  rewrite !loadLines_app, (loadLines_line _ line Hnl), (loadLine_valid _ _ Hv).
  unfold loadLines at 1. rewrite foldl_loadLine, insertAll_untouched.
  - apply lookup_insert_eq.
  - intros p Hin.
    apply list_elem_of_In, list_elem_of_fmap in Hin as (l & -> & Hin).
    apply list_elem_of_In, filter_In in Hin as [Hin Hvl]. now apply Hafter.
Qed.

Lemma load_save_load_witness :
  exists cm1 w2 cm3,
    @loadProfiles uiRuntime (newManager "/s/profiles.conf") mixedWorld
      = (Ret cm1, mixedWorld)
    /\ @saveProfiles uiRuntime cm1 mixedWorld = (Ret tt, w2)
    /\ @loadProfiles uiRuntime (newManager "/s/profiles.conf") w2 = (Ret cm3, w2)
    /\ profiles cm3 = profiles cm1.
Proof.
  apply (@load_save_load uiRuntime (newManager "/s/profiles.conf") mixedWorld
           mixedStore).
  - reflexivity.
  - vm_compute. reflexivity.
  - reflexivity.
Defined.

Lemma loadProfiles_unwritable_witness :
  @loadProfiles readOnly (newManager "/s/profiles.conf") emptyWorld
  = (Ret (newManager "/s/profiles.conf"), emptyWorld).
Proof.
  apply (@loadProfiles_unwritable readOnly (newManager "/s/profiles.conf")
           emptyWorld "read-only file system"); reflexivity.
Defined.

Lemma loadLines_last_wins_witness :
  loadLines ∅ ("work|none|none|--a" +:+ nl +:+ "work|10.0.0.1:3128|http|--b"
               +:+ nl +:+ "office|none|none|")
    !! "work" = Some (mkProfile "work" "10.0.0.1:3128" "http" "--b").
Proof.
  apply (loadLines_last_wins ∅ "work|none|none|--a"
           "work|10.0.0.1:3128|http|--b" "office|none|none|").
  - vm_compute. reflexivity.
  - reflexivity.
  - intros l Hin _. simpl in Hin. destruct Hin as [<-|[]].
    vm_compute. discriminate.
Defined.

Lemma dropLast_snoc (s : string) (c : ascii) : dropLast (s +:+ String c "") = s.
Proof.
  induction s as [|d s IH]; [reflexivity|].
  rewrite append_cons. simpl. rewrite IH.
  destruct s; reflexivity.
Qed.

Lemma length_snoc_pos (s : string) (c : ascii) :
  Nat.ltb 0 (String.length (s +:+ String c "")) = true.
Proof. destruct s; reflexivity. Qed.

Lemma set_profileName_same cm : set_profileName (profileName cm) cm = cm.
Proof. now destruct cm. Qed.
Lemma set_profileProxy_same cm : set_profileProxy (profileProxy cm) cm = cm.
Proof. now destruct cm. Qed.
Lemma set_profileType_same cm : set_profileType (profileType cm) cm = cm.
Proof. now destruct cm. Qed.
Lemma set_profileFlags_same cm : set_profileFlags (profileFlags cm) cm = cm.
Proof. now destruct cm. Qed.

Lemma editText_type_back (f : string) (c : ascii) :
  editText (mkKey KeyBackspace "" false)
           (editText (mkKey KeyRunes (String c "") false) f) = f.
Proof.
  unfold editText, isKey, Key_String. cbn [KType Alt Runes].
  rewrite (bool_decide_eq_false_2 (KeyRunes = KeyBackspace)) by discriminate.
  rewrite (bool_decide_eq_true_2 (KeyRunes = KeyRunes)) by reflexivity.
  rewrite (bool_decide_eq_true_2 (KeyBackspace = KeyBackspace)) by reflexivity.
  cbn [andb]. rewrite append_nil_l, length_snoc_pos. apply dropLast_snoc.
Qed.

Lemma editText_backspace_empty : editText (mkKey KeyBackspace "" false) "" = "".
Proof. reflexivity. Qed.

Section EditorFlows.
Context `{RT : Runtime}.

(** A typing key in a field editor edits the field of that view. *)
Lemma Update_field_key (cm : ChromiumManager) (k : Key) (w : World) :
  KType k = KeyRunes \/ KType k = KeyBackspace ->
  (currentView cm = "edit_name" ->
   Update cm (KeyMsg k) w =
     (Ret (set_profileName (editText k (profileName cm)) cm, CmdNil), w))
  /\ (currentView cm = "edit_proxy" ->
      Update cm (KeyMsg k) w =
        (Ret (set_profileProxy (editText k (profileProxy cm)) cm, CmdNil), w))
  /\ (currentView cm = "edit_type" ->
      Update cm (KeyMsg k) w =
        (Ret (set_profileType (editText k (profileType cm)) cm, CmdNil), w))
  /\ (currentView cm = "edit_flags" ->
      Update cm (KeyMsg k) w =
        (Ret (set_profileFlags (editText k (profileFlags cm)) cm, CmdNil), w)).
Proof.
  intros Hk. unfold Update, updateField, isKey.
  repeat split; intros Hv; rewrite Hv; destruct Hk as [-> | ->]; reflexivity.
Qed.

(** X5: in each of the four field editors, Backspace takes back a
    typed one-byte character (the state is again what it was), and on an
    empty field it does nothing; neither key touches the world. *)
Theorem field_backspace_undoes (cm : ChromiumManager) (w : World) (c : ascii) :
  In (currentView cm) [ "edit_name"; "edit_proxy"; "edit_type"; "edit_flags" ] ->
  (exists cm1,
     Update cm (keyRunes (String c "")) w = (Ret (cm1, CmdNil), w)
     /\ Update cm1 keyBackspace w = (Ret (cm, CmdNil), w))
  /\ ((currentView cm = "edit_name" -> profileName cm = "") ->
      (currentView cm = "edit_proxy" -> profileProxy cm = "") ->
      (currentView cm = "edit_type" -> profileType cm = "") ->
      (currentView cm = "edit_flags" -> profileFlags cm = "") ->
      Update cm keyBackspace w = (Ret (cm, CmdNil), w)).
Proof.
  intros Hv. simpl in Hv. unfold keyRunes, keyBackspace.
  destruct (Update_field_key cm (mkKey KeyRunes (String c "") false) w
              (or_introl eq_refl)) as (R1 & R2 & R3 & R4).
  destruct (Update_field_key cm (mkKey KeyBackspace "" false) w
              (or_intror eq_refl)) as (B1 & B2 & B3 & B4).
  destruct Hv as [Hv|[Hv|[Hv|[Hv|[]]]]]; symmetry in Hv; split.
  - eexists. split; [exact (R1 Hv)|].
    match goal with |- Update ?c1 _ _ = _ =>
      destruct (Update_field_key c1 (mkKey KeyBackspace "" false) w
                  (or_intror eq_refl)) as (H2 & _) end.
    rewrite (H2 Hv). cbn [profileName set_profileName].
    rewrite editText_type_back. now destruct cm.
  - intros E _ _ _. rewrite (B1 Hv), (E Hv), editText_backspace_empty, <- (E Hv).
    now rewrite set_profileName_same.
  - eexists. split; [exact (R2 Hv)|].
    match goal with |- Update ?c1 _ _ = _ =>
      destruct (Update_field_key c1 (mkKey KeyBackspace "" false) w
                  (or_intror eq_refl)) as (_ & H2 & _) end.
    rewrite (H2 Hv). cbn [profileProxy set_profileProxy].
    rewrite editText_type_back. now destruct cm.
  - intros _ E _ _. rewrite (B2 Hv), (E Hv), editText_backspace_empty, <- (E Hv).
    now rewrite set_profileProxy_same.
  - eexists. split; [exact (R3 Hv)|].
    match goal with |- Update ?c1 _ _ = _ =>
      destruct (Update_field_key c1 (mkKey KeyBackspace "" false) w
                  (or_intror eq_refl)) as (_ & _ & H2 & _) end.
    rewrite (H2 Hv). cbn [profileType set_profileType].
    rewrite editText_type_back. now destruct cm.
  - intros _ _ E _. rewrite (B3 Hv), (E Hv), editText_backspace_empty, <- (E Hv).
    now rewrite set_profileType_same.
  - eexists. split; [exact (R4 Hv)|].
    match goal with |- Update ?c1 _ _ = _ =>
      destruct (Update_field_key c1 (mkKey KeyBackspace "" false) w
                  (or_intror eq_refl)) as (_ & _ & _ & H2) end.
    rewrite (H2 Hv). cbn [profileFlags set_profileFlags].
    rewrite editText_type_back. now destruct cm.
  - intros _ _ _ E. rewrite (B4 Hv), (E Hv), editText_backspace_empty, <- (E Hv).
    now rewrite set_profileFlags_same.
Qed.

(** A key other than Ctrl+C and Esc is handled by the function of the
    current view. *)
Lemma Update_dispatch (cm : ChromiumManager) (k : Key) :
  KType k <> KeyCtrlC -> KType k <> KeyEsc ->
  (currentView cm = "select_edit" -> Update cm (KeyMsg k) = updateSelectEdit cm k)
  /\ (currentView cm = "select_delete" ->
      Update cm (KeyMsg k) = updateSelectDelete cm k)
  /\ (currentView cm = "confirm_delete" ->
      Update cm (KeyMsg k) = updateConfirmDelete cm k)
  /\ (currentView cm = "edit_profile" \/ currentView cm = "add_profile" ->
      Update cm (KeyMsg k) = updateEditor cm k).
Proof.
  intros H1 H2. unfold Update, isKey.
  rewrite !bool_decide_eq_false_2 by assumption. cbn [andb].
  repeat split; intros Hv; [| | |destruct Hv as [Hv|Hv]]; rewrite Hv; reflexivity.
Qed.

Lemma Key_String_runes (k : Key) (s : string) :
  Key_String k = s -> In s [ "y"; "Y"; "n"; "N" ] -> KType k = KeyRunes.
Proof.
  destruct k as [t r a]. unfold Key_String. cbn [KType Alt Runes].
  intros <- Hin. destruct t; [| | | |reflexivity| |]; exfalso;
    destruct a; simpl in Hin; intuition discriminate.
Qed.

(** What Enter does in the editor when the name is there and free. *)
Lemma updateEditor_saves (cm : ChromiumManager) (k : Key) (w : World) :
  KType k = KeyEnter ->
  profileName cm <> "" ->
  selected cm = profileName cm \/ profiles cm !! profileName cm = None ->
  let base :=
    if negb (String.eqb (selected cm) (profileName cm))
    then delete (selected cm) (profiles cm) else profiles cm in
  let cm1 :=
    set_profiles
      (<[ profileName cm :=
            mkProfile (profileName cm) (profileProxy cm) (profileType cm)
                      (profileFlags cm) ]> base) cm in
  updateEditor cm k w =
    (Ret (set_currentView "main"
            (set_message ("Profile '" +:+ profileName cm +:+ "' updated") cm1),
          CmdNil),
     snd (saveProfiles cm1 w)).
Proof.
  intros Hk Hne Hfree base cm1. unfold updateEditor, isKey.
  destruct (Key_String_not_digit k Hk) as (H1 & H2 & H3 & H4).
  rewrite H1, H2, H3, H4, Hk, bool_decide_eq_true_2 by reflexivity.
  apply String.eqb_neq in Hne. rewrite Hne.
  assert (Hc : negb (String.eqb (selected cm) (profileName cm))
               && bool_decide (is_Some (profiles cm !! profileName cm)) = false).
  { destruct Hfree as [-> | Hno].
    - now rewrite String.eqb_refl.
    - rewrite (bool_decide_eq_false_2 (is_Some _)); [apply andb_false_r|].
      rewrite Hno. intros [? ?]. discriminate. }
  rewrite Hc. fold base. fold cm1.
  pose proof (saveProfiles_returns cm1 w) as Hret.
  unfold mbind, Proc_bind.
  destruct (saveProfiles cm1 w) as [r w']. simpl in Hret. subst r. reflexivity.
Qed.

Lemma saveProfiles_refused (cm : ChromiumManager) (w : World) (e : error) :
  WriteFile_err w (configFile cm) = Some e -> saveProfiles cm w = (Ret tt, w).
Proof.
  intros Hw. unfold saveProfiles, mbind, Proc_bind, WriteFile, mret, Proc_ret.
  cbv beta. now rewrite Hw.
Qed.

(** X6: confirming the editor with an empty name is refused: the
    message "Profile name is required" is set and nothing else changes,
    in the manager or in the world. *)
Theorem editor_rejects_empty_name (cm : ChromiumManager) (k : Key) (w : World) :
  currentView cm = "edit_profile" \/ currentView cm = "add_profile" ->
  KType k = KeyEnter ->
  profileName cm = "" ->
  Update cm (KeyMsg k) w =
    (Ret (set_message "Profile name is required" cm, CmdNil), w).
Proof.
  intros Hv Hk Hn. rewrite (Update_editor_enter cm k Hk Hv).
  unfold updateEditor, isKey.
  destruct (Key_String_not_digit k Hk) as (H1 & H2 & H3 & H4).
  rewrite H1, H2, H3, H4, Hk, bool_decide_eq_true_2, Hn by reflexivity.
  reflexivity.
Qed.

(** X7: in add mode (no name selected), confirming with a non-empty
    name that is not taken enters the buffer under that name and keeps
    every profile that was there, provided no profile is filed under the
    empty name. *)
Theorem add_keeps_profiles (cm : ChromiumManager) (k : Key) (w : World) :
  currentView cm = "add_profile" ->
  KType k = KeyEnter ->
  selected cm = "" ->
  profileName cm <> "" ->
  profiles cm !! profileName cm = None ->
  profiles cm !! "" = None ->
  exists cm' w',
    Update cm (KeyMsg k) w = (Ret (cm', CmdNil), w')
    /\ profiles cm' =
         <[ profileName cm :=
              mkProfile (profileName cm) (profileProxy cm) (profileType cm)
                        (profileFlags cm) ]> (profiles cm)
    /\ (forall n p, profiles cm !! n = Some p -> profiles cm' !! n = Some p)
    /\ currentView cm' = "main"
    /\ message cm' = "Profile '" +:+ profileName cm +:+ "' updated".
Proof.
  intros Hv Hk Hs Hne Hfree Hnoempty.
  rewrite (Update_editor_enter cm k Hk (or_intror Hv)).
  rewrite (updateEditor_saves cm k w Hk Hne (or_intror Hfree)). cbv zeta.
  assert (Hneq : String.eqb (selected cm) (profileName cm) = false)
    by (apply String.eqb_neq; congruence).
  rewrite Hneq. cbn [negb]. rewrite Hs, (delete_id _ _ Hnoempty).
  eexists _, _. split; [reflexivity|].
  cbn [profiles set_currentView set_message set_profiles currentView message].
  split; [reflexivity|]. split; [|split; reflexivity].
  intros n p Hn. rewrite lookup_insert_ne by congruence. exact Hn.
Qed.

(** X8: saving the editor when the name is the selected one
    overwrites that one entry with the buffer and leaves every other
    entry alone; nothing is removed. *)
Theorem edit_in_place (cm : ChromiumManager) (k : Key) (w : World) :
  currentView cm = "edit_profile" \/ currentView cm = "add_profile" ->
  KType k = KeyEnter ->
  profileName cm <> "" ->
  selected cm = profileName cm ->
  exists cm' w',
    Update cm (KeyMsg k) w = (Ret (cm', CmdNil), w')
    /\ profiles cm' =
         <[ profileName cm :=
              mkProfile (profileName cm) (profileProxy cm) (profileType cm)
                        (profileFlags cm) ]> (profiles cm)
    /\ (forall n, n <> profileName cm -> profiles cm' !! n = profiles cm !! n)
    /\ currentView cm' = "main".
Proof.
  intros Hv Hk Hne Hs. rewrite (Update_editor_enter cm k Hk Hv).
  rewrite (updateEditor_saves cm k w Hk Hne (or_introl Hs)). cbv zeta.
  rewrite Hs, String.eqb_refl. cbn [negb].
  eexists _, _. split; [reflexivity|].
  cbn [profiles set_currentView set_message set_profiles currentView].
  split; [reflexivity|]. split; [|reflexivity].
  intros n Hn. apply lookup_insert_ne. congruence.
Qed.

(** X9: when the system refuses the write of the store file, a
    save from the editor still applies the edit in memory, reports
    "updated", returns to [main] and sets no error; the world is as
    before. *)
Theorem save_failure_unreported (cm : ChromiumManager) (k : Key) (w : World)
    (e : error) :
  currentView cm = "edit_profile" \/ currentView cm = "add_profile" ->
  KType k = KeyEnter ->
  profileName cm <> "" ->
  selected cm = profileName cm \/ profiles cm !! profileName cm = None ->
  WriteFile_err w (configFile cm) = Some e ->
  exists cm',
    Update cm (KeyMsg k) w = (Ret (cm', CmdNil), w)
    /\ profiles cm' !! profileName cm =
         Some (mkProfile (profileName cm) (profileProxy cm) (profileType cm)
                         (profileFlags cm))
    /\ message cm' = "Profile '" +:+ profileName cm +:+ "' updated"
    /\ currentView cm' = "main" /\ err cm' = err cm.
Proof.
  intros Hv Hk Hne Hfree Hw. rewrite (Update_editor_enter cm k Hk Hv).
  rewrite (updateEditor_saves cm k w Hk Hne Hfree). cbv zeta.
  rewrite (saveProfiles_refused _ w e) by exact Hw.
  eexists. split; [reflexivity|].
  cbn [profiles set_currentView set_message set_profiles currentView message err].
  split; [apply lookup_insert_eq | repeat split].
Qed.


(** X10: the delete flow.  Enter on a profile in [select_delete]
    leads to [confirm_delete] without changing the mapping; then [y] or
    [Y] removes exactly that profile, returns to [main] with the
    "deleted" message and, if the write succeeds, leaves the store file
    holding the remaining profiles; [n] or [N] returns to [main] with the
    mapping and the world untouched. *)
Theorem delete_flow (cm : ChromiumManager) (k : Key) (w : World) (i : item) :
  currentView cm = "select_delete" ->
  KType k = KeyEnter ->
  SelectedItem (profileList cm) = Some i ->
  exists cm1 c1,
    Update cm (KeyMsg k) w = (Ret (cm1, c1), w)
    /\ currentView cm1 = "confirm_delete"
    /\ profiles cm1 = profiles cm
    /\ (forall ky, Key_String ky = "y" \/ Key_String ky = "Y" ->
          exists cm2 w2,
            Update cm1 (KeyMsg ky) w = (Ret (cm2, CmdNil), w2)
            /\ profiles cm2 = delete (title i) (profiles cm)
            /\ currentView cm2 = "main"
            /\ message cm2 = "Profile '" +:+ title i +:+ "' deleted"
            /\ (WriteFile_err w (configFile cm) = None ->
                files w2 !! configFile cm =
                  Some (saveContent (map_range (delete (title i) (profiles cm))))))
    /\ (forall kn, Key_String kn = "n" \/ Key_String kn = "N" ->
          exists cm2,
            Update cm1 (KeyMsg kn) w = (Ret (cm2, CmdNil), w)
            /\ profiles cm2 = profiles cm /\ currentView cm2 = "main").
Proof.
  intros Hv Hk Hi.
  assert (Hk1 : KType k <> KeyCtrlC) by (rewrite Hk; discriminate).
  assert (Hk2 : KType k <> KeyEsc) by (rewrite Hk; discriminate).
  destruct (Update_dispatch cm k Hk1 Hk2) as (_ & Hd & _).
  rewrite (Hd Hv). unfold updateSelectDelete, passProfileList, isKey.
  rewrite Hk, bool_decide_eq_true_2, Hi by reflexivity.
  destruct (list_Update _ _) as [l c1] eqn:Hl.
  eexists _, c1. split; [reflexivity|].
  split; [reflexivity|]. split; [reflexivity|].
  match goal with |- context [Update ?c _ _] => set (cm1 := c) end.
  assert (Hv1 : currentView cm1 = "confirm_delete") by reflexivity.
  assert (Hs1 : selected cm1 = title i) by reflexivity.
  assert (Hp1 : profiles cm1 = profiles cm) by reflexivity.
  assert (Hc1 : configFile cm1 = configFile cm) by reflexivity.
  clearbody cm1. split.
  - intros ky Hy.
    assert (Hr : KType ky = KeyRunes).
    { destruct Hy as [Hy|Hy]; apply (Key_String_runes ky _ Hy); simpl; auto. }
    assert (Hy1 : KType ky <> KeyCtrlC) by (rewrite Hr; discriminate).
    assert (Hy2 : KType ky <> KeyEsc) by (rewrite Hr; discriminate).
    destruct (Update_dispatch cm1 ky Hy1 Hy2) as (_ & _ & Hd1 & _).
    rewrite (Hd1 Hv1). unfold updateConfirmDelete.
    assert (Hyes : String.eqb (Key_String ky) "y" || String.eqb (Key_String ky) "Y"
                   = true) by (destruct Hy as [-> | ->]; reflexivity).
    rewrite Hyes, Hs1, Hp1.
    set (cmd := set_profiles (delete (title i) (profiles cm)) cm1).
    pose proof (saveProfiles_returns cmd w) as Hret.
    pose proof (saveProfiles_writes cmd w) as Hwr.
    unfold mbind, Proc_bind.
    destruct (saveProfiles cmd w) as [r w2]. simpl in Hret. subst r.
    eexists _, w2. split; [reflexivity|].
    split; [reflexivity|]. split; [reflexivity|].
    split; [cbn [message set_currentView set_message]; unfold cmd;
            cbn [selected set_profiles]; now rewrite Hs1|].
    intros Hw. assert (Hcd : configFile cmd = configFile cm) by exact Hc1.
    rewrite Hcd in Hwr. specialize (Hwr Hw). injection Hwr as ->.
    cbn [files]. apply lookup_insert_eq.
  - intros kn Hn.
    assert (Hr : KType kn = KeyRunes).
    { destruct Hn as [Hn|Hn]; apply (Key_String_runes kn _ Hn); simpl; auto. }
    assert (Hn1 : KType kn <> KeyCtrlC) by (rewrite Hr; discriminate).
    assert (Hn2 : KType kn <> KeyEsc) by (rewrite Hr; discriminate).
    destruct (Update_dispatch cm1 kn Hn1 Hn2) as (_ & _ & Hd1 & _).
    rewrite (Hd1 Hv1). unfold updateConfirmDelete.
    assert (Hno : String.eqb (Key_String kn) "y" || String.eqb (Key_String kn) "Y"
                  = false) by (destruct Hn as [-> | ->]; reflexivity).
    assert (Hyes : String.eqb (Key_String kn) "n" || String.eqb (Key_String kn) "N"
                   = true) by (destruct Hn as [-> | ->]; reflexivity).
    rewrite Hno, Hyes. eexists. split; [reflexivity|]. split; [exact Hp1|reflexivity].
Qed.

(** X11: opening a profile from [select_edit] loads its four
    fields into the buffer and records its name as selected; confirming
    at once leaves the mapping exactly as it was (for a profile filed
    under its own non-empty name). *)
Theorem edit_unchanged_is_noop (cm : ChromiumManager) (k : Key) (w : World)
    (i : item) (p : Profile) :
  currentView cm = "select_edit" ->
  KType k = KeyEnter ->
  SelectedItem (profileList cm) = Some i ->
  profiles cm !! title i = Some p ->
  Name p = title i ->
  title i <> "" ->
  exists cm1 c1 cm2 w2,
    Update cm (KeyMsg k) w = (Ret (cm1, c1), w)
    /\ currentView cm1 = "edit_profile"
    /\ selected cm1 = title i
    /\ mkProfile (profileName cm1) (profileProxy cm1) (profileType cm1)
                 (profileFlags cm1) = p
    /\ Update cm1 (KeyMsg k) w = (Ret (cm2, CmdNil), w2)
    /\ profiles cm2 = profiles cm
    /\ currentView cm2 = "main".
Proof.
  intros Hv Hk Hi Hp Hn Hne.
  assert (Hk1 : KType k <> KeyCtrlC) by (rewrite Hk; discriminate).
  assert (Hk2 : KType k <> KeyEsc) by (rewrite Hk; discriminate).
  destruct (Update_dispatch cm k Hk1 Hk2) as (Hd & _).
  rewrite (Hd Hv). unfold updateSelectEdit, passProfileList, isKey, profileAt.
  rewrite Hk, bool_decide_eq_true_2, Hi, Hp by reflexivity. cbn [default].
  destruct (list_Update _ _) as [l c1] eqn:Hl.
  match goal with |- context [mret (?c, c1)] => set (cm1 := c) end.
  assert (Hv1 : currentView cm1 = "edit_profile") by reflexivity.
  assert (Hs1 : selected cm1 = title i) by reflexivity.
  assert (Hn1 : profileName cm1 = Name p) by reflexivity.
  assert (Hb1 : mkProfile (profileName cm1) (profileProxy cm1) (profileType cm1)
                  (profileFlags cm1) = p) by (now destruct p).
  assert (Hp1 : profiles cm1 = profiles cm) by reflexivity.
  clearbody cm1.
  destruct (returns_saveProfiles
              (set_profiles (<[ profileName cm1 := p ]> (profiles cm1)) cm1) w)
    as ([] & w2 & Hsave).
  exists cm1, c1. eexists _, w2. split; [reflexivity|].
  split; [exact Hv1|]. split; [exact Hs1|]. split; [exact Hb1|].
  rewrite (Update_editor_enter cm1 k Hk (or_introl Hv1)).
  assert (Hne1 : profileName cm1 <> "") by congruence.
  assert (Hsel : selected cm1 = profileName cm1) by congruence.
  rewrite (updateEditor_saves cm1 k w Hk Hne1 (or_introl Hsel)). cbv zeta.
  rewrite Hsel, String.eqb_refl. cbn [negb]. rewrite Hb1, Hsave.
  split; [reflexivity|].
  cbn [profiles set_currentView set_message set_profiles currentView].
  split; [|reflexivity].
  rewrite Hp1, Hn1, Hn. now apply insert_id.
Qed.

(** X12: the list built by [updateProfileList] shows the name of
    every profile of the mapping exactly once, in the order of the range,
    with the cursor on the first item, and leaves the mapping alone. *)
Theorem updateProfileList_names (cm : ChromiumManager) :
  let l := profileList (updateProfileList cm) in
  title <$> items l ≡ₚ fst <$> map_to_list (profiles cm)
  /\ NoDup (title <$> items l)
  /\ (forall name, name ∈ (title <$> items l) <-> is_Some (profiles cm !! name))
  /\ cursor l = 0
  /\ profiles (updateProfileList cm) = profiles cm.
Proof.
  cbn [updateProfileList set_profileList profileList list_New items cursor
       profiles].
  assert (Ht : title <$> ((fun kv : string * Profile => mkItem (fst kv) "")
                            <$> map_range (profiles cm))
               = fst <$> map_range (profiles cm)).
  { rewrite <- list_fmap_compose. apply list_fmap_ext. now intros ? [? ?]. }
  rewrite Ht.
  assert (Hperm : fst <$> map_range (profiles cm)
                  ≡ₚ fst <$> map_to_list (profiles cm))
    by (now rewrite map_range_perm).
  split; [exact Hperm|]. split; [|split; [|split; reflexivity]].
  - rewrite Hperm. apply NoDup_fst_map_to_list.
  - intros name. rewrite Hperm. rewrite <- elem_of_dom.
    rewrite <- elem_of_elements.
    assert (He : elements (dom (profiles cm)) ≡ₚ fst <$> map_to_list (profiles cm)).
    { unfold_leibniz. rewrite dom_alt. apply elements_list_to_set, NoDup_fst_map_to_list. }
    now rewrite He.
Qed.

End EditorFlows.

Lemma storeStep_keyed (cm cm' : ChromiumManager) :
  keyedByName (profiles cm) -> storeStep cm cm' -> keyedByName (profiles cm').
Proof.
  intros Hk [->|[->|(_ & base & Hbase & ->)]]; [exact Hk| |].
  - intros n p H. apply lookup_delete_Some in H as [_ H]. eauto.
  - assert (Hb : keyedByName base).
    { destruct Hbase as [-> | ->]; [exact Hk|].
      intros n p H. apply lookup_delete_Some in H as [_ H]. eauto. }
    intros n p H. apply lookup_insert_Some in H as [[<- <-]|[_ H]]; eauto.
Qed.

Section Sessions.
Context `{RT : Runtime}.

Ltac proc_cases :=
  unfold mbind, Proc_bind, mret, Proc_ret in *; repeat case_match; simplify_eq.

Lemma returns_runMsgs (msgs : list Msg) (cm : ChromiumManager) :
  returns (runMsgs cm msgs).
Proof.
  revert cm. induction msgs as [|msg msgs IH]; intros cm; simpl.
  - apply returns_ret.
  - apply returns_bind; [apply returns_Update|].
    intros [cm' c]. destruct c; [apply IH | apply returns_ret | apply IH].
Qed.

Lemma runMsgs_inv (P : ChromiumManager -> Prop) :
  (forall cm msg w cm' c w', P cm -> Update cm msg w = (Ret (cm', c), w') -> P cm') ->
  forall msgs cm w cm' w',
    P cm -> runMsgs cm msgs w = (Ret cm', w') -> P cm'.
Proof.
  intros Hstep. induction msgs as [|msg msgs IH]; intros cm w cm' w' HP H.
  - simpl in H. injection H as <- _. exact HP.
  - simpl in H. unfold mbind, Proc_bind in H.
    destruct (Update cm msg w) as [[[cm1 c]|n] w1] eqn:Hu; [|discriminate].
    specialize (Hstep cm msg w cm1 c w1 HP Hu). cbv beta iota in H.
    destruct c; [exact (IH _ _ _ _ Hstep H)| |exact (IH _ _ _ _ Hstep H)].
    injection H as <- _. exact Hstep.
Qed.

Lemma loadProfiles_keyed (cm : ChromiumManager) (w : World) cm' w' :
  keyedByName (profiles cm) -> loadProfiles cm w = (Ret cm', w') ->
  keyedByName (profiles cm').
Proof.
  intros Hk H. unfold loadProfiles, Stat_IsNotExist, WriteFile, ReadFile in H.
  proc_cases; try exact Hk; now apply loadLines_keyed.
Qed.

Lemma initialModel_start (w : World) cm w' :
  initialModel w = (Ret cm, w') ->
  keyedByName (profiles cm) /\ currentView cm = "main" /\ selected cm = "".
Proof.
  unfold initialModel, MkdirAll, logEvent, Stat_IsNotExist. intros H.
  unfold mbind, Proc_bind in H. cbv beta iota zeta in H.
  match type of H with
  | context [loadProfiles ?c ?w0] =>
      destruct (loadProfiles c w0) as [[cm1|n] w1] eqn:Hl; [|discriminate];
      pose proof (loadProfiles_keyed c w0 cm1 w1 keyedByName_empty Hl) as Hk;
      assert (Hv : currentView cm1 = "main" /\ selected cm1 = "")
  end.
  { unfold loadProfiles, Stat_IsNotExist, WriteFile, ReadFile in Hl.
    proc_cases; split; reflexivity. }
  unfold mret, Proc_ret in H. injection H as <- _.
  cbn [profiles currentView selected updateManageList set_manageList set_mainList].
  tauto.
Qed.

(** X13: from any world and for any sequence of messages, startup
    followed by the messages returns, and in the state reached every
    profile is filed under its own name. *)
Theorem session_keyed (w : World) (msgs : list Msg) :
  exists cm w',
    (initialModel ≫= fun cm0 => runMsgs cm0 msgs) w = (Ret cm, w')
    /\ keyedByName (profiles cm).
Proof.
  destruct (returns_initialModel w) as (cm0 & w0 & H0).
  destruct (returns_runMsgs msgs cm0 w0) as (cm & w' & H1).
  exists cm, w'. rewrite (bind_run initialModel _ w w0 cm0 H0).
  split; [exact H1|].
  apply (runMsgs_inv (fun c => keyedByName (profiles c))) with msgs cm0 w0 w'.
  - intros c msg v c' x v' Hc Hu. eapply storeStep_keyed; [exact Hc|].
    eapply Update_step, Hu.
  - apply (initialModel_start w cm0 w0 H0).
  - exact H1.
Qed.

End Sessions.

Lemma field_backspace_undoes_witness :
  exists cm1,
    @Update uiRuntime (set_currentView "edit_name" (set_profileName "wor" twoManager))
      (keyRunes "k") emptyWorld = (Ret (cm1, CmdNil), emptyWorld)
    /\ @Update uiRuntime cm1 keyBackspace emptyWorld
       = (Ret (set_currentView "edit_name" (set_profileName "wor" twoManager),
               CmdNil), emptyWorld).
Proof.
  apply (@field_backspace_undoes uiRuntime
           (set_currentView "edit_name" (set_profileName "wor" twoManager))
           emptyWorld "k"%char).
  simpl. auto.
Defined.

Lemma editor_rejects_empty_name_witness :
  @Update uiRuntime (set_currentView "add_profile" twoManager) keyEnter emptyWorld
  = (Ret (set_message "Profile name is required"
            (set_currentView "add_profile" twoManager), CmdNil), emptyWorld).
Proof.
  apply (@editor_rejects_empty_name uiRuntime
           (set_currentView "add_profile" twoManager) (mkKey KeyEnter "" false)
           emptyWorld).
  - right. reflexivity.
  - reflexivity.
  - reflexivity.
Defined.

Lemma add_keeps_profiles_witness :
  exists cm' w',
    @Update uiRuntime (set_profileName "job" (set_currentView "add_profile" twoManager))
      keyEnter emptyWorld = (Ret (cm', CmdNil), w')
    /\ profiles cm' = <[ "job" := mkProfile "job" "" "" "" ]> twoProfiles.
Proof.
  destruct (@add_keeps_profiles uiRuntime
              (set_profileName "job" (set_currentView "add_profile" twoManager))
              (mkKey KeyEnter "" false) emptyWorld)
    as (cm' & w' & Hrun & Hp & _).
  - reflexivity.
  - reflexivity.
  - reflexivity.
  - discriminate.
  - vm_compute. reflexivity.
  - vm_compute. reflexivity.
  - exists cm', w'. split; [exact Hrun | exact Hp].
Defined.

Lemma edit_in_place_witness :
  exists cm' w',
    @Update uiRuntime (set_profileFlags "--c" (editingWork "work")) keyEnter
      emptyWorld = (Ret (cm', CmdNil), w')
    /\ profiles cm' =
         <[ "work" := mkProfile "work" "none" "none" "--c" ]> twoProfiles.
Proof.
  destruct (@edit_in_place uiRuntime (set_profileFlags "--c" (editingWork "work"))
              (mkKey KeyEnter "" false) emptyWorld)
    as (cm' & w' & Hrun & Hp & _).
  - left. reflexivity.
  - reflexivity.
  - discriminate.
  - reflexivity.
  - exists cm', w'. split; [exact Hrun | exact Hp].
Defined.

Lemma save_failure_unreported_witness :
  exists cm',
    @Update readOnly (editingWork "job") keyEnter emptyWorld
    = (Ret (cm', CmdNil), emptyWorld)
    /\ profiles cm' !! "job" = Some (mkProfile "job" "none" "none" "--a --b")
    /\ message cm' = "Profile 'job' updated".
Proof.
  destruct (@save_failure_unreported readOnly (editingWork "job")
              (mkKey KeyEnter "" false) emptyWorld "read-only file system")
    as (cm' & Hrun & Hp & Hm & _).
  - left. reflexivity.
  - reflexivity.
  - discriminate.
  - right. vm_compute. reflexivity.
  - reflexivity.
  - exists cm'. auto.
Defined.

Lemma delete_flow_witness :
  exists cm1 c1,
    @Update uiRuntime
      (set_currentView "select_delete" (@updateProfileList uiRuntime twoManager))
      keyEnter emptyWorld = (Ret (cm1, c1), emptyWorld)
    /\ currentView cm1 = "confirm_delete"
    /\ exists cm2 w2,
         @Update uiRuntime cm1 (keyRunes "y") emptyWorld = (Ret (cm2, CmdNil), w2)
         /\ profiles cm2 = delete "office" twoProfiles.
Proof.
  destruct (@delete_flow uiRuntime
              (set_currentView "select_delete"
                 (@updateProfileList uiRuntime twoManager))
              (mkKey KeyEnter "" false) emptyWorld (mkItem "office" ""))
    as (cm1 & c1 & Hrun & Hv & _ & Hyes & _).
  - reflexivity.
  - reflexivity.
  - vm_compute. reflexivity.
  - exists cm1, c1. split; [exact Hrun|]. split; [exact Hv|].
    destruct (Hyes (mkKey KeyRunes "y" false) (or_introl eq_refl))
      as (cm2 & w2 & Hrun2 & Hp2 & _).
    exists cm2, w2. split; [exact Hrun2 | exact Hp2].
Defined.

Lemma edit_unchanged_is_noop_witness :
  exists cm1 c1 cm2 w2,
    @Update uiRuntime
      (set_currentView "select_edit" (@updateProfileList uiRuntime twoManager))
      keyEnter emptyWorld = (Ret (cm1, c1), emptyWorld)
    /\ @Update uiRuntime cm1 keyEnter emptyWorld = (Ret (cm2, CmdNil), w2)
    /\ profiles cm2 = twoProfiles.
Proof.
  destruct (@edit_unchanged_is_noop uiRuntime
              (set_currentView "select_edit"
                 (@updateProfileList uiRuntime twoManager))
              (mkKey KeyEnter "" false) emptyWorld (mkItem "office" "")
              (mkProfile "office" "10.0.0.1:3128" "http" ""))
    as (cm1 & c1 & cm2 & w2 & H1 & _ & _ & _ & H2 & Hp & _).
  - reflexivity.
  - reflexivity.
  - vm_compute. reflexivity.
  - vm_compute. reflexivity.
  - reflexivity.
  - discriminate.
  - exists cm1, c1, cm2, w2. auto.
Defined.

Lemma updateProfileList_names_witness :
  "work" ∈ (title <$> items (profileList (@updateProfileList uiRuntime twoManager))).
Proof.
  apply (proj1 (proj2 (proj2 (@updateProfileList_names uiRuntime twoManager)))).
  vm_compute. eauto.
Defined.

Section QuietViews.
Context `{RT : Runtime}.

Ltac proc_cases :=
  unfold mbind, Proc_bind, mret, Proc_ret in *; repeat case_match; simplify_eq.

Lemma updateConfirmDelete_change cm k w cm' c w' :
  updateConfirmDelete cm k w = (Ret (cm', c), w') ->
  profiles cm' <> profiles cm ->
  Key_String k = "y" \/ Key_String k = "Y".
Proof.
  unfold updateConfirmDelete. intros H Hne.
  destruct (String.eqb_spec (Key_String k) "y") as [Hy|_]; [now left|].
  destruct (String.eqb_spec (Key_String k) "Y") as [Hy|_]; [now right|].
  cbn [orb] in H. proc_cases; contradiction.
Qed.

Lemma updateEditor_change cm k w cm' c w' :
  updateEditor cm k w = (Ret (cm', c), w') ->
  profiles cm' <> profiles cm ->
  KType k = KeyEnter.
Proof.
  unfold updateEditor, isKey. intros H Hne.
  destruct (decide (KType k = KeyEnter)) as [Hk|Hk]; [exact Hk|].
  rewrite (bool_decide_eq_false_2 _ Hk) in H. proc_cases; contradiction.
Qed.

(** X15: a message changes the mapping only when it is [y] or [Y]
    in [confirm_delete] or Enter in [edit_profile] or [add_profile]; in
    particular Esc, typing and navigation never do. *)
Theorem store_changes_only_on_confirm cm msg w cm' c w' :
  Update cm msg w = (Ret (cm', c), w') ->
  profiles cm' <> profiles cm ->
  exists k,
    msg = KeyMsg k
    /\ ((currentView cm = "confirm_delete"
         /\ (Key_String k = "y" \/ Key_String k = "Y"))
        \/ ((currentView cm = "edit_profile" \/ currentView cm = "add_profile")
            /\ KType k = KeyEnter)).
Proof.
  unfold Update. intros H Hne.
  destruct msg as [? ?|k|]; [proc_cases; contradiction| |proc_cases; contradiction].
  exists k. split; [reflexivity|].
  repeat case_match;
    try (unfold mret, Proc_ret in H; simplify_eq; contradiction).
  all: try (exfalso; apply Hne;
            eauto using updateMain_profiles, updateSelectProfile_profiles,
              updateManage_profiles, updateSelectEdit_profiles,
              updateSelectDelete_profiles, updateSelectClean_profiles,
              updateField_profiles; fail).
  - left. split; [now apply String.eqb_eq|].
    eapply updateConfirmDelete_change; eassumption.
  - right. split; [|eapply updateEditor_change; eassumption].
    match goal with
    | Ho : _ || _ = true |- _ =>
        apply orb_true_iff in Ho as [Ho|Ho]; apply String.eqb_eq in Ho; auto
    end.
Qed.

(** X16: in the views [main], [manage], [select_edit],
    [select_delete] and the four field editors no message touches the
    world (no file, no directory, no process) or the mapping. *)
Theorem quiet_views cm msg w cm' c w' :
  In (currentView cm)
     [ "main"; "manage"; "select_edit"; "select_delete"; "edit_name";
       "edit_proxy"; "edit_type"; "edit_flags" ] ->
  Update cm msg w = (Ret (cm', c), w') ->
  w' = w /\ profiles cm' = profiles cm.
Proof.
  intros Hv H. simpl in Hv.
  unfold Update, updateMain, updateManage, updateSelectEdit, updateSelectDelete,
    updateField, passProfileList in H.
  destruct Hv as [Hv|[Hv|[Hv|[Hv|[Hv|[Hv|[Hv|[Hv|[]]]]]]]]]; rewrite <- Hv in H;
    cbn [String.eqb Ascii.eqb Bool.eqb orb] in H; proc_cases; split; reflexivity.
Qed.

(** Every view set by [Update] is one of the views of the program. *)
Lemma Update_known_view cm msg w cm' c w' :
  In (currentView cm) knownViews ->
  Update cm msg w = (Ret (cm', c), w') ->
  In (currentView cm') knownViews.
Proof.
  intros Hin H.
  unfold Update, updateMain, updateSelectProfile, updateManage,
    updateSelectEdit, updateSelectDelete, updateConfirmDelete,
    updateSelectClean, updateEditor, updateField, passProfileList, getWorld in H.
  proc_cases;
    cbn [currentView set_currentView set_message set_profiles set_selected
         set_profileName set_profileProxy set_profileType set_profileFlags
         set_mainList set_profileList set_manageList updateProfileList
         updateManageList];
    first [exact Hin | unfold knownViews; simpl; tauto].
Qed.

End QuietViews.

Lemma store_changes_only_on_confirm_witness :
  exists k,
    keyEnter = KeyMsg k
    /\ ((currentView (editingWork "job") = "confirm_delete"
         /\ (Key_String k = "y" \/ Key_String k = "Y"))
        \/ ((currentView (editingWork "job") = "edit_profile"
             \/ currentView (editingWork "job") = "add_profile")
            /\ KType k = KeyEnter)).
Proof.
  destruct (@Update uiRuntime (editingWork "job") keyEnter emptyWorld)
    as [[[cm' c]|n] w'] eqn:H; [|vm_compute in H; discriminate H].
  apply (@store_changes_only_on_confirm uiRuntime (editingWork "job") keyEnter
           emptyWorld cm' c w' H).
  intros E. apply (f_equal (fun m => m !! "job")) in E.
  assert (Hc : @Update uiRuntime (editingWork "job") keyEnter emptyWorld
               = (Ret (cm', c), w')) by exact H.
  vm_compute in Hc. injection Hc as <- _ _. vm_compute in E. discriminate E.
Defined.

Lemma quiet_views_witness :
  exists cm' c w',
    @Update uiRuntime twoManager keyDown emptyWorld = (Ret (cm', c), w')
    /\ w' = emptyWorld /\ profiles cm' = twoProfiles.
Proof.
  destruct (@Update uiRuntime twoManager keyDown emptyWorld)
    as [[[cm' c]|n] w'] eqn:H; [|vm_compute in H; discriminate H].
  exists cm', c, w'. split; [reflexivity|].
  apply (@quiet_views uiRuntime twoManager keyDown emptyWorld cm' c w');
    [simpl; auto | exact H].
Defined.

Lemma printed_log (w : World) (s : string) :
  printed (mkWorld (files w) (EvPrint s :: events w)) = printed w ++ [ s ].
Proof.
  unfold printed. cbn [events]. rewrite reverse_cons, omap_app. reflexivity.
Qed.

Section Launching.
Context `{RT : Runtime}.

(** The start of [launchBrowser] for a profile that is there: the
    directory, then the seed file if it is missing, then the attempts of
    the platform. *)
Lemma launchBrowser_seeded (cm : ChromiumManager) (name : string) (p : Profile)
    (w : World) :
  profiles cm !! name = Some p ->
  let path := filepath_Join (profileDir cm) (Name p) in
  launchBrowser cm name w =
    ((if String.eqb GOOS "darwin" then startDarwin (chromePath cm) (buildArgs p path)
      else if String.eqb GOOS "linux" then startLinux (chromePath cm) (buildArgs p path)
      else Start (chromePath cm) (buildArgs p path) ≫= fun e => mret (inr e))
     ≫= fun r =>
       match r with
       | inl msg => mret msg
       | inr (Some e) => mret ("Error launching browser: " +:+ e)
       | inr None => mret ("Launched with profile: " +:+ Name p)
       end) (seededWorld path w).
Proof.
  intros Hp path. unfold launchBrowser, seededWorld. rewrite Hp. fold path.
  set (prefs := filepath_Join path "Local State").
  set (w1 := mkWorld (files w) (EvMkdirAll path :: events w)).
  rewrite (bind_run (MkdirAll path) _ w w1 tt eq_refl).
  rewrite (bind_run (Stat_IsNotExist prefs) _ w1 w1 _ eq_refl).
  destruct (files w1 !! prefs) as [d|].
  - now rewrite (bind_run (mret None) _ w1 w1 None eq_refl).
  - destruct (dir_missing w1 prefs).
    + destruct (WriteFile_err w1 prefs) as [e|] eqn:Hw.
      * rewrite (bind_run (WriteFile prefs prefsData) _ w1 w1 (Some e)); [reflexivity|].
        unfold WriteFile. now rewrite Hw.
      * rewrite (bind_run (WriteFile prefs prefsData) _ w1
                   (mkWorld (<[ prefs := prefsData ]> (files w1)) (events w1)) None);
          [reflexivity|].
        unfold WriteFile. now rewrite Hw.
    + now rewrite (bind_run (mret None) _ w1 w1 None eq_refl).
Qed.


Lemma seededWorld_events (path : string) (w : World) :
  events (seededWorld path w) = EvMkdirAll path :: events w.
Proof.
  unfold seededWorld. cbv zeta. cbn [files events].
  repeat case_match; reflexivity.
Qed.

(** X18: asking either copy of [launchBrowser] for a profile that
    is not in the mapping returns the "not found" message and does
    nothing: no directory, no seed file, no process. *)
Theorem launch_missing_profile (cm : ChromiumManager) (name : string) (w : World) :
  profiles cm !! name = None ->
  launchBrowser cm name w = (Ret ("Profile '" +:+ name +:+ "' not found"), w)
  /\ Variant.launchBrowser cm name w
     = (Ret ("Profile '" +:+ name +:+ "' not found"), w).
Proof.
  intros Hp. unfold launchBrowser, Variant.launchBrowser. now rewrite Hp.
Qed.

(** X19: when the profile is there and the browser starts at the
    first attempt, on any platform [launchBrowser] reports the launch,
    and what it did is: make the profile directory, then start the
    browser once, with exactly the arguments of [buildArgs]. *)
Theorem launch_first_attempt (cm : ChromiumManager) (name : string) (p : Profile)
    (w : World) :
  profiles cm !! name = Some p ->
  let path := filepath_Join (profileDir cm) (Name p) in
  (forall w0, Start_err w0 (chromePath cm) (buildArgs p path) = None) ->
  exists w',
    launchBrowser cm name w = (Ret ("Launched with profile: " +:+ Name p), w')
    /\ events w' =
         EvStart (chromePath cm) (buildArgs p path) :: EvMkdirAll path :: events w.
Proof.
  intros Hp path Hstart. rewrite (launchBrowser_seeded cm name p w Hp). fold path.
  set (ws := seededWorld path w).
  set (args := buildArgs p path) in *.
  set (w' := mkWorld (files ws) (EvStart (chromePath cm) args :: events ws)).
  assert (Hs : Start (chromePath cm) args ws = (Ret None, w'))
    by (unfold Start; now rewrite Hstart).
  exists w'. split.
  - destruct (String.eqb GOOS "darwin"); [|destruct (String.eqb GOOS "linux")].
    + unfold startDarwin. rewrite (bind_run (_ ≫= _) _ ws w' (inr None)); [reflexivity|].
      now rewrite (bind_run (Start _ _) _ ws w' None Hs).
    + unfold startLinux. rewrite (bind_run (_ ≫= _) _ ws w' (inr None)); [reflexivity|].
      now rewrite (bind_run (Start _ _) _ ws w' None Hs).
    + rewrite (bind_run (_ ≫= _) _ ws w' (inr None)); [reflexivity|].
      now rewrite (bind_run (Start _ _) _ ws w' None Hs).
  - unfold w'. cbn [events]. unfold ws. now rewrite seededWorld_events.
Qed.

(** X20: the seed file [Local State] is written only when it is
    missing: a launch in which the browser starts at the first attempt
    leaves an existing one (and all other files) as it is, writes the
    fixed content when there is none and the system allows it, and goes
    on without it when the write is refused. *)
Theorem launch_seed_file (cm : ChromiumManager) (name : string) (p : Profile)
    (w : World) :
  profiles cm !! name = Some p ->
  let path := filepath_Join (profileDir cm) (Name p) in
  let prefs := filepath_Join path "Local State" in
  (forall w0, Start_err w0 (chromePath cm) (buildArgs p path) = None) ->
  exists msg w',
    launchBrowser cm name w = (Ret msg, w')
    /\ (is_Some (files w !! prefs) -> files w' = files w)
    /\ (files w !! prefs = None ->
        (forall w0, dir_missing w0 prefs = true) ->
        (forall w0, WriteFile_err w0 prefs = None) ->
        files w' = <[ prefs := prefsData ]> (files w))
    /\ (files w !! prefs = None ->
        (forall w0, dir_missing w0 prefs = true) ->
        forall e, (forall w0, WriteFile_err w0 prefs = Some e) ->
        files w' = files w).
Proof.
  intros Hp path prefs Hstart. rewrite (launchBrowser_seeded cm name p w Hp).
  fold path.
  set (ws := seededWorld path w).
  set (args := buildArgs p path) in *.
  set (w' := mkWorld (files ws) (EvStart (chromePath cm) args :: events ws)).
  assert (Hs : Start (chromePath cm) args ws = (Ret None, w'))
    by (unfold Start; now rewrite Hstart).
  exists ("Launched with profile: " +:+ Name p), w'. split.
  - destruct (String.eqb GOOS "darwin"); [|destruct (String.eqb GOOS "linux")].
    + unfold startDarwin. rewrite (bind_run (_ ≫= _) _ ws w' (inr None)); [reflexivity|].
      now rewrite (bind_run (Start _ _) _ ws w' None Hs).
    + unfold startLinux. rewrite (bind_run (_ ≫= _) _ ws w' (inr None)); [reflexivity|].
      now rewrite (bind_run (Start _ _) _ ws w' None Hs).
    + rewrite (bind_run (_ ≫= _) _ ws w' (inr None)); [reflexivity|].
      now rewrite (bind_run (Start _ _) _ ws w' None Hs).
  - unfold w', ws, seededWorld. cbv zeta. cbn [files]. fold path. fold prefs.
    split; [|split].
    + intros [d Hd]. now rewrite Hd.
    + intros Hn Hm Hw. now rewrite Hn, Hm, Hw.
    + intros Hn Hm e Hw. now rewrite Hn, Hm, Hw.
Qed.

(** X21: on Linux, when the direct start and the start through
    [nohup] both fail, [launchBrowser] reports the error of [nohup]
    whatever the third attempt does: [xdg-open] is started when the
    desktop file can be written, and its outcome is not looked at. *)
Theorem linux_third_attempt_lost (cm : ChromiumManager) (name : string)
    (p : Profile) (w : World) (e1 e2 : error) :
  GOOS = "linux" ->
  profiles cm !! name = Some p ->
  let path := filepath_Join (profileDir cm) (Name p) in
  let desktop := filepath_Join TempDir "launchium_chrome.desktop" in
  (forall w0, Start_err w0 (chromePath cm) (buildArgs p path) = Some e1) ->
  (forall w0, Start_err w0 "nohup" (chromePath cm :: buildArgs p path) = Some e2) ->
  exists w',
    launchBrowser cm name w = (Ret ("Error launching browser: " +:+ e2), w')
    /\ ((forall w0, WriteFile_err w0 desktop = None) ->
        hd_error (events w') = Some (EvStart "xdg-open" [ desktop ])).
Proof.
  intros Hos Hp path desktop H1 H2. rewrite (launchBrowser_seeded cm name p w Hp).
  fold path. rewrite Hos. cbn [String.eqb Ascii.eqb Bool.eqb].
  set (ws := seededWorld path w).
  set (args := buildArgs p path) in *.
  unfold startLinux. fold desktop.
  set (wa := mkWorld (files ws) (EvStart (chromePath cm) args :: events ws)).
  set (wb := mkWorld (files wa) (EvStart "nohup" (chromePath cm :: args) :: events wa)).
  assert (Hs1 : Start (chromePath cm) args ws = (Ret (Some e1), wa))
    by (unfold Start; now rewrite H1).
  assert (Hs2 : Start "nohup" (chromePath cm :: args) wa = (Ret (Some e2), wb))
    by (unfold Start; now rewrite H2).
  match goal with
  | |- context [WriteFile desktop ?c] => set (content := c)
  end.
  destruct (WriteFile_err wb desktop) as [e|] eqn:Hw.
  - exists wb. split.
    + rewrite (bind_run (_ ≫= _) _ ws wb (inr (Some e2))); [reflexivity|].
      rewrite (bind_run (Start _ _) _ ws wa (Some e1) Hs1).
      rewrite (bind_run (Start _ _) _ wa wb (Some e2) Hs2).
      rewrite (bind_run (WriteFile desktop content) _ wb wb (Some e));
        [reflexivity|]. unfold WriteFile. now rewrite Hw.
    + intros Hall. rewrite Hall in Hw. discriminate Hw.
  - set (wc := mkWorld (<[ desktop := content ]> (files wb)) (events wb)).
    set (wd := mkWorld (files wc) (EvStart "xdg-open" [ desktop ] :: events wc)).
    exists wd. split; [|reflexivity].
    rewrite (bind_run (_ ≫= _) _ ws wd (inr (Some e2))); [reflexivity|].
    rewrite (bind_run (Start _ _) _ ws wa (Some e1) Hs1).
    rewrite (bind_run (Start _ _) _ wa wb (Some e2) Hs2).
    rewrite (bind_run (WriteFile desktop content) _ wb wc None);
      [|unfold WriteFile; now rewrite Hw].
    now rewrite (bind_run (Start "xdg-open" [ desktop ]) _ wc wd
                   (Start_err wc "xdg-open" [ desktop ]) eq_refl).
Qed.

(** X22: on macOS, when the direct start fails, the second attempt
    writes the launcher script with the whole command line and starts it
    with [/bin/bash]; if that works the launch is reported and [open] is
    not tried, and if the script cannot be written the function returns
    at once with that error. *)
Theorem darwin_script_attempt (cm : ChromiumManager) (name : string)
    (p : Profile) (w : World) (e1 : error) :
  GOOS = "darwin" ->
  profiles cm !! name = Some p ->
  let path := filepath_Join (profileDir cm) (Name p) in
  let script := filepath_Join TempDir "launch_chrome.sh" in
  (forall w0, Start_err w0 (chromePath cm) (buildArgs p path) = Some e1) ->
  ((forall w0, WriteFile_err w0 script = None) ->
   (forall w0, Start_err w0 "/bin/bash" [ script ] = None) ->
   exists w',
     launchBrowser cm name w = (Ret ("Launched with profile: " +:+ Name p), w')
     /\ events w' =
          EvStart "/bin/bash" [ script ]
          :: EvStart (chromePath cm) (buildArgs p path)
          :: EvMkdirAll path :: events w
     /\ files w' !! script =
          Some ("#!/bin/bash" +:+ nl +:+ chromePath cm +:+ " " +:+
                strings_Join (buildArgs p path) " " +:+ " &" +:+ nl))
  /\ (forall e, (forall w0, WriteFile_err w0 script = Some e) ->
      exists w',
        launchBrowser cm name w
        = (Ret ("Error creating launcher script: " +:+ e), w')
        /\ events w' =
             EvStart (chromePath cm) (buildArgs p path)
             :: EvMkdirAll path :: events w).
Proof.
  intros Hos Hp path script H1. rewrite (launchBrowser_seeded cm name p w Hp).
  fold path. rewrite Hos. cbn [String.eqb Ascii.eqb Bool.eqb].
  set (ws := seededWorld path w).
  assert (Hev : events ws = EvMkdirAll path :: events w)
    by apply seededWorld_events.
  set (args := buildArgs p path) in *.
  unfold startDarwin. fold script.
  set (wa := mkWorld (files ws) (EvStart (chromePath cm) args :: events ws)).
  assert (Hs1 : Start (chromePath cm) args ws = (Ret (Some e1), wa))
    by (unfold Start; now rewrite H1).
  match goal with
  | |- context [WriteFile script ?c] => set (content := c)
  end.
  split.
  - intros Hw H2.
    set (wb := mkWorld (<[ script := content ]> (files wa)) (events wa)).
    set (wc := mkWorld (files wb) (EvStart "/bin/bash" [ script ] :: events wb)).
    exists wc. split; [|split].
    + rewrite (bind_run (_ ≫= _) _ ws wc (inr None)); [reflexivity|].
      rewrite (bind_run (Start _ _) _ ws wa (Some e1) Hs1).
      rewrite (bind_run (WriteFile script content) _ wa wb None);
        [|unfold WriteFile; now rewrite Hw].
      rewrite (bind_run (Start "/bin/bash" [ script ]) _ wb wc None);
        [reflexivity|]. unfold Start. now rewrite H2.
    + unfold wc, wb, wa. cbn [events]. now rewrite Hev.
    + unfold wc, wb. cbn [files]. apply lookup_insert_eq.
  - intros e Hw. exists wa. split.
    + rewrite (bind_run (_ ≫= _) _ ws wa
                 (inl ("Error creating launcher script: " +:+ e)));
        [reflexivity|].
      rewrite (bind_run (Start _ _) _ ws wa (Some e1) Hs1).
      rewrite (bind_run (WriteFile script content) _ wa wa (Some e));
        [reflexivity|]. unfold WriteFile. now rewrite Hw.
    + unfold wa. cbn [events]. now rewrite Hev.
Qed.

Lemma removed_files_sub (path : string) (w : World) (file v : string) :
  files (removed path w) !! file = Some v -> files w !! file = Some v.
Proof.
  unfold removed. cbn [files]. intros H.
  apply map_lookup_filter_Some in H as [H _]. exact H.
Qed.

Lemma removed_files_outside (path : string) (w : World) (file : string) :
  pathUnder path file = false ->
  files (removed path w) !! file = files w !! file.
Proof.
  intros Hu. unfold removed. cbn [files].
  destruct (files w !! file) as [v|] eqn:Hf.
  - apply map_lookup_filter_Some. split; [exact Hf|].
    cbn [fst]. unfold removes. now rewrite Hu.
  - apply map_lookup_filter_None. left. exact Hf.
Qed.

Lemma removed_files_gone (path : string) (w : World) (file : string) :
  RemoveAll_err w path = None -> pathUnder path file = true ->
  files (removed path w) !! file = None.
Proof.
  intros He Hu. unfold removed. cbn [files].
  apply map_lookup_filter_None. right. intros v _.
  cbn [fst]. unfold removes. rewrite Hu, He. discriminate.
Qed.

Lemma removedAll_events (path : string) (names : list string) (w : World) :
  events (removedAll path names w)
  = reverse ((fun n => EvRemoveAll (filepath_Join path n)) <$> names)
    ++ events w.
Proof.
  revert w. induction names as [|n names IH]; intros w; [reflexivity|].
  change (removedAll path (n :: names) w)
    with (removedAll path names (removed (filepath_Join path n) w)).
  rewrite IH. cbn [fmap list_fmap removed events].
  rewrite reverse_cons, <- app_assoc. reflexivity.
Qed.

Lemma removedAll_files_sub (path : string) (names : list string) (w : World)
    (file v : string) :
  files (removedAll path names w) !! file = Some v -> files w !! file = Some v.
Proof.
  revert w. induction names as [|n names IH]; intros w H; [exact H|].
  apply (removed_files_sub (filepath_Join path n)). apply IH. exact H.
Qed.

Lemma removedAll_files_outside (path : string) (names : list string)
    (w : World) (file : string) :
  (forall n, In n names -> pathUnder (filepath_Join path n) file = false) ->
  files (removedAll path names w) !! file = files w !! file.
Proof.
  revert w. induction names as [|n names IH]; intros w H; [reflexivity|].
  change (removedAll path (n :: names) w)
    with (removedAll path names (removed (filepath_Join path n) w)).
  rewrite IH by (intros m Hm; apply H; now right).
  apply removed_files_outside, H. now left.
Qed.

Lemma removedAll_files_gone (path : string) (names : list string) (w : World)
    (n file : string) :
  (forall j, j < length names -> removalAnswer path names w j = None) ->
  In n names -> pathUnder (filepath_Join path n) file = true ->
  files (removedAll path names w) !! file = None.
Proof.
  revert w. induction names as [|m names IH]; intros w Hall Hin Hu;
    [contradiction|].
  change (removedAll path (m :: names) w)
    with (removedAll path names (removed (filepath_Join path m) w)).
  assert (Hrest : forall j, j < length names ->
            removalAnswer path names (removed (filepath_Join path m) w) j = None).
  { intros j Hj. rewrite <- removalAnswer_next. apply Hall. simpl. lia. }
  destruct Hin as [-> | Hin]; [|exact (IH _ Hrest Hin Hu)].
  destruct (files (removedAll path names (removed (filepath_Join path n) w))
              !! file) as [v|] eqn:Hf; [|reflexivity].
  apply removedAll_files_sub in Hf.
  rewrite removed_files_gone in Hf; [discriminate Hf | | exact Hu].
  rewrite <- (removalAnswer_first path n names w). apply Hall. simpl. lia.
Qed.

Lemma firstRemovalError_unique (path : string) (names : list string)
    (w : World) (k k' : nat) (e e' : error) :
  firstRemovalError path names w k e ->
  firstRemovalError path names w k' e' -> k = k' /\ e = e'.
Proof.
  intros (_ & Hb & Hk) (_ & Hb' & Hk').
  destruct (Nat.lt_trichotomy k k') as [Hlt | [-> | Hlt]].
  - rewrite (Hb' k Hlt) in Hk. discriminate Hk.
  - rewrite Hk in Hk'. injection Hk' as ->. split; reflexivity.
  - rewrite (Hb k' Hlt) in Hk'. discriminate Hk'.
Qed.

(** X24: the removal loop of the clean action always returns.  It asks
    for the removal of a front part of the listing, in order, and for
    nothing else; it adds no file and leaves every file that is not below
    an entry it asked for as it was.  It returns no error exactly when
    the system accepted the removal of every entry, and then no file
    below a listed entry is left; otherwise it returns the error of the
    first entry the system refused and has asked for nothing behind
    it. *)
Theorem removeEntries_trace (path : string) (names : list string) (w : World) :
  exists r w' done,
    removeEntries path names w = (Ret r, w')
    /\ done `prefix_of` names
    /\ events w' =
         reverse ((fun n => EvRemoveAll (filepath_Join path n)) <$> done)
         ++ events w
    /\ (forall file v, files w' !! file = Some v -> files w !! file = Some v)
    /\ (forall file,
          (forall n, In n done -> pathUnder (filepath_Join path n) file = false) ->
          files w' !! file = files w !! file)
    /\ (r = None <->
        forall j, j < length names -> removalAnswer path names w j = None)
    /\ (r = None ->
        done = names
        /\ forall n file,
             In n names -> pathUnder (filepath_Join path n) file = true ->
             files w' !! file = None)
    /\ (forall k e,
          firstRemovalError path names w k e ->
          r = Some e /\ done = take (S k) names).
Proof.
  destruct (removeEntries_run path names w) as (r & w' & Hrun & Hr).
  destruct r as [e|].
  - destruct Hr as (k & Hk & ->).
    exists (Some e), (removedAll path (take (S k) names) w), (take (S k) names).
    split; [exact Hrun|].
    split; [exists (drop (S k) names); symmetry; apply take_drop|].
    split; [apply removedAll_events|].
    split; [apply removedAll_files_sub|].
    split; [apply removedAll_files_outside|].
    split; [|split; [discriminate|]].
    + split; [discriminate|]. intros Hall.
      destruct Hk as (Hlt & _ & Hk). rewrite (Hall k Hlt) in Hk.
      discriminate Hk.
    + intros k' e' Hk'.
      destruct (firstRemovalError_unique _ _ _ _ _ _ _ Hk Hk') as [<- <-].
      split; reflexivity.
  - destruct Hr as (Hall & ->).
    exists None, (removedAll path names w), names.
    split; [exact Hrun|]. split; [reflexivity|].
    split; [apply removedAll_events|].
    split; [apply removedAll_files_sub|].
    split; [apply removedAll_files_outside|].
    split; [split; [intros _; exact Hall | reflexivity]|].
    split.
    + intros _. split; [reflexivity|]. intros n file.
      apply removedAll_files_gone. exact Hall.
    + intros k e (Hlt & _ & Hk). rewrite (Hall k Hlt) in Hk. discriminate Hk.
Qed.

Lemma Update_select_clean (cm : ChromiumManager) (k : Key) :
  KType k = KeyEnter -> currentView cm = "select_clean" ->
  Update cm (KeyMsg k) = updateSelectClean cm k.
Proof.
  intros Hk Hv. unfold Update, isKey. rewrite Hk, Hv.
  rewrite !bool_decide_eq_false_2 by discriminate. reflexivity.
Qed.

(** X25: the clean action of the UI always returns to [main] and
    leaves the mapping alone.  What it does to the system is to ask for
    the removal of a front part of the listing of the profile's
    directory, in order; every file that is not below one of these
    entries stays as it was.  For a missing directory it removes nothing
    and says so.  It says "completely cleared" exactly when the directory
    is there, can be listed and the system accepted the removal of every
    entry; when the system refuses one, it stops there and the message is
    the error of that entry. *)
Theorem clean_action (cm : ChromiumManager) (k : Key) (w : World) (i : item) :
  currentView cm = "select_clean" ->
  KType k = KeyEnter ->
  SelectedItem (profileList cm) = Some i ->
  let path := filepath_Join (profileDir cm) (title i) in
  let cleared := "Profile '" +:+ title i +:+ "' completely cleared and reset" in
  exists cm' c w' done,
    Update cm (KeyMsg k) w = (Ret (cm', c), w')
    /\ currentView cm' = "main"
    /\ profiles cm' = profiles cm
    /\ w' = removedAll path done w
    /\ (forall file,
          (forall n, In n done -> pathUnder (filepath_Join path n) file = false) ->
          files w' !! file = files w !! file)
    /\ (forall names, ReadDir w path = inr names -> done `prefix_of` names)
    /\ (fst (Stat_IsNotExist path w) = Ret true ->
        done = [] /\ message cm' = "Profile directory does not exist")
    /\ (message cm' = cleared <->
        fst (Stat_IsNotExist path w) = Ret false
        /\ exists names,
             ReadDir w path = inr names
             /\ forall j, j < length names -> removalAnswer path names w j = None)
    /\ (message cm' = cleared -> ReadDir w path = inr done)
    /\ (forall names j e,
          fst (Stat_IsNotExist path w) = Ret false ->
          ReadDir w path = inr names ->
          firstRemovalError path names w j e ->
          message cm' = "Error cleaning profile: " +:+ e
          /\ done = take (S j) names).
Proof.
  intros Hv Hk Hi path cleared. rewrite (Update_select_clean cm k Hk Hv).
  unfold updateSelectClean, isKey.
  rewrite Hk, bool_decide_eq_true_2, Hi by reflexivity. fold path.
  destruct (returns_Stat path w) as (missing & w1 & Hs).
  assert (Hw : w1 = w) by (unfold Stat_IsNotExist in Hs; congruence). subst w1.
  rewrite (bind_run (Stat_IsNotExist path) _ w w missing Hs).
  unfold passProfileList.
  assert (Hne : forall e, "Error cleaning profile: " +:+ e <> cleared)
    by (intros e H; unfold cleared in H; rewrite !append_cons in H;
        discriminate H).
  destruct missing.
  - destruct (list_Update _ _) as [l c]. eexists _, c, w, [].
    split; [reflexivity|]. split; [reflexivity|]. split; [reflexivity|].
    split; [reflexivity|]. split; [reflexivity|].
    split; [intros names _; now exists names|].
    split; [intros _; split; reflexivity|].
    split; [|split].
    + split.
      * intros Hm. cbn in Hm. unfold cleared in Hm.
        rewrite !append_cons in Hm. discriminate Hm.
      * intros [Hm _]. rewrite Hs in Hm. discriminate Hm.
    + intros Hm. cbn in Hm. unfold cleared in Hm.
      rewrite !append_cons in Hm. discriminate Hm.
    + intros names j e Hm. rewrite Hs in Hm. discriminate Hm.
  - rewrite (bind_run getWorld _ w w w eq_refl).
    destruct (ReadDir w path) as [e|names] eqn:Hrd.
    + destruct (list_Update _ _) as [l c]. eexists _, c, w, [].
      split; [reflexivity|]. split; [reflexivity|]. split; [reflexivity|].
      split; [reflexivity|]. split; [reflexivity|].
      split; [intros names Hn; discriminate Hn|].
      split; [intros Hm; rewrite Hs in Hm; discriminate Hm|].
      split; [|split].
      * split.
        -- intros Hm. cbn in Hm. unfold cleared in Hm.
           rewrite !append_cons in Hm. discriminate Hm.
        -- intros [_ (names & Hn & _)]. discriminate Hn.
      * intros Hm. cbn in Hm. unfold cleared in Hm.
        rewrite !append_cons in Hm. discriminate Hm.
      * intros names j e' _ Hn. discriminate Hn.
    + destruct (removeEntries_run path names w) as (r & w2 & Hrm & Hr).
      rewrite (bind_run (removeEntries path names) _ w w2 r Hrm).
      destruct r as [e|].
      * destruct Hr as (j & Hj & ->).
        eexists _, CmdNil, _, (take (S j) names).
        split; [reflexivity|]. split; [reflexivity|]. split; [reflexivity|].
        split; [reflexivity|]. split; [apply removedAll_files_outside|].
        split; [intros names' Hn; injection Hn as <-;
                exists (drop (S j) names); symmetry; apply take_drop|].
        split; [intros Hm; rewrite Hs in Hm; discriminate Hm|].
        split; [|split].
        -- split.
           ++ intros Hm. cbn in Hm. destruct (Hne e Hm).
           ++ intros [_ (names' & Hn & Hall)]. injection Hn as <-.
              destruct Hj as (Hlt & _ & Hj). rewrite (Hall j Hlt) in Hj.
              discriminate Hj.
        -- intros Hm. cbn in Hm. destruct (Hne e Hm).
        -- intros names' j' e' _ Hn Hj'. injection Hn as <-.
           destruct (firstRemovalError_unique _ _ _ _ _ _ _ Hj Hj') as [<- <-].
           split; reflexivity.
      * destruct Hr as (Hall & ->).
        destruct (list_Update _ _) as [l c]. eexists _, c, _, names.
        split; [reflexivity|]. split; [reflexivity|]. split; [reflexivity|].
        split; [reflexivity|]. split; [apply removedAll_files_outside|].
        split; [intros names' Hn; injection Hn as <-; reflexivity|].
        split; [intros Hm; rewrite Hs in Hm; discriminate Hm|].
        split; [|split].
        -- split; [|intros _; reflexivity].
           intros _. split; [now rewrite Hs|]. exists names.
           split; [reflexivity | exact Hall].
        -- intros _. reflexivity.
        -- intros names' j e _ Hn (Hlt & _ & Hj). injection Hn as <-.
           rewrite (Hall j Hlt) in Hj. discriminate Hj.
Qed.

End Launching.

Lemma launch_missing_profile_witness :
  @launchBrowser uiRuntime twoManager "nosuch" emptyWorld
  = (Ret "Profile 'nosuch' not found", emptyWorld).
Proof.
  apply (@launch_missing_profile uiRuntime twoManager "nosuch" emptyWorld).
  vm_compute. reflexivity.
Defined.

Lemma launch_first_attempt_witness :
  exists w',
    @launchBrowser uiRuntime twoManager "work" emptyWorld
    = (Ret "Launched with profile: work", w')
    /\ events w' =
         [ EvStart "/usr/bin/chromium"
             (buildArgs (mkProfile "work" "none" "none" "--a --b")
                "/home/u/.chrome_profiles/work");
           EvMkdirAll "/home/u/.chrome_profiles/work" ].
Proof.
  apply (@launch_first_attempt uiRuntime twoManager "work"
           (mkProfile "work" "none" "none" "--a --b") emptyWorld).
  - vm_compute. reflexivity.
  - intros w0. reflexivity.
Defined.

Lemma launch_seed_file_witness :
  exists msg w',
    @launchBrowser uiRuntime twoManager "work" emptyWorld = (Ret msg, w')
    /\ files w' =
         <[ "/home/u/.chrome_profiles/work/Local State" := prefsData ]> ∅.
Proof.
  destruct (@launch_seed_file uiRuntime twoManager "work"
              (mkProfile "work" "none" "none" "--a --b") emptyWorld)
    as (msg & w' & Hrun & _ & Hnew & _).
  - vm_compute. reflexivity.
  - intros w0. reflexivity.
  - exists msg, w'. split; [exact Hrun|].
    apply Hnew; [vm_compute; reflexivity | intros w0; reflexivity
                | intros w0; reflexivity].
Defined.

Lemma linux_third_attempt_lost_witness :
  exists w',
    @launchBrowser onlyXdgOpen twoManager "work" emptyWorld
    = (Ret "Error launching browser: exec format error", w')
    /\ hd_error (events w')
       = Some (EvStart "xdg-open" [ "/tmp/launchium_chrome.desktop" ]).
Proof.
  destruct (@linux_third_attempt_lost onlyXdgOpen twoManager "work"
              (mkProfile "work" "none" "none" "--a --b") emptyWorld
              "exec format error" "exec format error")
    as (w' & Hrun & Hxdg).
  - reflexivity.
  - vm_compute. reflexivity.
  - intros w0. reflexivity.
  - intros w0. reflexivity.
  - exists w'. split; [exact Hrun|]. apply Hxdg. intros w0. reflexivity.
Defined.

Lemma darwin_script_attempt_witness :
  exists w',
    @launchBrowser scriptOnly twoManager "work" emptyWorld
    = (Ret "Launched with profile: work", w')
    /\ hd_error (events w') = Some (EvStart "/bin/bash" [ "/tmp/launch_chrome.sh" ]).
Proof.
  destruct (@darwin_script_attempt scriptOnly twoManager "work"
              (mkProfile "work" "none" "none" "--a --b") emptyWorld
              "exec format error") as (Hscript & _).
  - reflexivity.
  - vm_compute. reflexivity.
  - intros w0. reflexivity.
  - destruct Hscript as (w' & Hrun & Hev & _).
    + intros w0. reflexivity.
    + intros w0. reflexivity.
    + exists w'. split; [exact Hrun|]. now rewrite Hev.
Defined.

Lemma removeEntries_trace_witness :
  exists w',
    @removeEntries cleanStuck "/home/u/.chrome_profiles/work" [ "Cache"; "Cookies" ]
      workFiles = (Ret (Some "permission denied"), w')
    /\ events w' = [ EvRemoveAll "/home/u/.chrome_profiles/work/Cookies";
                     EvRemoveAll "/home/u/.chrome_profiles/work/Cache" ]
    /\ files w' !! "/s/profiles.conf" = Some mixedStore
    /\ files w' !! "/home/u/.chrome_profiles/work/Cache/data" = None.
Proof.
  destruct (@removeEntries_trace cleanStuck "/home/u/.chrome_profiles/work"
              [ "Cache"; "Cookies" ] workFiles)
    as (r & w' & done & Hrun & _ & Hev & _ & Hout & _ & _ & Herr).
  destruct (Herr 1 "permission denied") as [-> ->].
  { split; [simpl; lia|]. split; [|vm_compute; reflexivity].
    intros [|j] Hj; [vm_compute; reflexivity | lia]. }
  exists w'. split; [exact Hrun|]. split; [exact Hev|]. split.
  - rewrite Hout; [vm_compute; reflexivity|].
    intros n [<- | [<- | []]]; vm_compute; reflexivity.
  - assert (Hw : w' = snd (@removeEntries cleanStuck
                             "/home/u/.chrome_profiles/work"
                             [ "Cache"; "Cookies" ] workFiles))
      by now rewrite Hrun.
    rewrite Hw. vm_compute. reflexivity.
Defined.

Lemma clean_action_witness :
  exists cm' c w',
    @Update cleanStuck cleaningWork keyEnter workFiles = (Ret (cm', c), w')
    /\ currentView cm' = "main"
    /\ profiles cm' = twoProfiles
    /\ message cm' = "Error cleaning profile: permission denied"
    /\ events w' = [ EvRemoveAll "/home/u/.chrome_profiles/work/Cookies";
                     EvRemoveAll "/home/u/.chrome_profiles/work/Cache" ]
    /\ files w' !! "/s/profiles.conf" = Some mixedStore.
Proof.
  destruct (@clean_action cleanStuck cleaningWork (mkKey KeyEnter "" false)
              workFiles (mkItem "work" "") eq_refl eq_refl eq_refl)
    as (cm' & c & w' & done & Hrun & Hv & Hp & Hw & Hout & _ & _ & _ & _ & Herr).
  destruct (Herr [ "Cache"; "Cookies" ] 1 "permission denied")
    as [Hm ->].
  { vm_compute. reflexivity. }
  { vm_compute. reflexivity. }
  { split; [simpl; lia|]. split; [|vm_compute; reflexivity].
    intros [|j] Hj; [vm_compute; reflexivity | lia]. }
  exists cm', c, w'. split; [exact Hrun|]. split; [exact Hv|].
  split; [exact Hp|]. split; [exact Hm|]. split.
  - rewrite Hw. vm_compute. reflexivity.
  - rewrite Hout; [vm_compute; reflexivity|].
    intros n [<- | [<- | []]]; vm_compute; reflexivity.
Defined.

Lemma append_not_empty (a b : string) : a <> "" -> a +:+ b <> "".
Proof. destruct a; [contradiction|]. rewrite append_cons. discriminate. Qed.

Lemma flagTokens_spec (flags t : string) :
  In t (flagTokens flags) -> t <> "" /\ hasByte chr_space t = false.
Proof.
  unfold flagTokens. intros H. apply filter_In in H as [Hin Hne].
  split.
  - apply negb_true_iff, String.eqb_neq in Hne. exact Hne.
  - exact (Split_pieces_free flags chr_space t Hin).
Qed.

(** X26: no argument built by [buildArgs] is empty, and the only
    arguments that can contain a space are the user-data-dir flag and the
    proxy flag: a flags string is cut at every space. *)
Theorem buildArgs_wellformed (p : Profile) (path : string) :
  (forall a, In a (buildArgs p path) -> a <> "")
  /\ (forall a, In a (buildArgs p path) ->
        hasByte chr_space a = true ->
        a = "--user-data-dir=" +:+ path
        \/ (Proxy p <> "none" /\ In a (proxyArgs p))).
Proof.
  rewrite buildArgs_shape. split.
  - intros a Hin. apply in_app_or in Hin as [Hin|Hin].
    + simpl in Hin. destruct Hin as [<-|[<-|[<-|[]]]];
        [apply append_not_empty| |]; discriminate.
    + apply in_app_or in Hin as [Hin|Hin].
      * unfold proxyArgs in Hin. destruct (String.eqb (Proxy p) "none"); [destruct Hin|].
        destruct Hin as [<-|[]]. apply append_not_empty. discriminate.
      * apply in_app_or in Hin as [Hin|Hin].
        -- now apply flagTokens_spec in Hin.
        -- unfold standardFlags in Hin. simpl in Hin.
           repeat (destruct Hin as [<-|Hin]; [discriminate|]). contradiction.
  - intros a Hin Hsp. apply in_app_or in Hin as [Hin|Hin].
    + simpl in Hin. destruct Hin as [<-|[<-|[<-|[]]]];
        [now left | discriminate Hsp | discriminate Hsp].
    + apply in_app_or in Hin as [Hin|Hin].
      * right. split; [|exact Hin]. unfold proxyArgs in Hin.
        destruct (String.eqb_spec (Proxy p) "none"); [destruct Hin | assumption].
      * exfalso. apply in_app_or in Hin as [Hin|Hin].
        -- apply flagTokens_spec in Hin as [_ Hf]. congruence.
        -- unfold standardFlags in Hin. simpl in Hin.
           repeat (destruct Hin as [<-|Hin]; [discriminate Hsp|]). contradiction.
Qed.

Lemma insertAll_union (ps : list Profile) (m : gmap string Profile) :
  insertAll m ps = insertAll ∅ ps ∪ m.
Proof.
  induction ps as [|p ps IH] using rev_ind.
  - simpl. now rewrite (left_id_L ∅ (∪)).
  - unfold insertAll in *. rewrite !foldl_app. simpl. rewrite IH.
    now rewrite insert_union_l.
Qed.

Section Commands.
Context `{RT : Runtime}.

(** X17: from any world and for any sequence of messages, the view
    a session ends in is one of the thirteen views of the program. *)
Theorem session_views (w : World) (msgs : list Msg) :
  exists cm w',
    (initialModel ≫= fun cm0 => runMsgs cm0 msgs) w = (Ret cm, w')
    /\ In (currentView cm) knownViews.
Proof.
  destruct (returns_initialModel w) as (cm0 & w0 & H0).
  destruct (returns_runMsgs msgs cm0 w0) as (cm & w' & H1).
  exists cm, w'. rewrite (bind_run initialModel _ w w0 cm0 H0).
  split; [exact H1|].
  apply (runMsgs_inv (fun c => In (currentView c) knownViews)) with msgs cm0 w0 w'.
  - intros c msg v c' x v' Hc Hu. exact (Update_known_view c msg v c' x v' Hc Hu).
  - destruct (initialModel_start w cm0 w0 H0) as (_ & -> & _). now left.
  - exact H1.
Qed.

Lemma printed_list (l : list (string * Profile)) (w : World) :
  exists w',
    foldr (fun kv rest => Println ("  - " +:+ fst kv) ≫= fun _ => rest)
          (mret tt) l w = (Ret tt, w')
    /\ printed w' = printed w ++ ((fun kv => ("  - " +:+ fst kv) +:+ nl) <$> l).
Proof.
  revert w. induction l as [|kv l IH]; intros w; simpl.
  - exists w. split; [reflexivity|]. now rewrite app_nil_r.
  - set (w1 := mkWorld (files w) (EvPrint (("  - " +:+ fst kv) +:+ nl) :: events w)).
    destruct (IH w1) as (w' & Hrun & Hp). exists w'. split.
    + now rewrite (bind_run (Println _) _ w w1 tt eq_refl).
    + rewrite Hp. unfold w1. rewrite printed_log, <- app_assoc. reflexivity.
Qed.

(** X27: the [list] subcommand prints, after whatever startup
    printed, the header and one line per profile of the mapping, each
    name once, and ends with status 0. *)
Theorem list_prints (w : World) (prog : string) (rest : list string) (v : string) :
  os_Args = prog :: "list" :: rest ->
  flag_Parse None rest = FlagValue v ->
  exists cm w0 w',
    initialModel w = (Ret cm, w0)
    /\ main w = (Exited 0, w')
    /\ printed w' =
         printed w0 ++ ("Available profiles:" +:+ nl)
         :: ((fun kv => ("  - " +:+ fst kv) +:+ nl) <$> map_range (profiles cm))
    /\ fst <$> map_range (profiles cm) ≡ₚ fst <$> map_to_list (profiles cm).
Proof.
  intros Ha Hp. destruct (returns_initialModel w) as (cm & w0 & Hinit).
  set (w1 := mkWorld (files w0) (EvPrint ("Available profiles:" +:+ nl) :: events w0)).
  destruct (printed_list (map_range (profiles cm)) w1) as (w' & Hrun & Hpr).
  exists cm, w0, w'. split; [exact Hinit|]. split; [|split].
  - unfold main.
    rewrite (bind_run parseCommandLine _ w w _
               (parseCommandLine_plain prog "list" rest v w Ha (or_introl eq_refl) Hp)).
    cbv beta iota. rewrite (bind_run initialModel _ w w0 cm Hinit).
    cbn [String.eqb Ascii.eqb Bool.eqb].
    rewrite (bind_run (_ ≫= _) _ w0 w' tt); [reflexivity|].
    now rewrite (bind_run (Println _) _ w0 w1 tt eq_refl).
  - rewrite Hpr. unfold w1. rewrite printed_log, <- app_assoc. reflexivity.
  - now rewrite map_range_perm.
Qed.

End Commands.

Lemma buildArgs_wellformed_witness :
  let p := mkProfile "work" "10.0.0.1:8080" "http" "--a  --b" in
  let path := "/d/my work" in
  In ("--user-data-dir=" +:+ path) (buildArgs p path)
  /\ hasByte chr_space ("--user-data-dir=" +:+ path) = true
  /\ ("--user-data-dir=" +:+ path = "--user-data-dir=" +:+ path
      \/ (Proxy p <> "none" /\ In ("--user-data-dir=" +:+ path) (proxyArgs p))).
Proof.
  intros p path.
  assert (Hin : In ("--user-data-dir=" +:+ path) (buildArgs p path))
    by (vm_compute; auto).
  assert (Hsp : hasByte chr_space ("--user-data-dir=" +:+ path) = true)
    by (vm_compute; reflexivity).
  split; [exact Hin|]. split; [exact Hsp|].
  exact (proj2 (buildArgs_wellformed p path) _ Hin Hsp).
Defined.

Lemma list_prints_witness :
  exists cm w0 w',
    @initialModel listCommand emptyWorld = (Ret cm, w0)
    /\ @main listCommand emptyWorld = (Exited 0, w')
    /\ printed w' =
         printed w0 ++ ("Available profiles:" +:+ nl)
         :: ((fun kv => ("  - " +:+ fst kv) +:+ nl)
               <$> @map_range listCommand (profiles cm)).
Proof.
  destruct (@list_prints listCommand emptyWorld "launchium" [] "" eq_refl eq_refl)
    as (cm & w0 & w' & Hinit & Hmain & Hpr & _).
  exists cm, w0, w'. auto.
Defined.

Section Discovery.
Context `{RT : Runtime}.

Lemma firstExisting_none (paths : list string) (cm : ChromiumManager) (w : World) :
  (forall path, In path paths -> fst (Stat_IsNotExist path w) = Ret true) ->
  firstExisting paths cm w = (Ret cm, w).
Proof.
  induction paths as [|path paths IH]; intros H; [reflexivity|].
  simpl. assert (Hp : Stat_IsNotExist path w = (Ret true, w)).
  { specialize (H path (or_introl eq_refl)). unfold Stat_IsNotExist in *.
    simpl in H. injection H as ->. reflexivity. }
  rewrite (bind_run (Stat_IsNotExist path) _ w w true Hp).
  apply IH. intros q Hq. apply H. now right.
Qed.

Lemma firstExisting_found (before after : list string) (path : string)
    (cm : ChromiumManager) (w : World) :
  (forall q, In q before -> fst (Stat_IsNotExist q w) = Ret true) ->
  fst (Stat_IsNotExist path w) = Ret false ->
  firstExisting (before ++ path :: after) cm w = (Ret (set_chromePath path cm), w).
Proof.
  induction before as [|q before IH]; intros Hb Hp.
  - simpl. assert (Hs : Stat_IsNotExist path w = (Ret false, w)).
    { unfold Stat_IsNotExist in *. simpl in Hp. injection Hp as ->. reflexivity. }
    now rewrite (bind_run (Stat_IsNotExist path) _ w w false Hs).
  - simpl. assert (Hq : Stat_IsNotExist q w = (Ret true, w)).
    { specialize (Hb q (or_introl eq_refl)). unfold Stat_IsNotExist in *.
      simpl in Hb. injection Hb as ->. reflexivity. }
    rewrite (bind_run (Stat_IsNotExist q) _ w w true Hq).
    apply IH; [|exact Hp]. intros r Hr. apply Hb. now right.
Qed.

(** X28: on Linux [detectPlatform] takes the first candidate path
    that exists, in the order of the list, and changes nothing else; when
    none exists and no path was set it records the discovery error and
    falls back to [/usr/bin/google-chrome]. *)
Theorem detectPlatform_linux (getenv : string -> string)
    (join : list string -> string) (cm : ChromiumManager) (w : World) :
  GOOS = "linux" ->
  (forall before path after,
     linuxPaths = before ++ path :: after ->
     (forall q, In q before -> fst (Stat_IsNotExist q w) = Ret true) ->
     fst (Stat_IsNotExist path w) = Ret false ->
     detectPlatform getenv join cm w = (Ret (set_chromePath path cm), w))
  /\ ((forall q, In q linuxPaths -> fst (Stat_IsNotExist q w) = Ret true) ->
      chromePath cm = "" ->
      detectPlatform getenv join cm w =
        (Ret (set_chromePath "/usr/bin/google-chrome"
                (set_err (Some "Could not find Chrome or Chromium browser. Please specify path manually") cm)),
         w)).
Proof.
  intros Hos. unfold detectPlatform. rewrite Hos.
  cbn [String.eqb Ascii.eqb Bool.eqb]. split.
  - intros before path after Hl Hb Hp. rewrite Hl.
    rewrite (bind_run (firstExisting _ cm) _ w w _
               (firstExisting_found before after path cm w Hb Hp)).
    cbn [chromePath set_chromePath].
    assert (Hne : String.eqb path "" = false).
    { apply String.eqb_neq. intros ->.
      assert (Hin : In "" linuxPaths) by (rewrite Hl; apply in_elt).
      unfold linuxPaths in Hin. simpl in Hin. intuition discriminate. }
    now rewrite Hne.
  - intros Hnone Hc.
    rewrite (bind_run (firstExisting _ cm) _ w w _
               (firstExisting_none linuxPaths cm w Hnone)).
    now rewrite Hc.
Qed.

(** X29: on macOS [detectPlatform] never records a discovery
    error and looks at one path only: [chromePath] becomes the Chromium
    path when something is there and the Google Chrome path when nothing
    is, whether or not Google Chrome is installed and whatever the path
    was before; nothing else changes. *)
Theorem detectPlatform_darwin (getenv : string -> string)
    (join : list string -> string) (cm : ChromiumManager) (w : World)
    (missing : bool) :
  GOOS = "darwin" ->
  fst (Stat_IsNotExist "/Applications/Chromium.app/Contents/MacOS/Chromium" w)
  = Ret missing ->
  detectPlatform getenv join cm w =
    (Ret (set_chromePath
            (if missing
             then "/Applications/Google Chrome.app/Contents/MacOS/Google Chrome"
             else "/Applications/Chromium.app/Contents/MacOS/Chromium") cm),
     w).
Proof.
  intros Hos Hmiss. unfold detectPlatform. rewrite Hos.
  cbn [String.eqb Ascii.eqb Bool.eqb]. cbv zeta. cbn [chromePath set_chromePath].
  set (chromium := "/Applications/Chromium.app/Contents/MacOS/Chromium") in *.
  set (chrome := "/Applications/Google Chrome.app/Contents/MacOS/Google Chrome").
  destruct (returns_Stat chromium w) as (b & w1 & Hs).
  assert (Hw : w1 = w) by (unfold Stat_IsNotExist in Hs; congruence). subst w1.
  rewrite Hs in Hmiss. injection Hmiss as ->.
  destruct missing.
  - rewrite (bind_run (_ ≫= _) _ w w
               (set_chromePath chrome (set_chromePath chromium cm)));
      [reflexivity|].
    now rewrite (bind_run (Stat_IsNotExist chromium) _ w w true Hs).
  - rewrite (bind_run (_ ≫= _) _ w w (set_chromePath chromium cm));
      [reflexivity|].
    now rewrite (bind_run (Stat_IsNotExist chromium) _ w w false Hs).
Qed.

End Discovery.

Lemma detectPlatform_linux_witness :
  @detectPlatform uiRuntime (fun _ => "") (fun _ => "")
    (newManager "/s/profiles.conf") linuxBrowsers
  = (Ret (set_chromePath "/usr/bin/chromium-browser" (newManager "/s/profiles.conf")),
     linuxBrowsers).
Proof.
  apply (proj1 (@detectPlatform_linux uiRuntime (fun _ => "") (fun _ => "")
                  (newManager "/s/profiles.conf") linuxBrowsers eq_refl)
           [ "/usr/bin/chromium" ] "/usr/bin/chromium-browser"
           [ "/usr/bin/google-chrome"; "/usr/bin/google-chrome-stable";
             "/snap/bin/chromium" ]).
  - reflexivity.
  - intros q Hq. simpl in Hq. destruct Hq as [<-|[]]. vm_compute. reflexivity.
  - vm_compute. reflexivity.
Defined.

Lemma detectPlatform_darwin_witness :
  @detectPlatform scriptOnly (fun _ => "") (fun _ => "")
    (newManager "/s/profiles.conf") macChromium
  = (Ret (set_chromePath "/Applications/Chromium.app/Contents/MacOS/Chromium"
            (newManager "/s/profiles.conf")), macChromium)
  /\ @detectPlatform scriptOnly (fun _ => "") (fun _ => "")
       (newManager "/s/profiles.conf") emptyWorld
     = (Ret (set_chromePath
               "/Applications/Google Chrome.app/Contents/MacOS/Google Chrome"
               (newManager "/s/profiles.conf")), emptyWorld).
Proof.
  split.
  - apply (@detectPlatform_darwin scriptOnly (fun _ => "") (fun _ => "")
             (newManager "/s/profiles.conf") macChromium false eq_refl).
    vm_compute. reflexivity.
  - apply (@detectPlatform_darwin scriptOnly (fun _ => "") (fun _ => "")
             (newManager "/s/profiles.conf") emptyWorld true eq_refl).
    vm_compute. reflexivity.
Defined.

Lemma linesNamed_check (data : string) :
  forallb (fun line => negb (validLine line)
                       || negb (String.eqb (Name (profileOfLine line)) ""))
          (Split data chr_nl) = true ->
  linesNamed data.
Proof.
  intros H line Hin Hv. rewrite forallb_forall in H. specialize (H line Hin).
  rewrite Hv in H. cbn [negb orb] in H.
  now apply negb_true_iff, String.eqb_neq in H.
Qed.

Lemma loadLines_named (data : string) :
  linesNamed data -> namesNonEmpty (loadLines ∅ data).
Proof.
  intros Hd k p H. unfold loadLines in H. rewrite foldl_loadLine in H.
  apply insertAll_lookup in H as [[Hin _]|H]; [|rewrite lookup_empty in H; discriminate].
  apply list_elem_of_In, list_elem_of_fmap in Hin as (line & -> & Hin).
  apply list_elem_of_In, filter_In in Hin as [Hin Hv]. now apply Hd.
Qed.

Lemma namesNonEmpty_empty : namesNonEmpty ∅.
Proof. intros k p H. rewrite lookup_empty in H. discriminate. Qed.

Section Startup.
Context `{RT : Runtime}.

Ltac proc_cases :=
  unfold mbind, Proc_bind, mret, Proc_ret in *; repeat case_match; simplify_eq.

(** What [loadProfiles] leaves in an empty mapping. *)
Lemma loadProfiles_from_empty (cm : ChromiumManager) (w : World) cm' w' :
  profiles cm = ∅ ->
  loadProfiles cm w = (Ret cm', w') ->
  profiles cm' = ∅
  \/ (exists data, files w !! configFile cm = Some data
                   /\ profiles cm' = loadLines ∅ data)
  \/ profiles cm' = loadLines ∅ seedContent.
Proof.
  intros Hm H. unfold loadProfiles, Stat_IsNotExist, WriteFile, ReadFile in H.
  unfold mbind, Proc_bind, mret, Proc_ret in H. cbv beta in H.
  destruct (files w !! configFile cm) as [d|] eqn:Hf.
  - cbv beta iota in H. rewrite Hf in H. injection H as <- _.
    right. left. exists d. split; [reflexivity|]. cbn. now rewrite Hm.
  - destruct (dir_missing w (configFile cm)).
    + cbv beta iota in H. destruct (WriteFile_err w (configFile cm)).
      * cbv beta iota in H. rewrite Hf in H. injection H as <- _. now left.
      * cbv beta iota in H. cbn [files] in H. rewrite lookup_insert_eq in H.
        injection H as <- _. right. right. cbn. now rewrite Hm.
    + cbv beta iota in H. rewrite Hf in H. injection H as <- _. now left.
Qed.

(** X14: if every valid line of the store file found at startup has
    a non-empty first field (or there is no store file), then in every
    state a session reaches every profile has a non-empty name and is
    filed under it. *)
Theorem session_names (w : World) (msgs : list Msg) :
  (forall data,
     files w !! filepath_Join (filepath_Join UserHomeDir ".chrome_profiles")
                              "profiles.conf" = Some data ->
     linesNamed data) ->
  exists cm w',
    (initialModel ≫= fun cm0 => runMsgs cm0 msgs) w = (Ret cm, w')
    /\ storeInvariant (profiles cm).
Proof.
  intros Hfile.
  destruct (returns_initialModel w) as (cm0 & w0 & H0).
  destruct (returns_runMsgs msgs cm0 w0) as (cm & w' & H1).
  exists cm, w'. rewrite (bind_run initialModel _ w w0 cm0 H0).
  split; [exact H1|].
  apply (runMsgs_inv (fun c => storeInvariant (profiles c))) with msgs cm0 w0 w';
    [| |exact H1].
  - intros c msg v c' x v' Hc Hu. eapply storeStep_invariant; [exact Hc|].
    eapply Update_step, Hu.
  - split; [apply (initialModel_start w cm0 w0 H0)|].
    unfold initialModel, MkdirAll, logEvent, Stat_IsNotExist in H0.
    unfold mbind, Proc_bind in H0. cbv beta iota zeta in H0.
    match type of H0 with
    | context [loadProfiles ?c ?wl] =>
        destruct (loadProfiles c wl) as [[cm1|n] w1] eqn:Hl; [|discriminate];
        pose proof (loadProfiles_from_empty c wl cm1 w1 eq_refl Hl) as Hcases
    end.
    unfold mret, Proc_ret in H0. injection H0 as <- _.
    cbn [profiles updateManageList set_manageList set_mainList].
    cbn [configFile files] in Hcases.
    destruct Hcases as [-> | [(data & Hf & ->) | ->]].
    + apply namesNonEmpty_empty.
    + apply loadLines_named, Hfile, Hf.
    + apply loadLines_named, linesNamed_check. vm_compute. reflexivity.
Qed.

(** X4: loading an existing store file a second time changes
    nothing: the mapping after two loads is the mapping after one, from
    any mapping, and the world is untouched. *)
Theorem loadProfiles_twice (cm : ChromiumManager) (w : World) (data : string) :
  files w !! configFile cm = Some data ->
  exists cm1 cm2,
    loadProfiles cm w = (Ret cm1, w)
    /\ loadProfiles cm1 w = (Ret cm2, w)
    /\ profiles cm2 = profiles cm1.
Proof.
  intros Hf. eexists _, _. split; [apply loadProfiles_existing, Hf|].
  split; [apply loadProfiles_existing; cbn [configFile updateProfileList
            set_profileList set_profiles]; exact Hf|].
  cbn [profiles updateProfileList set_profiles set_profileList].
  unfold loadLines. rewrite !foldl_loadLine.
  set (ps := profileOfLine <$> List.filter validLine (Split data chr_nl)).
  rewrite (insertAll_union ps (insertAll (profiles cm) ps)),
    (insertAll_union ps (profiles cm)).
  rewrite (assoc_L (∪)). now rewrite (idemp_L (∪)).
Qed.

(** X23: the single-platform copy of [launchBrowser] takes the
    macOS chain on every system: a first attempt that succeeds is the
    only process started, and when the direct start, the script and
    [open] all fail, the three were tried in this order and the error
    reported is the one of [open]. *)
Theorem Variant_launch_attempts (cm : ChromiumManager) (name : string)
    (p : Profile) (w : World) :
  profiles cm !! name = Some p ->
  let path := filepath_Join (profileDir cm) (Name p) in
  let script := filepath_Join TempDir "launch_chrome.sh" in
  let args := Variant.buildArgs p path in
  ((forall w0, Start_err w0 (chromePath cm) args = None) ->
   exists w',
     Variant.launchBrowser cm name w
     = (Ret ("Launched with profile: " +:+ Name p), w')
     /\ events w' = EvStart (chromePath cm) args :: EvMkdirAll path :: events w)
  /\ (forall e1 e2 e3,
        (forall w0, Start_err w0 (chromePath cm) args = Some e1) ->
        (forall w0, WriteFile_err w0 script = None) ->
        (forall w0, Start_err w0 "/bin/bash" [ script ] = Some e2) ->
        (forall w0, Start_err w0 "open" (chromePath cm :: "--args" :: args)
                    = Some e3) ->
        exists w',
          Variant.launchBrowser cm name w
          = (Ret ("Error launching browser: " +:+ e3), w')
          /\ events w' =
               EvStart "open" (chromePath cm :: "--args" :: args)
               :: EvStart "/bin/bash" [ script ]
               :: EvStart (chromePath cm) args :: EvMkdirAll path :: events w).
Proof.
  intros Hp path script args.
  assert (Hseed : Variant.launchBrowser cm name w =
            (startDarwin (chromePath cm) args ≫= fun r =>
               match r with
               | inl msg => mret msg
               | inr (Some e) => mret ("Error launching browser: " +:+ e)
               | inr None => mret ("Launched with profile: " +:+ Name p)
               end) (seededWorld path w)).
  { unfold Variant.launchBrowser, seededWorld. rewrite Hp. fold path. fold args.
    set (prefs := filepath_Join path "Local State").
    set (w1 := mkWorld (files w) (EvMkdirAll path :: events w)).
    rewrite (bind_run (MkdirAll path) _ w w1 tt eq_refl).
    rewrite (bind_run (Stat_IsNotExist prefs) _ w1 w1 _ eq_refl).
    destruct (files w1 !! prefs) as [d|].
    - now rewrite (bind_run (mret None) _ w1 w1 None eq_refl).
    - destruct (dir_missing w1 prefs).
      + destruct (WriteFile_err w1 prefs) as [e|] eqn:Hw.
        * rewrite (bind_run (WriteFile prefs prefsData) _ w1 w1 (Some e));
            [reflexivity|]. unfold WriteFile. now rewrite Hw.
        * rewrite (bind_run (WriteFile prefs prefsData) _ w1
                     (mkWorld (<[ prefs := prefsData ]> (files w1)) (events w1))
                     None); [reflexivity|].
          unfold WriteFile. now rewrite Hw.
      + now rewrite (bind_run (mret None) _ w1 w1 None eq_refl). }
  rewrite Hseed. set (ws := seededWorld path w).
  assert (Hev : events ws = EvMkdirAll path :: events w)
    by apply seededWorld_events.
  set (wa := mkWorld (files ws) (EvStart (chromePath cm) args :: events ws)).
  unfold startDarwin. fold script.
  match goal with
  | |- context [WriteFile script ?c] => set (content := c)
  end.
  split.
  - intros H1. exists wa. split; [|unfold wa; cbn [events]; now rewrite Hev].
    rewrite (bind_run (_ ≫= _) _ ws wa (inr None)); [reflexivity|].
    rewrite (bind_run (Start _ _) _ ws wa None); [reflexivity|].
    unfold Start. now rewrite H1.
  - intros e1 e2 e3 H1 Hw H2 H3.
    set (wb := mkWorld (<[ script := content ]> (files wa)) (events wa)).
    set (wc := mkWorld (files wb) (EvStart "/bin/bash" [ script ] :: events wb)).
    set (wd := mkWorld (files wc)
                 (EvStart "open" (chromePath cm :: "--args" :: args) :: events wc)).
    exists wd. split; [|unfold wd, wc, wb, wa; cbn [events]; now rewrite Hev].
    rewrite (bind_run (_ ≫= _) _ ws wd (inr (Some e3))); [reflexivity|].
    rewrite (bind_run (Start _ _) _ ws wa (Some e1));
      [|unfold Start; now rewrite H1].
    rewrite (bind_run (WriteFile script content) _ wa wb None);
      [|unfold WriteFile; now rewrite Hw].
    rewrite (bind_run (Start "/bin/bash" [ script ]) _ wb wc (Some e2));
      [|unfold Start; now rewrite H2].
    rewrite (bind_run (Start "open" _) _ wc wd (Some e3));
      [reflexivity|]. unfold Start. now rewrite H3.
Qed.

End Startup.

Lemma session_names_witness :
  exists cm w',
    (@initialModel uiRuntime ≫= fun cm0 => @runMsgs uiRuntime cm0 keysEditThenManage)
      (mkWorld {[ "/home/u/.chrome_profiles/profiles.conf" := mixedStore ]} [])
    = (Ret cm, w')
    /\ storeInvariant (profiles cm).
Proof.
  apply (@session_names uiRuntime
           (mkWorld {[ "/home/u/.chrome_profiles/profiles.conf" := mixedStore ]} [])
           keysEditThenManage).
  intros data Hf. vm_compute in Hf. injection Hf as <-.
  apply linesNamed_check. vm_compute. reflexivity.
Defined.

Lemma loadProfiles_twice_witness :
  exists cm1 cm2,
    @loadProfiles uiRuntime twoManager mixedWorld = (Ret cm1, mixedWorld)
    /\ @loadProfiles uiRuntime cm1 mixedWorld = (Ret cm2, mixedWorld)
    /\ profiles cm2 = profiles cm1.
Proof.
  apply (@loadProfiles_twice uiRuntime twoManager mixedWorld mixedStore).
  vm_compute. reflexivity.
Defined.

Lemma Variant_launch_attempts_witness :
  exists w',
    @Variant.launchBrowser uiRuntime twoManager "work" emptyWorld
    = (Ret "Launched with profile: work", w')
    /\ events w' =
         [ EvStart "/usr/bin/chromium"
             (Variant.buildArgs (mkProfile "work" "none" "none" "--a --b")
                "/home/u/.chrome_profiles/work");
           EvMkdirAll "/home/u/.chrome_profiles/work" ].
Proof.
  apply (@Variant_launch_attempts uiRuntime twoManager "work"
           (mkProfile "work" "none" "none" "--a --b") emptyWorld).
  - vm_compute. reflexivity.
  - intros w0. reflexivity.
Defined.
